(** * Survey submission service: shallow embedding and verified properties

    The repository holds three revisions of one Express server:

    - [Sqlite]: [server.js], first document (SQLite back end);
    - [Mongo] with [Atlas]: [unnamed/part_000] (MongoDB, connection closed
      in an unguarded [finally]);
    - [Mongo] with [Guarded]: [server.js], second document (MongoDB,
      connection closed under its own [try]/[catch]).

    Requests carry a parsed JSON object ([req.body]); every handler is a
    function from the request, the environment of that request (server
    clock, faults reported by the store) and the store to the outcome of
    the request and the store afterwards. *)

From Stdlib Require Import ZArith Ascii String List Permutation Sorted.
From stdpp Require Import gmap strings list fin_maps pretty sorting.

Set Warnings "-register-all".

Local Open Scope string_scope.
Local Open Scope Z_scope.

(* ===================================================================== *)
(** ** JavaScript values and built-ins used by the handlers               *)
(* ===================================================================== *)

Module Js.

(** JSON values as [express.json()] hands them to a handler.  Numbers are
    the integers JavaScript represents exactly; fractions and exponents are
    floating point and are not part of this embedding.  A string is its sequence of bytes.  A nested
    object keeps its members in insertion order. *)
Inductive json : Type :=
  | JNull
  | JBool (b : bool)
  | JNum (n : Z)
  | JStr (s : string)
  | JArr (elements : list json)
  | JObj (members : list (string * json)).

Global Instance json_inhabited : Inhabited json := populate JNull.

Global Instance json_eq_dec : EqDecision json.
Proof.
  refine (fix go (a b : json) {struct a} : Decision (a = b) :=
    let _ : EqDecision json := @go in
    match a, b with
    | JNull, JNull => left _
    | JBool x, JBool y => cast_if (decide (x = y))
    | JNum x, JNum y => cast_if (decide (x = y))
    | JStr x, JStr y => cast_if (decide (x = y))
    | JArr xs, JArr ys => cast_if (decide (xs = ys))
    | JObj xs, JObj ys => cast_if (decide (xs = ys))
    | _, _ => right _
    end); abstract congruence.
Defined.

(** A property read [data.k] yields a JSON value or [undefined] ([None]). *)
Abbreviation jsval := (option json).

(** [ToBoolean]: the truthiness test behind [?:], [||] and [if]. *)
Definition ToBoolean (v : jsval) : bool :=
  match v with
  | None => false
  | Some JNull => false
  | Some (JBool b) => b
  | Some (JNum n) => negb (n =? 0)%Z
  | Some (JStr s) => negb (String.eqb s "")
  | Some (JArr _) => true
  | Some (JObj _) => true
  end.

Definition Array_isArray (v : jsval) : bool :=
  match v with Some (JArr _) => true | _ => false end.

(** [String(v)] on a JSON value: an array is its elements joined by
    commas, [null] elements printing as the empty string. *)
Fixpoint json_ToString (j : json) : string :=
  match j with
  | JNull => "null"
  | JBool true => "true"
  | JBool false => "false"
  | JNum n => pretty n
  | JStr s => s
  | JArr l =>
      String.concat ","
        (List.map (fun x => match x with JNull => "" | _ => json_ToString x end) l)
  | JObj _ => "[object Object]"
  end.

Definition ToString (v : jsval) : string :=
  match v with None => "undefined" | Some j => json_ToString j end.

(** [String.prototype.toLowerCase], on the ASCII letters. *)
Definition lower_ascii (c : ascii) : ascii :=
  let n := N_of_ascii c in
  if ((65 <=? n) && (n <=? 90))%N then ascii_of_N (n + 32) else c.

Fixpoint toLowerCase (s : string) : string :=
  match s with
  | EmptyString => EmptyString
  | String c s' => String (lower_ascii c) (toLowerCase s')
  end.

(** [String.prototype.includes]. *)
Fixpoint includes (hay needle : string) : bool :=
  String.prefix needle hay
  || match hay with
     | EmptyString => false
     | String _ hay' => includes hay' needle
     end.

(** *** [JSON.stringify] *)

(** On the values of the embedding below 10^21; from there on
    [JSON.stringify] prints a number with an exponent. *)

Definition dquote : ascii := ascii_of_N 34.

Definition hex_digit (n : N) : ascii :=
  if (n <? 10)%N then ascii_of_N (48 + n) else ascii_of_N (87 + n).

Definition escape_char (c : ascii) : string :=
  let n := N_of_ascii c in
  if (n =? 34)%N then "\" ++ String dquote ""
  else if (n =? 92)%N then "\\"
  else if (n =? 8)%N then "\b"
  else if (n =? 12)%N then "\f"
  else if (n =? 10)%N then "\n"
  else if (n =? 13)%N then "\r"
  else if (n =? 9)%N then "\t"
  else if (n <? 32)%N then
    "\u00" ++ String (hex_digit (n / 16)) (String (hex_digit (n mod 16)) "")
  else String c "".

Fixpoint escape (s : string) : string :=
  match s with
  | EmptyString => EmptyString
  | String c s' => escape_char c ++ escape s'
  end.

Definition quote (s : string) : string :=
  String dquote (escape s ++ String dquote "").

Fixpoint JSON_stringify (j : json) : string :=
  match j with
  | JNull => "null"
  | JBool true => "true"
  | JBool false => "false"
  | JNum n => pretty n
  | JStr s => quote s
  | JArr l => "[" ++ String.concat "," (List.map JSON_stringify l) ++ "]"
  | JObj m =>
      "{" ++ String.concat ","
               (List.map (fun kv => quote (fst kv) ++ ":" ++ JSON_stringify (snd kv)) m)
          ++ "}"
  end.

(** *** [JSON.parse] *)

Definition is_ws (c : ascii) : bool :=
  let n := N_of_ascii c in
  ((n =? 32) || (n =? 9) || (n =? 10) || (n =? 13))%N.

Fixpoint skip_ws (s : string) : string :=
  match s with
  | String c s' => if is_ws c then skip_ws s' else s
  | EmptyString => s
  end.

Definition is_digit (c : ascii) : bool :=
  let n := N_of_ascii c in ((48 <=? n) && (n <=? 57))%N.

Definition digit_val (c : ascii) : Z := Z.of_N (N_of_ascii c) - 48.

Fixpoint parse_digits (acc : Z) (s : string) : Z * string :=
  match s with
  | String c s' =>
      if is_digit c then parse_digits (10 * acc + digit_val c) s' else (acc, s)
  | EmptyString => (acc, s)
  end.

(** A number literal of the fragment: an optional minus sign, then either
    a single zero or a non-zero digit followed by digits; a fraction or an
    exponent after it leaves the fragment. *)
Definition starts_fraction (s : string) : bool :=
  match s with
  | String c _ =>
      let n := N_of_ascii c in ((n =? 46) || (n =? 101) || (n =? 69))%N
  | EmptyString => false
  end.

Definition parse_nat_literal (s : string) : option (Z * string) :=
  match s with
  | String c s' =>
      if (N_of_ascii c =? 48)%N then
        if starts_fraction s' then None else Some (0, s')
      else if is_digit c then
        let '(n, rest) := parse_digits (digit_val c) s' in
        if starts_fraction rest then None else Some (n, rest)
      else None
  | EmptyString => None
  end.

Definition parse_number (s : string) : option (Z * string) :=
  match s with
  | String c s' =>
      if (N_of_ascii c =? 45)%N then
        match parse_nat_literal s' with
        | Some (n, rest) => Some (- n, rest)
        | None => None
        end
      else parse_nat_literal s
  | EmptyString => None
  end.

Definition hex_val (c : ascii) : option N :=
  let n := N_of_ascii c in
  if ((48 <=? n) && (n <=? 57))%N then Some (n - 48)%N
  else if ((97 <=? n) && (n <=? 102))%N then Some (n - 87)%N
  else if ((65 <=? n) && (n <=? 70))%N then Some (n - 55)%N
  else None.

(** The bytes of a [\uXXXX] code unit (UTF-8).  A surrogate half keeps its
    own three bytes: an escaped surrogate pair, which [JSON.parse] joins
    into one four-byte character, is outside the embedding. *)
Definition utf8 (u : N) : string :=
  if (u <? 128)%N then String (ascii_of_N u) ""
  else if (u <? 2048)%N then
    String (ascii_of_N (192 + u / 64)) (String (ascii_of_N (128 + u mod 64)) "")
  else
    String (ascii_of_N (224 + u / 4096))
      (String (ascii_of_N (128 + (u / 64) mod 64))
         (String (ascii_of_N (128 + u mod 64)) "")).

Definition unescape (c : ascii) : option ascii :=
  let n := N_of_ascii c in
  if (n =? 34)%N then Some c
  else if (n =? 92)%N then Some c
  else if (n =? 47)%N then Some c
  else if (n =? 98)%N then Some (ascii_of_N 8)
  else if (n =? 102)%N then Some (ascii_of_N 12)
  else if (n =? 110)%N then Some (ascii_of_N 10)
  else if (n =? 114)%N then Some (ascii_of_N 13)
  else if (n =? 116)%N then Some (ascii_of_N 9)
  else None.

(** The characters of a string literal after its opening quote, up to and
    including the closing quote. *)
Fixpoint parse_chars (s : string) : option (string * string) :=
  match s with
  | EmptyString => None
  | String c s' =>
      let n := N_of_ascii c in
      if (n =? 34)%N then Some ("", s')
      else if (n =? 92)%N then
        match s' with
        | String e s'' =>
            if (N_of_ascii e =? 117)%N then
              match s'' with
              | String h1 (String h2 (String h3 (String h4 r))) =>
                  match hex_val h1, hex_val h2, hex_val h3, hex_val h4 with
                  | Some a, Some b, Some c', Some d =>
                      match parse_chars r with
                      | Some (t, rest) =>
                          Some (utf8 (((a * 16 + b) * 16 + c') * 16 + d)%N ++ t, rest)
                      | None => None
                      end
                  | _, _, _, _ => None
                  end
              | _ => None
              end
            else
              match unescape e with
              | Some c' =>
                  match parse_chars s'' with
                  | Some (t, rest) => Some (String c' t, rest)
                  | None => None
                  end
              | None => None
              end
        | EmptyString => None
        end
      else if (n <? 32)%N then None
      else
        match parse_chars s' with
        | Some (t, rest) => Some (String c t, rest)
        | None => None
        end
  end.

(** [o[k] = v] on the members of an object being built: a repeated key
    keeps its place and takes the later value. *)
Fixpoint obj_set (k : string) (v : json) (m : list (string * json))
  : list (string * json) :=
  match m with
  | [] => [(k, v)]
  | (k', v') :: m' =>
      if String.eqb k k' then (k, v) :: m' else (k', v') :: obj_set k v m'
  end.

Definition expect (c : N) (s : string) : option string :=
  match s with
  | String c' s' => if (N_of_ascii c' =? c)%N then Some s' else None
  | EmptyString => None
  end.

Fixpoint expect_word (w s : string) : option string :=
  match w with
  | EmptyString => Some s
  | String c w' =>
      match s with
      | String c' s' => if Ascii.eqb c c' then expect_word w' s' else None
      | EmptyString => None
      end
  end.

Fixpoint parse_value (fuel : nat) (s : string) : option (json * string) :=
  match fuel with
  | O => None
  | S fuel =>
      match skip_ws s with
      | EmptyString => None
      | String c s' =>
          let n := N_of_ascii c in
          if (n =? 123)%N then
            match expect 125 (skip_ws s') with
            | Some rest => Some (JObj [], rest)
            | None =>
                match parse_members fuel [] s' with
                | Some (m, rest) => Some (JObj m, rest)
                | None => None
                end
            end
          else if (n =? 91)%N then
            match expect 93 (skip_ws s') with
            | Some rest => Some (JArr [], rest)
            | None =>
                match parse_elements fuel s' with
                | Some (l, rest) => Some (JArr l, rest)
                | None => None
                end
            end
          else if (n =? 34)%N then
            match parse_chars s' with
            | Some (t, rest) => Some (JStr t, rest)
            | None => None
            end
          else if (n =? 116)%N then
            match expect_word "rue" s' with
            | Some rest => Some (JBool true, rest)
            | None => None
            end
          else if (n =? 102)%N then
            match expect_word "alse" s' with
            | Some rest => Some (JBool false, rest)
            | None => None
            end
          else if (n =? 110)%N then
            match expect_word "ull" s' with
            | Some rest => Some (JNull, rest)
            | None => None
            end
          else
            match parse_number (String c s') with
            | Some (z, rest) => Some (JNum z, rest)
            | None => None
            end
      end
  end
with parse_elements (fuel : nat) (s : string) : option (list json * string) :=
  match fuel with
  | O => None
  | S fuel =>
      match parse_value fuel s with
      | Some (v, rest) =>
          match skip_ws rest with
          | String c rest' =>
              if (N_of_ascii c =? 93)%N then Some ([v], rest')
              else if (N_of_ascii c =? 44)%N then
                match parse_elements fuel rest' with
                | Some (l, rest'') => Some (v :: l, rest'')
                | None => None
                end
              else None
          | EmptyString => None
          end
      | None => None
      end
  end
with parse_members (fuel : nat) (acc : list (string * json)) (s : string)
  : option (list (string * json) * string) :=
  match fuel with
  | O => None
  | S fuel =>
      match expect 34 (skip_ws s) with
      | Some s1 =>
          match parse_chars s1 with
          | Some (k, s2) =>
              match expect 58 (skip_ws s2) with
              | Some s3 =>
                  match parse_value fuel s3 with
                  | Some (v, rest) =>
                      let acc' := obj_set k v acc in
                      match skip_ws rest with
                      | String c rest' =>
                          if (N_of_ascii c =? 125)%N then Some (acc', rest')
                          else if (N_of_ascii c =? 44)%N then
                            parse_members fuel acc' rest'
                          else None
                      | EmptyString => None
                      end
                  | None => None
                  end
              | None => None
              end
          | None => None
          end
      | None => None
      end
  end.

(** [JSON.parse] on the integer fragment.  [None] is the [SyntaxError] it
    throws on text outside the JSON grammar; it is also the answer on JSON
    text that holds a number with a fraction or an exponent, whose value
    the embedding does not have.  [JSON_valid] below tells the two apart. *)
Definition JSON_parse (s : string) : option json :=
  match parse_value (S (String.length s)) s with
  | Some (v, rest) =>
      match skip_ws rest with
      | EmptyString => Some v
      | String _ _ => None
      end
  | None => None
  end.

(** *** The JSON grammar *)

(** One digit at least, then digits. *)
Definition valid_digits (s : string) : option string :=
  match s with
  | String c s' => if is_digit c then Some (snd (parse_digits 0 s')) else None
  | EmptyString => None
  end.

(** An optional fraction: a point, then digits. *)
Definition valid_fraction (s : string) : option string :=
  match s with
  | String c s' => if (N_of_ascii c =? 46)%N then valid_digits s' else Some s
  | EmptyString => Some s
  end.

(** An optional exponent: [e] or [E], an optional sign, then digits. *)
Definition valid_exponent (s : string) : option string :=
  match s with
  | String c s' =>
      if ((N_of_ascii c =? 101) || (N_of_ascii c =? 69))%N then
        match s' with
        | String d s'' =>
            if ((N_of_ascii d =? 43) || (N_of_ascii d =? 45))%N
            then valid_digits s'' else valid_digits s'
        | EmptyString => None
        end
      else Some s
  | EmptyString => Some s
  end.

(** The integer part: a single zero, or a non-zero digit, then digits. *)
Definition valid_integer (s : string) : option string :=
  match s with
  | String c s' =>
      if (N_of_ascii c =? 48)%N then Some s'
      else if is_digit c then Some (snd (parse_digits (digit_val c) s'))
      else None
  | EmptyString => None
  end.

(** A number literal of the grammar, fractions and exponents included. *)
Definition valid_number (s : string) : option string :=
  let unsigned :=
    match s with
    | String c s' => if (N_of_ascii c =? 45)%N then s' else s
    | EmptyString => s
    end in
  match valid_integer unsigned with
  | Some r =>
      match valid_fraction r with
      | Some r' => valid_exponent r'
      | None => None
      end
  | None => None
  end.

(** The text of one value of the grammar, and what follows it. *)
Fixpoint valid_value (fuel : nat) (s : string) : option string :=
  match fuel with
  | O => None
  | S fuel =>
      match skip_ws s with
      | EmptyString => None
      | String c s' =>
          let n := N_of_ascii c in
          if (n =? 123)%N then
            match expect 125 (skip_ws s') with
            | Some rest => Some rest
            | None => valid_members fuel s'
            end
          else if (n =? 91)%N then
            match expect 93 (skip_ws s') with
            | Some rest => Some rest
            | None => valid_elements fuel s'
            end
          else if (n =? 34)%N then
            match parse_chars s' with
            | Some (_, rest) => Some rest
            | None => None
            end
          else if (n =? 116)%N then expect_word "rue" s'
          else if (n =? 102)%N then expect_word "alse" s'
          else if (n =? 110)%N then expect_word "ull" s'
          else valid_number (String c s')
      end
  end
with valid_elements (fuel : nat) (s : string) : option string :=
  match fuel with
  | O => None
  | S fuel =>
      match valid_value fuel s with
      | Some rest =>
          match skip_ws rest with
          | String c rest' =>
              if (N_of_ascii c =? 93)%N then Some rest'
              else if (N_of_ascii c =? 44)%N then valid_elements fuel rest'
              else None
          | EmptyString => None
          end
      | None => None
      end
  end
with valid_members (fuel : nat) (s : string) : option string :=
  match fuel with
  | O => None
  | S fuel =>
      match expect 34 (skip_ws s) with
      | Some s1 =>
          match parse_chars s1 with
          | Some (_, s2) =>
              match expect 58 (skip_ws s2) with
              | Some s3 =>
                  match valid_value fuel s3 with
                  | Some rest =>
                      match skip_ws rest with
                      | String c rest' =>
                          if (N_of_ascii c =? 125)%N then Some rest'
                          else if (N_of_ascii c =? 44)%N then valid_members fuel rest'
                          else None
                      | EmptyString => None
                      end
                  | None => None
                  end
              | None => None
              end
          | None => None
          end
      | None => None
      end
  end.

(** Whether a text is JSON text: [JSON.parse] throws a [SyntaxError]
    exactly on the others. *)
Definition JSON_valid (s : string) : bool :=
  match valid_value (S (String.length s)) s with
  | Some rest =>
      match skip_ws rest with
      | EmptyString => true
      | String _ _ => false
      end
  | None => false
  end.

(** [Number.isSafeInteger] of every number of a value. *)
Fixpoint safe_integers (v : json) : bool :=
  match v with
  | JNum n => (Z.abs n <=? 9007199254740991)%Z
  | JArr l => forallb safe_integers l
  | JObj m => forallb (fun kv => safe_integers (snd kv)) m
  | _ => true
  end.

(** *** What the round trip of a value through its JSON text needs *)

(** The text after a printed value: nothing, or a comma or closing
    bracket. *)
Definition closes_value (r : string) : bool :=
  match r with
  | EmptyString => true
  | String c _ =>
      let n := N_of_ascii c in ((n =? 44) || (n =? 93) || (n =? 125))%N
  end.

(** Fuel that suffices to parse the text of a value back. *)
Fixpoint fuel_for (v : json) : nat :=
  match v with
  | JArr l => S (list_sum (List.map (fun x => S (fuel_for x)) l))
  | JObj m => S (list_sum (List.map (fun kv => S (fuel_for (snd kv))) m))
  | _ => 1
  end.

(** Every object inside the value has pairwise distinct keys, as every
    JavaScript object has. *)
Fixpoint unique_keys (v : json) : bool :=
  match v with
  | JArr l => forallb unique_keys l
  | JObj m =>
      bool_decide (NoDup (List.map fst m))
      && forallb (fun kv => unique_keys (snd kv)) m
  | _ => true
  end.

(** The text of one member of an object. *)
Definition member_text (kv : string * json) : string :=
  quote (fst kv) ++ ":" ++ JSON_stringify (snd kv).

(** Parsing the text of [v], followed by any text that closes a value, gives
    [v] back and leaves that text. *)
Definition round_trips (v : json) : Prop :=
  unique_keys v = true →
  ∀ fuel r, (fuel_for v ≤ fuel)%nat → closes_value r = true →
    parse_value fuel (JSON_stringify v ++ r) = Some (v, r).

(** Induction over JSON values that reaches the elements of arrays and the
    members of objects. *)
Section JsonInduction.
Variable P : json → Prop.
Hypothesis HNull : P JNull.
Hypothesis HBool : ∀ b, P (JBool b).
Hypothesis HNum : ∀ n, P (JNum n).
Hypothesis HStr : ∀ s, P (JStr s).
Hypothesis HArr : ∀ l, Forall P l → P (JArr l).
Hypothesis HObj : ∀ m, Forall (fun kv => P (snd kv)) m → P (JObj m).

Fixpoint json_ind' (v : json) : P v :=
  match v with
  | JNull => HNull
  | JBool b => HBool b
  | JNum n => HNum n
  | JStr s => HStr s
  | JArr l =>
      HArr l ((fix go (l : list json) : Forall P l :=
                 match l with
                 | [] => List.Forall_nil _
                 | x :: l' => @List.Forall_cons _ P x l' (json_ind' x) (go l')
                 end) l)
  | JObj m =>
      HObj m ((fix go (m : list (string * json)) : Forall (fun kv => P (snd kv)) m :=
                 match m with
                 | [] => List.Forall_nil _
                 | kv :: m' => @List.Forall_cons _ (fun kv => P (snd kv)) kv m' (json_ind' (snd kv)) (go m')
                 end) m)
  end.
End JsonInduction.

End Js.

Import Js.

(* ===================================================================== *)
(** ** HTTP responses and the sorted scan of a store                      *)
(* ===================================================================== *)

Module Http.

(** What [res.status(n).json(x)] sends: [x] is an object or an array of
    objects whose properties hold values of type [V]. *)
Inductive body (V : Type) : Type :=
  | Obj (o : gmap string V)
  | Arr (rows : list (gmap string V)).
Arguments Obj {V} o.
Arguments Arr {V} rows.

Record response (V : Type) : Type := Response { status : Z; content : body V }.
Arguments Response {V} status content.
Arguments status {V} r.
Arguments content {V} r.

(** The [message] of an object body. *)
Definition field {V} (r : response V) (k : string) : option V :=
  match content r with Obj o => o !! k | Arr _ => None end.

End Http.

Import Http.

(** The record of a submission in a fetched list: the one record whose
    [id] is the identifier the submission was answered with. *)
Definition the_record {V} (i : V) (rows : list (gmap string V))
    (r : gmap string V) : Prop :=
  r ∈ rows ∧ r !! "id" = Some i ∧
  ∀ r', r' ∈ rows → r' !! "id" = Some i → r' = r.

(** What a call into the storage collaborator gives back: a value, or the
    [message] of the error it reports. *)
Inductive result (A : Type) : Type :=
  | Ok (a : A)
  | Throw (message : string).
Arguments Ok {A} a.
Arguments Throw {A} message.

(** [ORDER BY k DESC] and [sort({k: -1})]: the rows in decreasing order;
    rows that compare equal keep the order of the scan. [leb x y] reads
    "the key of [x] is at most the key of [y]". *)
Fixpoint insert_desc {A} (leb : A -> A -> bool) (x : A) (l : list A) : list A :=
  match l with
  | [] => [x]
  | y :: l' => if leb y x then x :: l else y :: insert_desc leb x l'
  end.

Fixpoint sort_desc {A} (leb : A -> A -> bool) (l : list A) : list A :=
  match l with
  | [] => []
  | x :: l' => insert_desc leb x (sort_desc leb l')
  end.

(* ===================================================================== *)
(** ** MongoDB revisions ([unnamed/part_000]; [server.js], second half)   *)
(* ===================================================================== *)

Module Mongo.

(** Values held by the properties of a document.  An [ObjectId] and the
    string of its hex digits are different values, as they are in the
    store; [res.json] writes both as the same text. *)
Inductive value : Type :=
  | Undefined
  | J (j : json)
  | Date (ms : Z)
  | ObjectId (n : N).

Global Instance value_eq_dec : EqDecision value.
Proof. solve_decision. Defined.

Global Instance value_inhabited : Inhabited value := populate Undefined.

Definition of_jsval (v : jsval) : value :=
  match v with None => Undefined | Some j => J j end.

(** A property read [row.k]. *)
Definition prop (o : gmap string value) (k : string) : value :=
  default Undefined (o !! k).

(** The collection [responses] in its natural (insertion) order, and the
    counter the driver draws fresh [ObjectId]s from. *)
Record collection : Type := Collection {
  docs : list (gmap string value);
  next_oid : N
}.

Definition empty : collection := Collection [] 0.

(** The environment of one request: the reading [new Date()] returns and
    the failures the collaborator reports at each of the three calls. *)
Record env : Type := Env {
  now : Z;
  connect_error : option string;
  operation_error : option string;
  close_error : option string
}.

Definition healthy (t : Z) : env := Env t None None None.

Definition step (err : option string) : result unit :=
  match err with Some m => Throw m | None => Ok tt end.

(** The driver writes a property holding [undefined] as [null]. *)
Definition to_bson (doc : gmap string value) : gmap string value :=
  (fun v => match v with Undefined => J JNull | _ => v end) <$> doc.

Definition supplied_id (doc : gmap string value) : option value :=
  match doc !! "_id" with
  | Some Undefined | Some (J JNull) | None => None
  | Some v => Some v
  end.

(** [responses.insertOne(doc)]: a document without an [_id] of its own gets
    a fresh [ObjectId]; one that brings an [_id] keeps it, and is refused
    when a stored document already has it.  MongoDB refuses a document for
    other reasons too (an array as [_id], a key holding NUL): what the
    store accepts is not stated from this definition, the theorems speak of
    an insert that succeeded. *)
Definition insertOne (e : env) (c : collection) (doc : gmap string value)
  : result (collection * value) :=
  match operation_error e with
  | Some m => Throw m
  | None =>
      match supplied_id doc with
      | Some i =>
          if existsb (fun d => bool_decide (d !! "_id" = Some i)) (docs c)
          then Throw "E11000 duplicate key error collection: surveyDB.responses"
          else Ok (Collection (docs c ++ [to_bson doc]) (next_oid c), i)
      | None =>
          let i := ObjectId (next_oid c) in
          Ok (Collection (docs c ++ [<["_id" := i]> (to_bson doc)]) (next_oid c + 1), i)
      end
  end.

(** The sort key [timestamp]: a [Date] by its reading; any other value sorts
    below every [Date]. *)
Definition timestamp_key (d : gmap string value) : option Z :=
  match d !! "timestamp" with Some (Date ms) => Some ms | _ => None end.

Definition key_leb (a b : option Z) : bool :=
  match a, b with
  | None, _ => true
  | Some _, None => false
  | Some x, Some y => (x <=? y)%Z
  end.

(** [responses.find({}).sort({ timestamp: -1 }).toArray()]. *)
Definition find_sorted (e : env) (c : collection) : result (list (gmap string value)) :=
  match operation_error e with
  | Some m => Throw m
  | None => Ok (sort_desc (fun a b => key_leb (timestamp_key a) (timestamp_key b)) (docs c))
  end.

(** The two revisions differ in their [finally] block only. *)
Inductive revision : Type :=
  | Atlas     (* unnamed/part_000: [await client.close()] *)
  | Guarded.  (* server.js: [try { await mongoClient.close() } catch ...] *)

(** The outcome of an [async] handler: the response it sent, and the error
    its promise rejected with, if one escaped. *)
Record outcome : Type := Outcome {
  sent : option (response value);
  rejected : option string
}.

Definition finally (rv : revision) (e : env) (r : response value) : outcome :=
  match step (close_error e) with
  | Ok _ => Outcome (Some r) None
  | Throw m =>
      match rv with
      | Atlas => Outcome (Some r) (Some m)
      | Guarded => Outcome (Some r) None
      end
  end.

(** [Array.isArray(data.q1_c) ? data.q1_c : (data.q1_c ? [data.q1_c] : [])] *)
Definition q1_c_array (v : jsval) : json :=
  match v with
  | Some (JArr l) => JArr l
  | Some j => if ToBoolean (Some j) then JArr [j] else JArr []
  | None => JArr []
  end.

(** The object literal [docToInsert], followed by
    [delete docToInsert.finalReadingDuration]. *)
Definition docToInsert (t : Z) (data : gmap string json) : gmap string value :=
  delete "finalReadingDuration"
    (<["consentAgreed" :=
         J (JBool (String.eqb (toLowerCase (ToString (data !! "consentAgreed"))) "true"))]>
    (<["timestamp" := Date t]>
    (<["readingDuration" := of_jsval (data !! "finalReadingDuration")]>
    (<["q1_c" := J (q1_c_array (data !! "q1_c"))]>
    (J <$> data))))).

Definition submitted (i : value) : response value :=
  Response 201
    (Obj (<["id" := i]> {["message" := J (JStr "Survey submitted successfully!")]})).

Definition failure (prefix m : string) : response value :=
  Response 500 (Obj {["message" := J (JStr (prefix ++ m))]}).

(** [app.post('/api/submit', ...)] *)
Definition post_api_submit (rv : revision) (e : env) (data : gmap string json)
    (c : collection) : outcome * collection :=
  match step (connect_error e) with
  | Throw m =>
      (Outcome (Some (failure "Server error during submission: " m)) None, c)
  | Ok _ =>
      match insertOne e c (docToInsert (now e) data) with
      | Ok (c', insertedId) => (finally rv e (submitted insertedId), c')
      | Throw m => (finally rv e (failure "Server error during submission: " m), c)
      end
  end.

(** The body of [results.map(row => ...)]. *)
Definition finalRow (row : gmap string value) : gmap string value :=
  delete "readingDuration"
    (delete "_id"
      (<["finalReadingDuration" := prop row "readingDuration"]>
      (<["id" := prop row "_id"]> row))).

(** [app.get('/api/results', ...)] *)
Definition get_api_results (rv : revision) (e : env) (c : collection) : outcome :=
  match step (connect_error e) with
  | Throw m => Outcome (Some (failure "Server error fetching results: " m)) None
  | Ok _ =>
      match find_sorted e c with
      | Ok results => finally rv e (Response 200 (Arr (List.map finalRow results)))
      | Throw m => finally rv e (failure "Server error fetching results: " m)
      end
  end.

(** A history of submissions, oldest first: the outcomes and the
    collection afterwards. *)
Fixpoint submit_all (rv : revision) (reqs : list (env * gmap string json))
    (c : collection) : list outcome * collection :=
  match reqs with
  | [] => ([], c)
  | (e, data) :: reqs' =>
      let '(o, c') := post_api_submit rv e data c in
      let '(os, c'') := submit_all rv reqs' c' in
      (o :: os, c'')
  end.

(** The [id]s announced by the responses of a history. *)
Definition announced (os : list outcome) : list value :=
  omap (fun o => match sent o with Some r => field r "id" | None => None end) os.

(** Every [ObjectId] in the collection was drawn from the counter. *)
Definition well_formed (c : collection) : Prop :=
  ∀ d n, d ∈ docs c → d !! "_id" = Some (ObjectId n) → (n < next_oid c)%N.

(** The document as the collection holds it once it has the identifier [i]. *)
Definition stored (i : value) (doc : gmap string value) : gmap string value :=
  <["_id" := i]> (to_bson doc).

End Mongo.

(* ===================================================================== *)
(** ** SQLite revision ([server.js], first half)                          *)
(* ===================================================================== *)

Module Sqlite.

(** Storage classes of the cells of the table. *)
Inductive sqlval : Type :=
  | SNull
  | SInt (n : Z)
  | SText (s : string).

Global Instance sqlval_eq_dec : EqDecision sqlval.
Proof. solve_decision. Defined.

(** How the driver binds a JavaScript parameter: [undefined] leaves the
    parameter unbound, which reads as [NULL]; a boolean is bound as 1 or
    0; an array or object is bound as the text [String] gives.  The driver
    binds a number outside 32 bits as a double, and its later versions bind
    an array as the text of an object: the theorems on bound values keep to
    strings, booleans, [null] and 32-bit integers. *)
Definition bind (v : jsval) : sqlval :=
  match v with
  | None => SNull
  | Some JNull => SNull
  | Some (JBool b) => SInt (if b then 1 else 0)
  | Some (JNum n) => SInt n
  | Some (JStr s) => SText s
  | Some j => SText (json_ToString j)
  end.

(** Declared column types. *)
Inductive affinity : Type := TEXT | INTEGER.

(** Text that is an integer literal: an optional sign, then digits. *)
Definition integer_literal (s : string) : option Z :=
  let signed :=
    match s with
    | String c r =>
        if (N_of_ascii c =? 45)%N then (-1, r)
        else if (N_of_ascii c =? 43)%N then (1, r)
        else (1, s)
    | EmptyString => (1, s)
    end in
  match snd signed with
  | String c _ =>
      if is_digit c then
        match parse_digits 0 (snd signed) with
        | (n, EmptyString) => Some (fst signed * n)
        | (_, String _ _) => None
        end
      else None
  | EmptyString => None
  end.

(** Column affinity: a [TEXT] column keeps a number as its decimal text; an
    [INTEGER] column keeps text that is an integer literal as that
    integer, and other text as it is.  SQLite also converts text with a
    fraction, an exponent or blanks around it: the theorems on the
    [INTEGER] column keep to integers and [null]. *)
Definition store (a : affinity) (v : sqlval) : sqlval :=
  match a, v with
  | TEXT, SInt n => SText (pretty n)
  | INTEGER, SText s =>
      match integer_literal s with Some n => SInt n | None => SText s end
  | _, _ => v
  end.

(** A row of [responses], one field per column of [CREATE TABLE]. *)
Record row : Type := Row {
  id : Z;
  consentAgreed : sqlval;
  gradeLevel : sqlval;
  q1_a : sqlval; q1_b : sqlval; q1_c : sqlval;
  q1_d : sqlval; q1_e : sqlval; q1_f : sqlval;
  q2_a : sqlval; q2_b : sqlval; q2_c : sqlval;
  readingDuration : sqlval;
  quiz_q1 : sqlval; quiz_q2 : sqlval; quiz_q3 : sqlval; quiz_q4 : sqlval;
  quiz_q5 : sqlval; quiz_q6 : sqlval; quiz_q7 : sqlval;
  timestamp : sqlval
}.

(** The table in rowid order, with the largest [AUTOINCREMENT] id handed
    out so far. *)
Record table : Type := Table {
  rows : list row;
  seq : Z
}.

Definition empty : table := Table [] 0.

(** The environment of one request: what [CURRENT_TIMESTAMP] reads and the
    failure the database reports for the statement, if any. *)
Record env : Type := Env {
  CURRENT_TIMESTAMP : string;
  error : option string
}.

Definition healthy (ts : string) : env := Env ts None.

Definition max_id (l : list row) : Z := fold_right (fun r m => Z.max (id r) m) 0 l.

Definition next_id (t : table) : Z := Z.max (seq t) (max_id (rows t)) + 1.

(** [db.run] of the [INSERT] statement with its nineteen positional
    parameters.  [id] and [timestamp] are not listed and take their
    defaults; [gradeLevel] is [NOT NULL]. *)
Definition db_run_insert (e : env) (t : table)
    (p_consentAgreed p_gradeLevel p_q1_a p_q1_b p_q1_c p_q1_d p_q1_e p_q1_f
     p_q2_a p_q2_b p_q2_c p_readingDuration
     p_quiz_q1 p_quiz_q2 p_quiz_q3 p_quiz_q4 p_quiz_q5 p_quiz_q6 p_quiz_q7 : jsval)
  : result (table * Z) :=
  match error e with
  | Some m => Throw m
  | None =>
      match store TEXT (bind p_gradeLevel) with
      | SNull => Throw "SQLITE_CONSTRAINT: NOT NULL constraint failed: responses.gradeLevel"
      | grade =>
          let lastID := next_id t in
          let r := {|
            id := lastID;
            consentAgreed := store TEXT (bind p_consentAgreed);
            gradeLevel := grade;
            q1_a := store TEXT (bind p_q1_a);
            q1_b := store TEXT (bind p_q1_b);
            q1_c := store TEXT (bind p_q1_c);
            q1_d := store TEXT (bind p_q1_d);
            q1_e := store TEXT (bind p_q1_e);
            q1_f := store TEXT (bind p_q1_f);
            q2_a := store TEXT (bind p_q2_a);
            q2_b := store TEXT (bind p_q2_b);
            q2_c := store TEXT (bind p_q2_c);
            readingDuration := store INTEGER (bind p_readingDuration);
            quiz_q1 := store TEXT (bind p_quiz_q1);
            quiz_q2 := store TEXT (bind p_quiz_q2);
            quiz_q3 := store TEXT (bind p_quiz_q3);
            quiz_q4 := store TEXT (bind p_quiz_q4);
            quiz_q5 := store TEXT (bind p_quiz_q5);
            quiz_q6 := store TEXT (bind p_quiz_q6);
            quiz_q7 := store TEXT (bind p_quiz_q7);
            timestamp := SText (CURRENT_TIMESTAMP e)
          |} in
          Ok (Table (rows t ++ [r]) lastID, lastID)
      end
  end.

(** The JavaScript value the driver returns for a cell. *)
Definition js (v : sqlval) : jsval :=
  match v with
  | SNull => Some JNull
  | SInt n => Some (JNum n)
  | SText s => Some (JStr s)
  end.

(** The object [SELECT *] yields for a row. *)
Definition select_star (r : row) : gmap string jsval :=
  list_to_map [
    ("id", Some (JNum (id r)));
    ("consentAgreed", js (consentAgreed r));
    ("gradeLevel", js (gradeLevel r));
    ("q1_a", js (q1_a r)); ("q1_b", js (q1_b r)); ("q1_c", js (q1_c r));
    ("q1_d", js (q1_d r)); ("q1_e", js (q1_e r)); ("q1_f", js (q1_f r));
    ("q2_a", js (q2_a r)); ("q2_b", js (q2_b r)); ("q2_c", js (q2_c r));
    ("readingDuration", js (readingDuration r));
    ("quiz_q1", js (quiz_q1 r)); ("quiz_q2", js (quiz_q2 r));
    ("quiz_q3", js (quiz_q3 r)); ("quiz_q4", js (quiz_q4 r));
    ("quiz_q5", js (quiz_q5 r)); ("quiz_q6", js (quiz_q6 r));
    ("quiz_q7", js (quiz_q7 r));
    ("timestamp", js (timestamp r))
  ].

(** [db.all("SELECT * FROM responses ORDER BY id DESC")]. *)
Definition db_all (e : env) (t : table) : result (list (gmap string jsval)) :=
  match error e with
  | Some m => Throw m
  | None =>
      Ok (List.map select_star (sort_desc (fun a b => (id a <=? id b)%Z) (rows t)))
  end.

(** A property read [row.k]. *)
Definition prop (o : gmap string jsval) (k : string) : jsval :=
  default None (o !! k).

Definition submitted (lastID : Z) : response jsval :=
  Response 201
    (Obj (<["id" := Some (JNum lastID)]>
            {["message" := Some (JStr "Survey submitted successfully!")]})).

Definition failure (m : string) : response jsval :=
  Response 500 (Obj {["message" := Some (JStr m)]}).

(** [data.q1_c || []] *)
Definition q1_c_or_empty (v : jsval) : json :=
  match v with
  | Some j => if ToBoolean v then j else JArr []
  | None => JArr []
  end.

(** The [db.run(sql, [...])] call of [app.post('/api/submit', ...)]. *)
Definition run_insert (e : env) (data : gmap string json) (t : table)
  : result (table * Z) :=
  let q1_c_json := JSON_stringify (q1_c_or_empty (data !! "q1_c")) in
  let consentValue :=
    if ToBoolean (data !! "consentAgreed")
    then ToString (data !! "consentAgreed") else "false" in
  db_run_insert e t
    (Some (JStr consentValue)) (data !! "gradeLevel")
    (data !! "q1_a") (data !! "q1_b") (Some (JStr q1_c_json))
    (data !! "q1_d") (data !! "q1_e") (data !! "q1_f")
    (data !! "q2_a") (data !! "q2_b") (data !! "q2_c")
    (data !! "finalReadingDuration")
    (data !! "quiz_q1") (data !! "quiz_q2") (data !! "quiz_q3")
    (data !! "quiz_q4") (data !! "quiz_q5") (data !! "quiz_q6")
    (data !! "quiz_q7").

(** [app.post('/api/submit', ...)]: the call above, then its callback. *)
Definition post_api_submit (e : env) (data : gmap string json) (t : table)
  : response jsval * table :=
  match run_insert e data t with
  | Throw _ => (failure "Server error during submission.", t)
  | Ok (t', lastID) => (submitted lastID, t')
  end.

(** The body of [rows.map(row => ...)]: [JSON.parse] converts its argument
    to a string first, and a [SyntaxError] is caught. *)
Definition results_row (row : gmap string jsval) : gmap string jsval :=
  let row1 :=
    <["q1_c" :=
        match JSON_parse (ToString (prop row "q1_c")) with
        | Some j => Some j
        | None => Some (JArr [])
        end]> row in
  let c := prop row1 "consentAgreed" in
  let row2 :=
    <["consentAgreed" :=
        Some (JBool (bool_decide (c = Some (JStr "true"))
                     || bool_decide (c = Some (JStr "1"))
                     || bool_decide (c = Some (JBool true))))]> row1 in
  let row3 := <["finalReadingDuration" := prop row2 "readingDuration"]> row2 in
  delete "readingDuration" row3.

(** [app.get('/api/results', ...)] *)
Definition get_api_results (e : env) (t : table) : response jsval :=
  match db_all e t with
  | Throw _ => failure "Server error fetching results."
  | Ok rows => Response 200 (Arr (List.map results_row rows))
  end.

(** A history of submissions, oldest first: the responses sent and the
    table afterwards. *)
Fixpoint submit_all (reqs : list (env * gmap string json)) (t : table)
  : list (response jsval) * table :=
  match reqs with
  | [] => ([], t)
  | (e, data) :: reqs' =>
      let '(r, t') := post_api_submit e data t in
      let '(rs, t'') := submit_all reqs' t' in
      (r :: rs, t'')
  end.

(** The [id]s announced by the responses of a history. *)
Definition announced (rs : list (response jsval)) : list jsval :=
  omap (fun r => field r "id") rs.

(** The same row with another content of its [q1_c] cell. *)
Definition set_q1_c (v : sqlval) (r : row) : row :=
  {| id := id r; consentAgreed := consentAgreed r; gradeLevel := gradeLevel r;
     q1_a := q1_a r; q1_b := q1_b r; q1_c := v;
     q1_d := q1_d r; q1_e := q1_e r; q1_f := q1_f r;
     q2_a := q2_a r; q2_b := q2_b r; q2_c := q2_c r;
     readingDuration := readingDuration r;
     quiz_q1 := quiz_q1 r; quiz_q2 := quiz_q2 r; quiz_q3 := quiz_q3 r;
     quiz_q4 := quiz_q4 r; quiz_q5 := quiz_q5 r; quiz_q6 := quiz_q6 r;
     quiz_q7 := quiz_q7 r; timestamp := timestamp r |}.

End Sqlite.

(** The [TEXT] columns that the [INSERT] fills with the payload field of
    the same name, as it is. *)
Definition answer_columns : list string :=
  ["gradeLevel"; "q1_a"; "q1_b"; "q1_d"; "q1_e"; "q1_f"; "q2_a"; "q2_b"; "q2_c";
   "quiz_q1"; "quiz_q2"; "quiz_q3"; "quiz_q4"; "quiz_q5"; "quiz_q6"; "quiz_q7"].

(** The fields of the payload that the SQLite submission handler reads. *)
Definition payload_fields : list string :=
  ["consentAgreed"; "gradeLevel"; "q1_a"; "q1_b"; "q1_c"; "q1_d"; "q1_e"; "q1_f";
   "q2_a"; "q2_b"; "q2_c"; "finalReadingDuration";
   "quiz_q1"; "quiz_q2"; "quiz_q3"; "quiz_q4"; "quiz_q5"; "quiz_q6"; "quiz_q7"].

(** The keys of a record of the SQLite results endpoint: the columns of
    the table, with [readingDuration] renamed. *)
Definition record_keys : list string :=
  ["id"; "consentAgreed"; "gradeLevel"; "q1_a"; "q1_b"; "q1_c"; "q1_d"; "q1_e"; "q1_f";
   "q2_a"; "q2_b"; "q2_c"; "finalReadingDuration";
   "quiz_q1"; "quiz_q2"; "quiz_q3"; "quiz_q4"; "quiz_q5"; "quiz_q6"; "quiz_q7";
   "timestamp"].

(* ===================================================================== *)
(** ** Facts about the sorted scan                                        *)
(* ===================================================================== *)

Section SortDesc.
Context {A : Type} (leb : A -> A -> bool).

Lemma insert_desc_Permutation x l : Permutation (insert_desc leb x l) (x :: l).
Proof.
  induction l as [|y l IH]; simpl; [done|].
  destruct (leb y x); [done|].
  rewrite IH. apply perm_swap.
Qed.

Lemma sort_desc_Permutation l : Permutation (sort_desc leb l) l.
Proof.
  induction l as [|x l IH]; simpl; [done|].
  by rewrite insert_desc_Permutation, IH.
Qed.

Lemma sort_desc_elem_of x l : x ∈ sort_desc leb l ↔ x ∈ l.
Proof. by rewrite sort_desc_Permutation. Qed.

(** A row whose key lies above every key of the scan comes first. *)
Lemma sort_desc_snoc x l :
  (∀ y, y ∈ l → leb x y = false) →
  sort_desc leb (l ++ [x]) = x :: sort_desc leb l.
Proof.
  induction l as [|a l IH]; intros Hx; simpl; [done|].
  rewrite IH by (intros y Hy; apply Hx; by right).
  simpl. rewrite (Hx a) by left. done.
Qed.

Hypothesis leb_total : ∀ x y, leb x y = true ∨ leb y x = true.
Hypothesis leb_trans : ∀ x y z, leb x y = true → leb y z = true → leb x z = true.

Lemma insert_desc_sorted x l :
  StronglySorted (fun a b => leb b a = true) l →
  StronglySorted (fun a b => leb b a = true) (insert_desc leb x l).
Proof.
  induction 1 as [|y l Hl IH Hy]; simpl.
  - repeat constructor.
  - destruct (leb y x) eqn:Hyx.
    + constructor; [by constructor|].
      constructor; [done|].
      eapply Forall_impl; [exact Hy|]. intros z Hz; simpl in *. eauto.
    + constructor; [done|].
      rewrite insert_desc_Permutation. constructor; [|done].
      destruct (leb_total x y); congruence.
Qed.

Lemma sort_desc_sorted l :
  StronglySorted (fun a b => leb b a = true) (sort_desc leb l).
Proof.
  induction l; simpl; [constructor|]. by apply insert_desc_sorted.
Qed.
End SortDesc.

(* ===================================================================== *)
(** ** Facts about the built-ins                                          *)
(* ===================================================================== *)

Lemma append_nil_l (s : string) : "" ++ s = s.
Proof. reflexivity. Qed.

Lemma append_cons (a : ascii) (s t : string) : String a s ++ t = String a (s ++ t).
Proof. reflexivity. Qed.


Lemma includes_prefix (hay needle : string) :
  String.prefix needle hay = true → includes hay needle = true.
Proof. destruct hay; simpl; intros ->; done. Qed.


Lemma prefix_refl (m : string) : String.prefix m m = true.
Proof.
  induction m as [|a m IH]; [done|].
  simpl. destruct (ascii_dec a a); [done|congruence].
Qed.

Lemma includes_suffix (p m : string) : includes (p ++ m) m = true.
Proof.
  induction p as [|a p IH].
  - rewrite append_nil_l. apply includes_prefix, prefix_refl.
  - rewrite append_cons. simpl. rewrite IH. apply orb_true_r.
Qed.


(* ===================================================================== *)
(** ** [JSON.parse] after [JSON.stringify]                                *)
(* ===================================================================== *)

Example JSON_parse_nested :
  JSON_parse " [1, -20 ,[true,null], {} ] "
  = Some (JArr [JNum 1; JNum (-20); JArr [JBool true; JNull]; JObj []]).
Proof. by vm_compute. Qed.

Example JSON_parse_plain_text : JSON_parse "A,B" = None.
Proof. by vm_compute. Qed.

Example JSON_parse_trailing_comma : JSON_parse "[1,]" = None.
Proof. by vm_compute. Qed.

Example JSON_parse_null : JSON_parse (ToString (Some JNull)) = Some JNull.
Proof. by vm_compute. Qed.

Example JSON_stringify_object :
  JSON_stringify (JObj [("k", JArr [JNum 7; JStr "a"])])
  = "{" ++ quote "k" ++ ":[7," ++ quote "a" ++ "]}".
Proof. by vm_compute. Qed.

Example ToString_array :
  ToString (Some (JArr [JNum 1; JNull; JStr "x"; JArr [JBool true]])) = "1,,x,true".
Proof. by vm_compute. Qed.

Lemma append_assoc (a b c : string) : (a ++ b) ++ c = a ++ (b ++ c).
Proof. induction a as [|x a IH]; [done|]. by rewrite !append_cons, IH. Qed.

Section Numbers.

Lemma pretty_N_char_digit d :
  (d < 10)%N →
  is_digit (pretty_N_char d) = true ∧ digit_val (pretty_N_char d) = Z.of_N d.
Proof.
  intros Hd.
  assert (d = 0 ∨ d = 1 ∨ d = 2 ∨ d = 3 ∨ d = 4 ∨ d = 5 ∨ d = 6 ∨ d = 7
          ∨ d = 8 ∨ d = 9)%N as Hc by lia.
  repeat (destruct Hc as [->|Hc]; [by vm_compute|]). subst. by vm_compute.
Qed.

Lemma pretty_N_go_app x s r : pretty_N_go x s ++ r = pretty_N_go x (s ++ r).
Proof.
  revert s. induction (N.lt_wf_0 x) as [x _ IH]; intros s.
  assert (x = 0 ∨ 0 < x)%N as [->|?] by lia; [by rewrite !pretty_N_go_0|].
  rewrite (pretty_N_go_step x s), (pretty_N_go_step x (s ++ r)) by done.
  rewrite IH by (by apply N.div_lt). reflexivity.
Qed.

Lemma parse_digits_pretty_N_go x s :
  ∃ k, ∀ acc, parse_digits acc (pretty_N_go x s) = parse_digits (acc * k + Z.of_N x) s.
Proof.
  revert s. induction (N.lt_wf_0 x) as [x _ IH]; intros s.
  assert (x = 0 ∨ 0 < x)%N as [->|?] by lia.
  - exists 1. intros acc. rewrite pretty_N_go_0. f_equal. lia.
  - destruct (IH (x `div` 10)%N (N.div_lt x 10 ltac:(done) ltac:(done))
                (String (pretty_N_char (x `mod` 10)) s)) as [k Hk].
    exists (10 * k). intros acc. rewrite pretty_N_go_step, Hk by done.
    destruct (pretty_N_char_digit (x `mod` 10)%N) as [Hd Hv];
      [by apply N.mod_lt|].
    simpl. rewrite Hd, Hv. f_equal.
    rewrite (N.div_mod x 10) at 3 by done. lia.
Qed.

Lemma pretty_N_go_head x s :
  (0 < x)%N →
  ∃ c r, pretty_N_go x s = String c r ∧ is_digit c = true
         ∧ N_of_ascii c ≠ 48%N ∧ N_of_ascii c ≠ 45%N ∧ is_ws c = false
         ∧ N_of_ascii c ≠ 93%N ∧ N_of_ascii c ≠ 125%N.
Proof.
  revert s. induction (N.lt_wf_0 x) as [x _ IH]; intros s Hx.
  rewrite pretty_N_go_step by done.
  assert (x < 10 ∨ 10 ≤ x)%N as [Hlt|Hge] by lia.
  - rewrite N.div_small, pretty_N_go_0, N.mod_small by done.
    exists (pretty_N_char x), s.
    assert (x = 1 ∨ x = 2 ∨ x = 3 ∨ x = 4 ∨ x = 5 ∨ x = 6 ∨ x = 7
            ∨ x = 8 ∨ x = 9)%N as Hc by lia.
    repeat (destruct Hc as [->|Hc]; [by vm_compute|]). subst. by vm_compute.
  - apply IH; [by apply N.div_lt|]. apply N.div_str_pos. lia.
Qed.

End Numbers.

Section Delimiters.

Lemma closes_value_inv r :
  closes_value r = true →
  r = "" ∨ ∃ r', r = String (ascii_of_N 44) r' ∨ r = String (ascii_of_N 93) r'
                 ∨ r = String (ascii_of_N 125) r'.
Proof.
  destruct r as [|c r]; [by left|]. simpl. intros H. right. exists r.
  rewrite <- (ascii_N_embedding c).
  apply orb_true_iff in H as [H|H]; [apply orb_true_iff in H as [H|H]|];
    apply N.eqb_eq in H; rewrite H; auto.
Qed.

Lemma closes_value_parse_digits r acc :
  closes_value r = true → parse_digits acc r = (acc, r).
Proof. intros [->|[r' [->|[->| ->]]]]%closes_value_inv; reflexivity. Qed.

Lemma closes_value_starts_fraction r :
  closes_value r = true → starts_fraction r = false.
Proof. intros [->|[r' [->|[->| ->]]]]%closes_value_inv; reflexivity. Qed.

Lemma closes_value_skip_ws r : closes_value r = true → skip_ws r = r.
Proof. intros [->|[r' [->|[->| ->]]]]%closes_value_inv; reflexivity. Qed.

End Delimiters.

Section NumberLiterals.

Lemma parse_nat_literal_pretty p r :
  closes_value r = true →
  parse_nat_literal (pretty_N_go (N.pos p) "" ++ r) = Some (Z.pos p, r).
Proof.
  intros Hr. rewrite pretty_N_go_app, append_nil_l.
  destruct (pretty_N_go_head (N.pos p) r) as (c & t & Heq & Hd & H48 & _);
    [done|].
  destruct (parse_digits_pretty_N_go (N.pos p) r) as [k Hk].
  specialize (Hk 0). rewrite Heq in Hk |- *. simpl in Hk. rewrite Hd in Hk.
  unfold parse_nat_literal.
  destruct (N.eqb_spec (N_of_ascii c) 48); [done|]. rewrite Hd.
  replace (10 * 0 + digit_val c) with (digit_val c) in Hk by lia.
  rewrite Hk, closes_value_parse_digits by done.
  by rewrite closes_value_starts_fraction.
Qed.

Lemma parse_number_pretty (z : Z) r :
  closes_value r = true → parse_number (pretty z ++ r) = Some (z, r).
Proof.
  intros Hr. destruct z as [|p|p].
  - change (pretty 0 ++ r) with (String "0" r). unfold parse_number, parse_nat_literal.
    simpl. by rewrite closes_value_starts_fraction.
  - change (pretty (Z.pos p)) with (pretty_N_go (N.pos p) "").
    destruct (pretty_N_go_head (N.pos p) r) as (c & t & Heq & _ & _ & H45 & _);
      [done|].
    pose proof (parse_nat_literal_pretty p r Hr) as Hp.
    rewrite pretty_N_go_app, append_nil_l in Hp |- *. rewrite Heq in Hp |- *.
    unfold parse_number. by destruct (N.eqb_spec (N_of_ascii c) 45).
  - change (pretty (Z.neg p)) with ("-" ++ pretty_N_go (N.pos p) "").
    rewrite append_cons, append_nil_l. unfold parse_number. simpl.
    by rewrite parse_nat_literal_pretty.
Qed.

(** The first character of a printed number. *)
Lemma pretty_head (z : Z) r :
  ∃ c t, pretty z ++ r = String c t
    ∧ is_ws c = false
    ∧ (N_of_ascii c = 45%N ∨ is_digit c = true).
Proof.
  destruct z as [|p|p].
  - exists "0"%char, r. by split_and!; [|vm_compute|right; vm_compute].
  - change (pretty (Z.pos p)) with (pretty_N_go (N.pos p) "").
    rewrite pretty_N_go_app, append_nil_l.
    destruct (pretty_N_go_head (N.pos p) r) as (c & t & Heq & Hd & _ & _ & Hw & _);
      [done|].
    exists c, t. auto.
  - change (pretty (Z.neg p)) with ("-" ++ pretty_N_go (N.pos p) "").
    rewrite append_cons, append_nil_l. eexists _, _. split; [done|].
    split; [by vm_compute|left; by vm_compute].
Qed.

End NumberLiterals.

Section StringLiterals.

Lemma parse_chars_escape_char c t :
  parse_chars (escape_char c ++ t)
  = match parse_chars t with
    | Some (u, rest) => Some (String c u, rest)
    | None => None
    end.
Proof.
  destruct c as [[] [] [] [] [] [] [] []]; reflexivity.
Qed.

Lemma parse_chars_escape s r :
  parse_chars (escape s ++ String dquote r) = Some (s, r).
Proof.
  induction s as [|c s IH]; [reflexivity|].
  simpl escape. by rewrite append_assoc, parse_chars_escape_char, IH.
Qed.

End StringLiterals.

Section RoundTrip.

Lemma parse_value_unfold fuel s :
  parse_value (S fuel) s
  = match skip_ws s with
    | EmptyString => None
    | String c s' =>
        let n := N_of_ascii c in
        if (n =? 123)%N then
          match expect 125 (skip_ws s') with
          | Some rest => Some (JObj [], rest)
          | None =>
              match parse_members fuel [] s' with
              | Some (m, rest) => Some (JObj m, rest)
              | None => None
              end
          end
        else if (n =? 91)%N then
          match expect 93 (skip_ws s') with
          | Some rest => Some (JArr [], rest)
          | None =>
              match parse_elements fuel s' with
              | Some (l, rest) => Some (JArr l, rest)
              | None => None
              end
          end
        else if (n =? 34)%N then
          match parse_chars s' with
          | Some (t, rest) => Some (JStr t, rest)
          | None => None
          end
        else if (n =? 116)%N then
          match expect_word "rue" s' with
          | Some rest => Some (JBool true, rest)
          | None => None
          end
        else if (n =? 102)%N then
          match expect_word "alse" s' with
          | Some rest => Some (JBool false, rest)
          | None => None
          end
        else if (n =? 110)%N then
          match expect_word "ull" s' with
          | Some rest => Some (JNull, rest)
          | None => None
          end
        else
          match parse_number (String c s') with
          | Some (z, rest) => Some (JNum z, rest)
          | None => None
          end
    end.
Proof. reflexivity. Qed.

Lemma parse_elements_unfold fuel s :
  parse_elements (S fuel) s
  = match parse_value fuel s with
    | Some (v, rest) =>
        match skip_ws rest with
        | String c rest' =>
            if (N_of_ascii c =? 93)%N then Some ([v], rest')
            else if (N_of_ascii c =? 44)%N then
              match parse_elements fuel rest' with
              | Some (l, rest'') => Some (v :: l, rest'')
              | None => None
              end
            else None
        | EmptyString => None
        end
    | None => None
    end.
Proof. reflexivity. Qed.

Lemma parse_members_unfold fuel acc s :
  parse_members (S fuel) acc s
  = match expect 34 (skip_ws s) with
    | Some s1 =>
        match parse_chars s1 with
        | Some (k, s2) =>
            match expect 58 (skip_ws s2) with
            | Some s3 =>
                match parse_value fuel s3 with
                | Some (v, rest) =>
                    let acc' := obj_set k v acc in
                    match skip_ws rest with
                    | String c rest' =>
                        if (N_of_ascii c =? 125)%N then Some (acc', rest')
                        else if (N_of_ascii c =? 44)%N then
                          parse_members fuel acc' rest'
                        else None
                    | EmptyString => None
                    end
                | None => None
                end
            | None => None
            end
        | None => None
        end
    | None => None
    end.
Proof. reflexivity. Qed.

(** The first character of a printed value is neither blank nor a closing
    bracket. *)
Lemma JSON_stringify_head v r :
  ∃ c t, JSON_stringify v ++ r = String c t
    ∧ is_ws c = false ∧ N_of_ascii c ≠ 93%N ∧ N_of_ascii c ≠ 125%N.
Proof.
  destruct v as [|[]|n|s|l|m]; try (eexists _, _; split; [reflexivity|by vm_compute]).
  destruct (pretty_head n r) as (c & t & Heq & Hw & Hc).
  exists c, t. split; [exact Heq|]. split; [done|].
  destruct Hc as [-> | Hd]; [done|].
  unfold is_digit in Hd. apply andb_true_iff in Hd as [H1 H2].
  apply N.leb_le in H1, H2. lia.
Qed.

Lemma obj_set_fresh k v acc :
  k ∉ List.map fst acc → obj_set k v acc = (acc ++ [(k, v)])%list.
Proof.
  induction acc as [|[k' v'] acc IH]; simpl; intros Hk; [done|].
  destruct (String.eqb_spec k k') as [->|Hne].
  - exfalso. apply Hk. by left.
  - rewrite IH; [done|]. intros Hin. apply Hk. by right.
Qed.

Lemma parse_elements_stringify l :
  Forall round_trips l → forallb unique_keys l = true → l ≠ [] →
  ∀ fuel r,
    (list_sum (List.map (fun x => S (fuel_for x)) l) ≤ fuel)%nat →
    parse_elements fuel
      (String.concat "," (List.map JSON_stringify l) ++ "]" ++ r)
    = Some (l, r).
Proof.
  induction 1 as [|x l Hx Hl IH]; intros Hu Hne fuel r Hfuel; [done|].
  cbn [forallb] in Hu. apply andb_true_iff in Hu as [Hux Hul].
  cbn [List.map list_sum] in Hfuel.
  destruct fuel as [|fuel]; [simpl in Hfuel; lia|].
  rewrite parse_elements_unfold.
  destruct l as [|y l].
  - cbn [List.map String.concat].
    rewrite (Hx Hux fuel ("]" ++ r)) by (simpl in *; (lia || done)).
    reflexivity.
  - change (String.concat "," (List.map JSON_stringify (x :: y :: l)))
      with (JSON_stringify x ++ "," ++ String.concat "," (List.map JSON_stringify (y :: l))).
    rewrite !append_assoc.
    rewrite (Hx Hux fuel) by (simpl in *; (lia || done)).
    change (skip_ws ("," ++ ?s)) with (String (ascii_of_N 44) s).
    cbn [N_of_ascii ascii_of_N]. simpl N.eqb. cbv iota.
    rewrite IH; [done|done|done|]. simpl in *. lia.
Qed.

Lemma parse_members_stringify m :
  Forall (fun kv => round_trips (snd kv)) m →
  forallb (fun kv => unique_keys (snd kv)) m = true → m ≠ [] →
  ∀ fuel acc r,
    NoDup (List.map fst (acc ++ m)) →
    (list_sum (List.map (fun kv => S (fuel_for (snd kv))) m) ≤ fuel)%nat →
    parse_members fuel acc
      (String.concat "," (List.map member_text m) ++ "}" ++ r)
    = Some ((acc ++ m)%list, r).
Proof.
  induction 1 as [|[k v] m Hv Hm IH]; intros Hu Hne fuel acc r Hnd Hfuel; [done|].
  cbn [forallb snd] in Hu. apply andb_true_iff in Hu as [Huv Hum].
  cbn [List.map list_sum snd] in Hfuel. cbn [snd] in Hv.
  destruct fuel as [|fuel]; [simpl in Hfuel; lia|].
  assert (Hk : k ∉ List.map fst acc).
  { rewrite map_app in Hnd. apply NoDup_app in Hnd as (_ & Hnd & _).
    intros Hin. apply (Hnd k Hin). by left. }
  rewrite parse_members_unfold.
  assert (Hmember : ∀ rest,
    member_text (k, v) ++ rest
    = String dquote (escape k ++ String dquote (":" ++ JSON_stringify v ++ rest))).
  { intros rest. unfold member_text, quote. cbn [fst snd].
    rewrite append_assoc, append_cons, append_assoc. reflexivity. }
  destruct m as [|kv' m].
  - cbn [List.map String.concat]. rewrite Hmember.
    change (expect 34 (skip_ws (String dquote ?s))) with (Some s). cbv beta iota.
    rewrite parse_chars_escape. cbv beta iota.
    change (expect 58 (skip_ws (":" ++ ?s))) with (Some s). cbv beta iota.
    rewrite (Hv Huv fuel ("}" ++ r)) by (simpl in *; (lia || done)).
    cbv beta iota.
    change (skip_ws ("}" ++ r)) with (String (ascii_of_N 125) r).
    cbn [N_of_ascii ascii_of_N]. simpl N.eqb. cbv iota zeta.
    by rewrite obj_set_fresh.
  - change (String.concat "," (List.map member_text ((k, v) :: kv' :: m)))
      with (member_text (k, v) ++ "," ++ String.concat "," (List.map member_text (kv' :: m))).
    rewrite !append_assoc, Hmember.
    change (expect 34 (skip_ws (String dquote ?s))) with (Some s). cbv beta iota.
    rewrite parse_chars_escape. cbv beta iota.
    change (expect 58 (skip_ws (":" ++ ?s))) with (Some s). cbv beta iota.
    rewrite (Hv Huv fuel) by (simpl in *; (lia || done)).
    cbv beta iota.
    change (skip_ws ("," ++ ?s)) with (String (ascii_of_N 44) s).
    cbn [N_of_ascii ascii_of_N]. simpl N.eqb. cbv iota zeta.
    rewrite obj_set_fresh by done.
    rewrite IH; [by rewrite <- app_assoc|done|done| |simpl in *; lia].
    by rewrite <- app_assoc.
Qed.

Lemma expect_head_None n s r :
  (∃ c t, s ++ r = String c t ∧ is_ws c = false ∧ N_of_ascii c ≠ n) →
  expect n (skip_ws (s ++ r)) = None.
Proof.
  intros (c & t & -> & Hw & Hn). simpl. rewrite Hw. simpl.
  by destruct (N.eqb_spec (N_of_ascii c) n).
Qed.

Theorem parse_value_stringify v : round_trips v.
Proof.
  induction v as [|b|n|s|l IH|m IH] using json_ind'; intros Hu fuel r Hfuel Hr;
    (destruct fuel as [|fuel]; [simpl in Hfuel; lia|]).
  - reflexivity.
  - by destruct b.
  - cbn [JSON_stringify]. rewrite parse_value_unfold.
    destruct (pretty_head n r) as (c & t & Heq & Hw & Hc).
    rewrite Heq. simpl skip_ws. rewrite Hw. cbv zeta.
    assert (Hcode : (N_of_ascii c = 45 ∨ 48 ≤ N_of_ascii c ≤ 57)%N).
    { destruct Hc as [->|Hd]; [by left|right].
      unfold is_digit in Hd. apply andb_true_iff in Hd as [H1 H2].
      apply N.leb_le in H1, H2. lia. }
    repeat match goal with
           | |- context [(N_of_ascii c =? ?k)%N] =>
               destruct (N.eqb_spec (N_of_ascii c) k); [lia|]
           end.
    by rewrite <- Heq, parse_number_pretty.
  - assert (Heq : JSON_stringify (JStr s) ++ r
                  = String dquote (escape s ++ String dquote r)).
    { cbn [JSON_stringify]. unfold quote.
      rewrite append_cons, append_assoc. reflexivity. }
    rewrite Heq, parse_value_unfold.
    change (skip_ws (String dquote ?s)) with (String dquote s).
    cbv beta iota zeta. cbn [N_of_ascii dquote ascii_of_N]. simpl N.eqb.
    cbv iota. by rewrite parse_chars_escape.
  - assert (Heq : JSON_stringify (JArr l) ++ r
                  = String "[" (String.concat "," (List.map JSON_stringify l)
                                ++ "]" ++ r)).
    { cbn [JSON_stringify]. rewrite !append_assoc. reflexivity. }
    cbn [unique_keys fuel_for] in *. rewrite Heq, parse_value_unfold.
    change (skip_ws (String "[" ?s)) with (String "["%char s).
    cbv beta iota zeta. cbn [N_of_ascii]. simpl N.eqb. cbv iota.
    destruct l as [|x l]; [reflexivity|].
    rewrite expect_head_None.
    2:{ destruct l as [|y l].
        - destruct (JSON_stringify_head x ("]" ++ r)) as (c & t & Hc & Hw & H93 & _).
          exists c, t. by rewrite <- Hc.
        - destruct (JSON_stringify_head x
                      ("," ++ String.concat "," (List.map JSON_stringify (y :: l))
                       ++ "]" ++ r)) as (c & t & Hc & Hw & H93 & _).
          exists c, t. rewrite <- Hc. split; [|done].
          change (String.concat "," (List.map JSON_stringify (x :: y :: l)))
            with (JSON_stringify x ++ ","
                  ++ String.concat "," (List.map JSON_stringify (y :: l))).
          by rewrite !append_assoc. }
    rewrite parse_elements_stringify; [done|done|done|done|lia].
  - assert (Heq : JSON_stringify (JObj m) ++ r
                  = String "{" (String.concat "," (List.map member_text m)
                                ++ "}" ++ r)).
    { cbn [JSON_stringify]. rewrite !append_assoc. reflexivity. }
    cbn [unique_keys fuel_for] in *. rewrite Heq, parse_value_unfold.
    apply andb_true_iff in Hu as [Hnd Hu]. apply bool_decide_eq_true in Hnd.
    change (skip_ws (String "{" ?s)) with (String "{"%char s).
    cbv beta iota zeta. cbn [N_of_ascii]. simpl N.eqb. cbv iota.
    destruct m as [|kv m]; [reflexivity|].
    rewrite expect_head_None.
    2:{ exists dquote. destruct m; eexists; (split; [reflexivity|by vm_compute]). }
    rewrite parse_members_stringify; [done|done|done|done|done|lia].
Qed.
End RoundTrip.

Section FuelBound.

Lemma length_append (a b : string) :
  String.length (a ++ b) = (String.length a + String.length b)%nat.
Proof. induction a as [|c a IH]; [done|]. rewrite append_cons. simpl. by rewrite IH. Qed.

Lemma append_nil_r (a : string) : a ++ "" = a.
Proof. induction a as [|c a IH]; [done|]. by rewrite append_cons, IH. Qed.

Lemma concat_length_bound (ws : list nat) (ts : list string) :
  Forall2 (fun w t => (w ≤ String.length t)%nat) ws ts →
  (list_sum (List.map S ws) ≤ S (String.length (String.concat "," ts)))%nat.
Proof.
  induction 1 as [|w t ws ts Hw Hrest IH]; [simpl; lia|].
  destruct Hrest as [|w' t' ws ts Hw' Hrest].
  - simpl. lia.
  - change (String.concat "," (t :: t' :: ts))
      with (t ++ "," ++ String.concat "," (t' :: ts)).
    rewrite !length_append. unfold list_sum in *.
    cbn [List.map fold_right] in *.
    change (String.length ",") with 1%nat. lia.
Qed.

Lemma fuel_for_length v : (fuel_for v ≤ String.length (JSON_stringify v))%nat.
Proof.
  induction v as [|b|n|s|l IH|m IH] using json_ind'.
  - simpl. lia.
  - destruct b; simpl; lia.
  - destruct (pretty_head n "") as (c & t & Heq & _).
    rewrite append_nil_r in Heq. cbn [JSON_stringify fuel_for]. rewrite Heq.
    simpl. lia.
  - cbn [JSON_stringify fuel_for]. unfold quote. cbn [String.length]. lia.
  - cbn [JSON_stringify fuel_for]. rewrite !length_append.
    change (String.length "[") with 1%nat. change (String.length "]") with 1%nat.
    pose proof (concat_length_bound (List.map fuel_for l) (List.map JSON_stringify l)) as Hb.
    rewrite map_map in Hb.
    assert (Forall2 (fun w t => (w ≤ String.length t)%nat)
              (List.map fuel_for l) (List.map JSON_stringify l)) as HF.
    { clear Hb. induction IH; constructor; auto. }
    specialize (Hb HF). lia.
  - cbn [JSON_stringify fuel_for]. rewrite !length_append.
    change (String.length "{") with 1%nat. change (String.length "}") with 1%nat.
    pose proof (concat_length_bound (List.map (fun kv => fuel_for (snd kv)) m)
                  (List.map (fun kv => quote kv.1 ++ ":" ++ JSON_stringify kv.2) m)) as Hb.
    rewrite map_map in Hb.
    assert (Forall2 (fun w t => (w ≤ String.length t)%nat)
              (List.map (fun kv => fuel_for (snd kv)) m)
              (List.map (fun kv => quote kv.1 ++ ":" ++ JSON_stringify kv.2) m)) as HF.
    { clear Hb. induction IH as [|kv m Hkv _ IHm]; constructor; [|done].
      rewrite !length_append. lia. }
    specialize (Hb HF). lia.
Qed.

(** [JSON.parse(JSON.stringify(v))] gives [v] back. *)
Theorem JSON_parse_stringify v :
  unique_keys v = true → JSON_parse (JSON_stringify v) = Some v.
Proof.
  intros Hu. unfold JSON_parse.
  pose proof (parse_value_stringify v Hu (S (String.length (JSON_stringify v))) ""
                ltac:(pose proof (fuel_for_length v); lia) eq_refl) as Hp.
  rewrite append_nil_r in Hp. by rewrite Hp.
Qed.

End FuelBound.

(* ===================================================================== *)
(** ** The JSON grammar and the parser of the integer fragment           *)
(* ===================================================================== *)

Example JSON_valid_examples :
  JSON_valid "[1.5]" = true ∧ JSON_valid "1e2" = true ∧ JSON_valid " -0.0E+7 " = true
  ∧ JSON_valid "{ } " = true
  ∧ JSON_valid "[[[[[[[[[[1]]]]]]]]]]" = true
  ∧ JSON_valid "[1,2,3,4,5,6,7,8,9]" = true
  ∧ JSON_valid "A,B" = false ∧ JSON_valid "" = false ∧ JSON_valid "01" = false
  ∧ JSON_valid "1." = false ∧ JSON_valid ".5" = false ∧ JSON_valid "1e" = false
  ∧ JSON_valid "[1,]" = false ∧ JSON_valid "+1" = false ∧ JSON_valid "- 1" = false
  ∧ JSON_valid "nul" = false ∧ JSON_valid "[1 2]" = false.
Proof. vm_compute. repeat split. Qed.

Section Grammar.

Lemma parse_nat_literal_valid s n r :
  parse_nat_literal s = Some (n, r) →
  valid_integer s = Some r ∧ starts_fraction r = false.
Proof.
  unfold parse_nat_literal, valid_integer. destruct s as [|c s']; [done|].
  destruct (N_of_ascii c =? 48)%N.
  - destruct (starts_fraction s') eqn:Hf; [done|]. by intros [= _ <-].
  - destruct (is_digit c); [|done].
    destruct (parse_digits (digit_val c) s') as [m rest]. cbn [snd].
    destruct (starts_fraction rest) eqn:Hf; [done|]. by intros [= _ <-].
Qed.

Lemma starts_fraction_false r :
  starts_fraction r = false → valid_fraction r = Some r ∧ valid_exponent r = Some r.
Proof.
  unfold starts_fraction, valid_fraction, valid_exponent.
  destruct r as [|c r]; [done|].
  destruct (N_of_ascii c =? 46)%N; [done|].
  cbn [orb]. by intros ->.
Qed.

Lemma parse_number_valid s z r :
  parse_number s = Some (z, r) → valid_number s = Some r.
Proof.
  unfold parse_number, valid_number. destruct s as [|c s']; [done|].
  destruct (N_of_ascii c =? 45)%N.
  - destruct (parse_nat_literal s') as [[n rest]|] eqn:Hn; [|done].
    intros [= _ <-]. apply parse_nat_literal_valid in Hn as [-> Hf].
    by destruct (starts_fraction_false _ Hf) as [-> ->].
  - intros Hn. apply parse_nat_literal_valid in Hn as [-> Hf].
    by destruct (starts_fraction_false _ Hf) as [-> ->].
Qed.

Lemma valid_value_unfold fuel s :
  valid_value (S fuel) s
  = match skip_ws s with
    | EmptyString => None
    | String c s' =>
        let n := N_of_ascii c in
        if (n =? 123)%N then
          match expect 125 (skip_ws s') with
          | Some rest => Some rest
          | None => valid_members fuel s'
          end
        else if (n =? 91)%N then
          match expect 93 (skip_ws s') with
          | Some rest => Some rest
          | None => valid_elements fuel s'
          end
        else if (n =? 34)%N then
          match parse_chars s' with
          | Some (_, rest) => Some rest
          | None => None
          end
        else if (n =? 116)%N then expect_word "rue" s'
        else if (n =? 102)%N then expect_word "alse" s'
        else if (n =? 110)%N then expect_word "ull" s'
        else valid_number (String c s')
    end.
Proof. reflexivity. Qed.

Lemma valid_elements_unfold fuel s :
  valid_elements (S fuel) s
  = match valid_value fuel s with
    | Some rest =>
        match skip_ws rest with
        | String c rest' =>
            if (N_of_ascii c =? 93)%N then Some rest'
            else if (N_of_ascii c =? 44)%N then valid_elements fuel rest'
            else None
        | EmptyString => None
        end
    | None => None
    end.
Proof. reflexivity. Qed.

Lemma valid_members_unfold fuel s :
  valid_members (S fuel) s
  = match expect 34 (skip_ws s) with
    | Some s1 =>
        match parse_chars s1 with
        | Some (_, s2) =>
            match expect 58 (skip_ws s2) with
            | Some s3 =>
                match valid_value fuel s3 with
                | Some rest =>
                    match skip_ws rest with
                    | String c rest' =>
                        if (N_of_ascii c =? 125)%N then Some rest'
                        else if (N_of_ascii c =? 44)%N then valid_members fuel rest'
                        else None
                    | EmptyString => None
                    end
                | None => None
                end
            | None => None
            end
        | None => None
        end
    | None => None
    end.
Proof. reflexivity. Qed.

(** What the parser of the integer fragment accepts is text of the
    grammar. *)
Lemma parse_valid fuel :
  (∀ s v r, parse_value fuel s = Some (v, r) → valid_value fuel s = Some r)
  ∧ (∀ s l r, parse_elements fuel s = Some (l, r) → valid_elements fuel s = Some r)
  ∧ (∀ acc s m r, parse_members fuel acc s = Some (m, r) →
                  valid_members fuel s = Some r).
Proof.
  induction fuel as [|fuel (IHv & IHe & IHm)]; [done|]. split_and!.
  - intros s v r. rewrite parse_value_unfold, valid_value_unfold.
    destruct (skip_ws s) as [|c s']; [done|]. cbv zeta.
    destruct (N_of_ascii c =? 123)%N.
    { destruct (expect 125 (skip_ws s')) as [rest|]; [by intros [= _ <-]|].
      destruct (parse_members fuel [] s') as [[m rest]|] eqn:Hm; [|done].
      intros [= _ <-]. by apply (IHm [] s' m). }
    destruct (N_of_ascii c =? 91)%N.
    { destruct (expect 93 (skip_ws s')) as [rest|]; [by intros [= _ <-]|].
      destruct (parse_elements fuel s') as [[l rest]|] eqn:He; [|done].
      intros [= _ <-]. by apply (IHe s' l). }
    destruct (N_of_ascii c =? 34)%N.
    { destruct (parse_chars s') as [[t rest]|]; [by intros [= _ <-]|done]. }
    destruct (N_of_ascii c =? 116)%N.
    { destruct (expect_word "rue" s') as [rest|]; [by intros [= _ <-]|done]. }
    destruct (N_of_ascii c =? 102)%N.
    { destruct (expect_word "alse" s') as [rest|]; [by intros [= _ <-]|done]. }
    destruct (N_of_ascii c =? 110)%N.
    { destruct (expect_word "ull" s') as [rest|]; [by intros [= _ <-]|done]. }
    destruct (parse_number (String c s')) as [[z rest]|] eqn:Hn; [|done].
    intros [= _ <-]. by apply parse_number_valid in Hn.
  - intros s l r. rewrite parse_elements_unfold, valid_elements_unfold.
    destruct (parse_value fuel s) as [[v rest]|] eqn:Hv; [|done].
    rewrite (IHv _ _ _ Hv).
    destruct (skip_ws rest) as [|c rest']; [done|].
    destruct (N_of_ascii c =? 93)%N; [by intros [= _ <-]|].
    destruct (N_of_ascii c =? 44)%N; [|done].
    destruct (parse_elements fuel rest') as [[l' r']|] eqn:He; [|done].
    intros [= _ <-]. by apply IHe in He.
  - intros acc s m r. rewrite parse_members_unfold, valid_members_unfold.
    destruct (expect 34 (skip_ws s)) as [s1|]; [|done].
    destruct (parse_chars s1) as [[k s2]|]; [|done].
    destruct (expect 58 (skip_ws s2)) as [s3|]; [|done].
    destruct (parse_value fuel s3) as [[v rest]|] eqn:Hv; [|done].
    rewrite (IHv _ _ _ Hv). cbv zeta.
    destruct (skip_ws rest) as [|c rest']; [done|].
    destruct (N_of_ascii c =? 125)%N; [by intros [= _ <-]|].
    destruct (N_of_ascii c =? 44)%N; [|done].
    intros Hm. by apply IHm in Hm.
Qed.

Lemma JSON_parse_valid s j : JSON_parse s = Some j → JSON_valid s = true.
Proof.
  unfold JSON_parse, JSON_valid.
  destruct (parse_value (S (String.length s)) s) as [[v rest]|] eqn:Hv; [|done].
  apply (proj1 (parse_valid _)) in Hv. rewrite Hv.
  by destruct (skip_ws rest).
Qed.

(** Text outside the grammar is rejected: the [SyntaxError] of
    [JSON.parse]. *)
Lemma JSON_parse_invalid s : JSON_valid s = false → JSON_parse s = None.
Proof.
  intros Hv. destruct (JSON_parse s) as [j|] eqn:Hp; [|done].
  apply JSON_parse_valid in Hp. congruence.
Qed.

End Grammar.

(* ===================================================================== *)
(** ** Facts about the MongoDB revisions                                  *)
(* ===================================================================== *)

Section MongoFacts.
Import Mongo.

Lemma finalRow_id (d : gmap string value) : finalRow d !! "id" = Some (prop d "_id").
Proof.
  unfold finalRow.
  rewrite !lookup_delete_ne, lookup_insert_ne, lookup_insert_eq by done. done.
Qed.

Lemma finalRow_finalReadingDuration (d : gmap string value) :
  finalRow d !! "finalReadingDuration" = Some (prop d "readingDuration").
Proof.
  unfold finalRow. rewrite !lookup_delete_ne, lookup_insert_eq by done. done.
Qed.

Lemma finalRow__id (d : gmap string value) : finalRow d !! "_id" = None.
Proof.
  unfold finalRow. rewrite lookup_delete_ne, lookup_delete_eq by done. done.
Qed.

Lemma finalRow_readingDuration (d : gmap string value) :
  finalRow d !! "readingDuration" = None.
Proof. unfold finalRow. by rewrite lookup_delete_eq. Qed.

Lemma finalRow_other (d : gmap string value) (k : string) :
  k ≠ "id" → k ≠ "finalReadingDuration" → k ≠ "_id" → k ≠ "readingDuration" →
  finalRow d !! k = d !! k.
Proof.
  intros. unfold finalRow.
  rewrite !lookup_delete_ne, !lookup_insert_ne by done. done.
Qed.

Lemma to_bson_lookup (d : gmap string value) (k : string) :
  to_bson d !! k
  = (fun v => match v with Undefined => J JNull | _ => v end) <$> d !! k.
Proof. unfold to_bson. apply lookup_fmap. Qed.

Lemma docToInsert_consentAgreed t (data : gmap string json) :
  docToInsert t data !! "consentAgreed"
  = Some (J (JBool (String.eqb (toLowerCase (ToString (data !! "consentAgreed"))) "true"))).
Proof.
  unfold docToInsert. rewrite lookup_delete_ne, lookup_insert_eq by done. done.
Qed.

Lemma docToInsert_timestamp t (data : gmap string json) :
  docToInsert t data !! "timestamp" = Some (Date t).
Proof.
  unfold docToInsert.
  rewrite lookup_delete_ne, lookup_insert_ne, lookup_insert_eq by done. done.
Qed.

Lemma docToInsert_readingDuration t (data : gmap string json) :
  docToInsert t data !! "readingDuration"
  = Some (of_jsval (data !! "finalReadingDuration")).
Proof.
  unfold docToInsert.
  rewrite lookup_delete_ne, !lookup_insert_ne, lookup_insert_eq by done. done.
Qed.

Lemma docToInsert_q1_c t (data : gmap string json) :
  docToInsert t data !! "q1_c" = Some (J (q1_c_array (data !! "q1_c"))).
Proof.
  unfold docToInsert.
  rewrite lookup_delete_ne, !lookup_insert_ne, lookup_insert_eq by done. done.
Qed.

Lemma docToInsert_finalReadingDuration t (data : gmap string json) :
  docToInsert t data !! "finalReadingDuration" = None.
Proof. unfold docToInsert. by rewrite lookup_delete_eq. Qed.

Lemma docToInsert_other t (data : gmap string json) (k : string) :
  k ≠ "consentAgreed" → k ≠ "timestamp" → k ≠ "readingDuration" →
  k ≠ "q1_c" → k ≠ "finalReadingDuration" →
  docToInsert t data !! k = J <$> data !! k.
Proof.
  intros. unfold docToInsert.
  rewrite lookup_delete_ne, !lookup_insert_ne by done. apply lookup_fmap.
Qed.

(** The client's own [timestamp] never reaches the document. *)
Lemma docToInsert_ignores_timestamp t (d1 d2 : gmap string json) :
  delete "timestamp" d1 = delete "timestamp" d2 →
  docToInsert t d1 = docToInsert t d2.
Proof.
  intros Heq.
  assert (Hk : ∀ k, k ≠ "timestamp" → d1 !! k = d2 !! k).
  { intros k Hk. rewrite <- (lookup_delete_ne d1 "timestamp" k) by done.
    rewrite Heq. by rewrite lookup_delete_ne. }
  apply map_eq; intros k.
  destruct (decide (k = "finalReadingDuration")) as [->|];
    [by rewrite !docToInsert_finalReadingDuration|].
  destruct (decide (k = "consentAgreed")) as [->|];
    [rewrite !docToInsert_consentAgreed, Hk by done; done|].
  destruct (decide (k = "timestamp")) as [->|];
    [by rewrite !docToInsert_timestamp|].
  destruct (decide (k = "readingDuration")) as [->|];
    [rewrite !docToInsert_readingDuration, Hk by done; done|].
  destruct (decide (k = "q1_c")) as [->|];
    [rewrite !docToInsert_q1_c, Hk by done; done|].
  rewrite !docToInsert_other, Hk by done. done.
Qed.
End MongoFacts.

Section MongoHandlers.
Import Mongo.

Lemma sent_finally rv e r : sent (finally rv e r) = Some r.
Proof. unfold finally. destruct (step (close_error e)), rv; done. Qed.

Lemma rejected_finally_Guarded e r : rejected (finally Guarded e r) = None.
Proof. unfold finally. destruct (step (close_error e)); done. Qed.

Lemma rejected_finally_closed rv e r :
  close_error e = None → rejected (finally rv e r) = None.
Proof. unfold finally. intros ->. done. Qed.

Lemma supplied_id_Some (doc : gmap string value) i :
  supplied_id doc = Some i →
  doc !! "_id" = Some i ∧ i ≠ Undefined ∧ i ≠ J JNull.
Proof.
  unfold supplied_id.
  destruct (doc !! "_id") as [[|[]| |]|]; intros [= <-]; done.
Qed.

Lemma existsb_id_false (l : list (gmap string value)) i :
  existsb (fun d => bool_decide (d !! "_id" = Some i)) l = false →
  ∀ d, d ∈ l → d !! "_id" ≠ Some i.
Proof.
  intros H d Hd Hi.
  assert (existsb (fun d => bool_decide (d !! "_id" = Some i)) l = true);
    [|congruence].
  apply existsb_exists. exists d. split; [by apply list_elem_of_In|].
  by apply bool_decide_eq_true.
Qed.

(** What a successful [insertOne] did. *)
Lemma insertOne_Ok e c doc c' i :
  well_formed c →
  (∀ n, doc !! "_id" ≠ Some (ObjectId n)) →
  insertOne e c doc = Ok (c', i) →
  operation_error e = None
  ∧ docs c' = (docs c ++ [stored i doc])%list
  ∧ i ≠ Undefined
  ∧ (∀ d, d ∈ docs c → d !! "_id" ≠ Some i)
  ∧ (supplied_id doc = None → i = ObjectId (next_oid c))
  ∧ well_formed c'.
Proof.
  intros Hwf Hjson. unfold insertOne.
  destruct (operation_error e); [done|].
  destruct (supplied_id doc) as [j|] eqn:Hs.
  - destruct (existsb _ _) eqn:Hex; [done|]. intros [= <- <-].
    apply supplied_id_Some in Hs as (Hj & Hu & Hn).
    assert (Hst : stored j doc = to_bson doc).
    { unfold stored. apply insert_id. rewrite to_bson_lookup, Hj.
      by destruct j as [|[]| |]. }
    split_and!; try done.
    + simpl. by rewrite Hst.
    + by apply existsb_id_false.
    + intros d n Hd Hid. simpl in *.
      apply elem_of_app in Hd as [Hd|Hd]; [by eapply Hwf|].
      apply list_elem_of_singleton in Hd as ->.
      rewrite to_bson_lookup, Hj in Hid.
      destruct j as [|[]| |]; simplify_eq/=. by destruct (Hjson n).
  - intros [= <- <-]. split_and!; try done.
    + intros d Hd Hid. apply Hwf in Hid; [lia|done].
    + intros d n Hd Hid. simpl in *.
      apply elem_of_app in Hd as [Hd|Hd].
      * apply Hwf in Hid; [lia|done].
      * apply list_elem_of_singleton in Hd as ->.
        rewrite lookup_insert_eq in Hid. simplify_eq. lia.
Qed.

Lemma docToInsert_no_ObjectId t (data : gmap string json) n :
  docToInsert t data !! "_id" ≠ Some (ObjectId n).
Proof.
  rewrite docToInsert_other by done. by destruct (data !! "_id").
Qed.

Lemma well_formed_empty : well_formed Mongo.empty.
Proof. intros d n Hd. by apply elem_of_nil in Hd. Qed.

(** The three ways [post_api_submit] can go. *)
Lemma mongo_post_api_submit_cases rv e data c :
  (∃ m, connect_error e = Some m
        ∧ post_api_submit rv e data c
          = (Outcome (Some (failure "Server error during submission: " m)) None, c))
  ∨ (∃ m, connect_error e = None
        ∧ insertOne e c (docToInsert (now e) data) = Throw m
        ∧ post_api_submit rv e data c
          = (finally rv e (failure "Server error during submission: " m), c))
  ∨ (∃ c' i, connect_error e = None
        ∧ insertOne e c (docToInsert (now e) data) = Ok (c', i)
        ∧ post_api_submit rv e data c = (finally rv e (submitted i), c')).
Proof.
  unfold post_api_submit.
  destruct (connect_error e) as [m|]; simpl; [left; eauto|].
  destruct (insertOne e c _) as [[c' i]|m]; [right; right|right; left]; eauto.
Qed.

Lemma mongo_post_api_submit_well_formed rv e data c :
  well_formed c → well_formed (snd (post_api_submit rv e data c)).
Proof.
  intros Hwf.
  destruct (mongo_post_api_submit_cases rv e data c)
    as [(m & _ & ->)|[(m & _ & _ & ->)|(c' & i & _ & Hi & ->)]]; try done.
  simpl. eapply insertOne_Ok in Hi; [|done|apply docToInsert_no_ObjectId].
  tauto.
Qed.

Lemma mongo_submit_all_well_formed rv reqs c :
  well_formed c → well_formed (snd (submit_all rv reqs c)).
Proof.
  revert c. induction reqs as [|[e data] reqs IH]; intros c Hwf; [done|].
  simpl. pose proof (mongo_post_api_submit_well_formed rv e data c Hwf) as H1.
  destruct (post_api_submit rv e data c) as [o c1]. simpl in H1.
  specialize (IH c1 H1). destruct (submit_all rv reqs c1). done.
Qed.

(** A submission answered with status 201. *)
Lemma mongo_post_api_submit_201 rv e data c o c' r :
  well_formed c →
  post_api_submit rv e data c = (o, c') →
  sent o = Some r → status r = 201 →
  ∃ i, r = submitted i
     ∧ connect_error e = None ∧ operation_error e = None
     ∧ docs c' = (docs c ++ [stored i (docToInsert (now e) data)])%list
     ∧ i ≠ Undefined
     ∧ (∀ d, d ∈ docs c → d !! "_id" ≠ Some i)
     ∧ (supplied_id (docToInsert (now e) data) = None → i = ObjectId (next_oid c)).
Proof.
  intros Hwf Hp Hs Hst.
  destruct (mongo_post_api_submit_cases rv e data c)
    as [(m & _ & Heq)|[(m & _ & _ & Heq)|(c1 & i & Hc & Hi & Heq)]];
    rewrite Heq in Hp; simplify_eq; try rewrite sent_finally in Hs;
    simplify_eq/=.
  eapply insertOne_Ok in Hi; [|done|apply docToInsert_no_ObjectId].
  destruct Hi as (? & ? & ? & ? & ? & ?). exists i. split_and!; done.
Qed.

Lemma mongo_field_submitted_id i : field (submitted i) "id" = Some i.
Proof. unfold field, submitted. simpl. apply lookup_insert_eq. Qed.

Lemma mongo_get_api_results_200 rv e c :
  connect_error e = None → operation_error e = None →
  sent (get_api_results rv e c)
  = Some (Response 200 (Arr (List.map finalRow
      (sort_desc (fun a b => key_leb (timestamp_key a) (timestamp_key b)) (docs c))))).
Proof.
  intros Hc Ho. unfold get_api_results, find_sorted. rewrite Hc, Ho. simpl.
  apply sent_finally.
Qed.

(** Submit, then fetch: the list holds exactly one record with the
    announced identifier, the processed stored document. *)
Lemma mongo_submit_fetch rv e data c o c' i rv' e' :
  well_formed c →
  post_api_submit rv e data c = (o, c') →
  sent o = Some (submitted i) →
  connect_error e' = None → operation_error e' = None →
  ∃ rows,
    sent (get_api_results rv' e' c') = Some (Response 200 (Arr rows))
    ∧ the_record i rows (finalRow (stored i (docToInsert (now e) data))).
Proof.
  intros Hwf Hp Hs Hc' Ho'.
  destruct (mongo_post_api_submit_201 rv e data c o c' _ Hwf Hp Hs eq_refl)
    as (j & Hj & _ & _ & Hdocs & Hu & Hfresh & _).
  assert (j = i) as ->.
  { apply (f_equal (fun r => field r "id")) in Hj.
    rewrite !mongo_field_submitted_id in Hj. congruence. }
  eexists. split; [by apply mongo_get_api_results_200|].
  assert (Hid : stored i (docToInsert (now e) data) !! "_id" = Some i)
    by apply lookup_insert_eq.
  split_and!.
  - apply list_elem_of_fmap. eexists. split; [done|].
    apply sort_desc_elem_of. rewrite Hdocs. apply elem_of_app. right. by left.
  - rewrite finalRow_id. unfold prop. by rewrite Hid.
  - intros r' Hr' Hi'.
    apply list_elem_of_fmap in Hr' as (d & -> & Hd).
    apply sort_desc_elem_of in Hd. rewrite Hdocs in Hd.
    apply elem_of_app in Hd as [Hd|Hd].
    + exfalso. rewrite finalRow_id in Hi'. unfold prop in Hi'.
      destruct (d !! "_id") as [v|] eqn:Hv; simplify_eq/=.
      by apply (Hfresh d Hd).
    + by apply list_elem_of_singleton in Hd as ->.
Qed.
End MongoHandlers.

(* ===================================================================== *)
(** ** Facts about the SQLite revision                                    *)
(* ===================================================================== *)

Example integer_literal_examples :
  Sqlite.integer_literal "12" = Some 12
  ∧ Sqlite.integer_literal "-7" = Some (-7)
  ∧ Sqlite.integer_literal "007" = Some 7
  ∧ Sqlite.integer_literal "12a" = None
  ∧ Sqlite.integer_literal "abc" = None
  ∧ Sqlite.integer_literal "" = None.
Proof. by vm_compute. Qed.

Example store_examples :
  Sqlite.store Sqlite.TEXT (Sqlite.bind (Some (JNum 3))) = Sqlite.SText "3"
  ∧ Sqlite.store Sqlite.TEXT (Sqlite.bind (Some (JBool true))) = Sqlite.SText "1"
  ∧ Sqlite.store Sqlite.INTEGER (Sqlite.bind (Some (JStr "95"))) = Sqlite.SInt 95
  ∧ Sqlite.store Sqlite.INTEGER (Sqlite.bind (Some (JStr "fast"))) = Sqlite.SText "fast"
  ∧ Sqlite.store Sqlite.INTEGER (Sqlite.bind None) = Sqlite.SNull.
Proof. by vm_compute. Qed.

Section SqliteFacts.
Import Sqlite.

Lemma select_star_id r : select_star r !! "id" = Some (Some (JNum (id r))).
Proof. reflexivity. Qed.

Lemma select_star_consentAgreed r :
  select_star r !! "consentAgreed" = Some (js (consentAgreed r)).
Proof. reflexivity. Qed.

Lemma select_star_q1_c r : select_star r !! "q1_c" = Some (js (q1_c r)).
Proof. reflexivity. Qed.

Lemma select_star_readingDuration r :
  select_star r !! "readingDuration" = Some (js (readingDuration r)).
Proof. reflexivity. Qed.

Lemma select_star_timestamp r :
  select_star r !! "timestamp" = Some (js (timestamp r)).
Proof. reflexivity. Qed.

Lemma select_star__id r : select_star r !! "_id" = None.
Proof. reflexivity. Qed.

Lemma select_star_finalReadingDuration r :
  select_star r !! "finalReadingDuration" = None.
Proof. reflexivity. Qed.


Lemma results_row_q1_c (o : gmap string jsval) :
  results_row o !! "q1_c"
  = Some (match JSON_parse (ToString (prop o "q1_c")) with
          | Some j => Some j
          | None => Some (JArr [])
          end).
Proof.
  unfold results_row. cbv zeta.
  rewrite lookup_delete_ne, !lookup_insert_ne, lookup_insert_eq by done. done.
Qed.

Lemma results_row_consentAgreed (o : gmap string jsval) :
  results_row o !! "consentAgreed"
  = Some (Some (JBool (bool_decide (prop o "consentAgreed" = Some (JStr "true"))
                       || bool_decide (prop o "consentAgreed" = Some (JStr "1"))
                       || bool_decide (prop o "consentAgreed" = Some (JBool true))))).
Proof.
  unfold results_row. cbv zeta.
  rewrite lookup_delete_ne, lookup_insert_ne, lookup_insert_eq by done.
  unfold prop. rewrite lookup_insert_ne by done. done.
Qed.

Lemma results_row_finalReadingDuration (o : gmap string jsval) :
  results_row o !! "finalReadingDuration" = Some (prop o "readingDuration").
Proof.
  unfold results_row. cbv zeta.
  rewrite lookup_delete_ne, lookup_insert_eq by done.
  unfold prop. rewrite !lookup_insert_ne by done. done.
Qed.

Lemma results_row_readingDuration (o : gmap string jsval) :
  results_row o !! "readingDuration" = None.
Proof. unfold results_row. cbv zeta. by rewrite lookup_delete_eq. Qed.

Lemma results_row_other (o : gmap string jsval) (k : string) :
  k ≠ "q1_c" → k ≠ "consentAgreed" → k ≠ "finalReadingDuration" →
  k ≠ "readingDuration" →
  results_row o !! k = o !! k.
Proof.
  intros. unfold results_row. cbv zeta.
  rewrite lookup_delete_ne, !lookup_insert_ne by done. done.
Qed.

Lemma max_id_ge (l : list row) r : r ∈ l → id r ≤ max_id l.
Proof.
  induction 1 as [r l|r r' l _ IH]; simpl; lia.
Qed.

Lemma next_id_gt (t : table) r : r ∈ rows t → id r < next_id t.
Proof. intros H%max_id_ge. unfold next_id. lia. Qed.

Lemma max_id_nonneg (l : list row) : 0 ≤ max_id l.
Proof. induction l; simpl; lia. Qed.

Lemma next_id_pos (t : table) : 0 < next_id t.
Proof. pose proof (max_id_nonneg (rows t)). unfold next_id. lia. Qed.

(** What a successful [INSERT] stored. *)
Lemma run_insert_Ok e data t t' i :
  run_insert e data t = Ok (t', i) →
  error e = None ∧ i = next_id t ∧
  ∃ r, t' = Table (rows t ++ [r])%list i
     ∧ id r = i
     ∧ consentAgreed r
       = SText (if ToBoolean (data !! "consentAgreed")
                then ToString (data !! "consentAgreed") else "false")
     ∧ gradeLevel r = store TEXT (bind (data !! "gradeLevel"))
     ∧ gradeLevel r ≠ SNull
     ∧ q1_c r = SText (JSON_stringify (q1_c_or_empty (data !! "q1_c")))
     ∧ readingDuration r = store INTEGER (bind (data !! "finalReadingDuration"))
     ∧ timestamp r = SText (CURRENT_TIMESTAMP e).
Proof.
  unfold run_insert, db_run_insert.
  destruct (error e); [done|].
  destruct (store TEXT (bind (data !! "gradeLevel"))) eqn:Hg; [done| |];
    intros [= <- <-]; (split; [done|]); (split; [done|]);
    eexists; split_and!; try reflexivity; simpl; by rewrite ?Hg.
Qed.

Lemma sqlite_post_api_submit_cases e data t :
  (∃ m, run_insert e data t = Throw m
        ∧ post_api_submit e data t
          = (failure "Server error during submission.", t))
  ∨ (∃ t' i, run_insert e data t = Ok (t', i)
        ∧ post_api_submit e data t = (submitted i, t')).
Proof.
  unfold post_api_submit.
  destruct (run_insert e data t) as [[t' i]|m]; [right|left]; eauto.
Qed.

Lemma sqlite_field_submitted_id i :
  field (submitted i) "id" = Some (Some (JNum i)).
Proof. unfold field, submitted. simpl. apply lookup_insert_eq. Qed.

Lemma sqlite_post_api_submit_201 e data t r t' :
  post_api_submit e data t = (r, t') → status r = 201 →
  ∃ i, r = submitted i ∧ run_insert e data t = Ok (t', i).
Proof.
  intros Hp Hs.
  destruct (sqlite_post_api_submit_cases e data t) as [(m & _ & Heq)|(t1 & i & Hi & Heq)];
    rewrite Heq in Hp; simplify_eq/=. eauto.
Qed.

Lemma sqlite_get_api_results_200 e t :
  error e = None →
  get_api_results e t
  = Response 200 (Arr (List.map results_row (List.map select_star
      (sort_desc (fun a b => (id a <=? id b)%Z) (rows t))))).
Proof. intros He. unfold get_api_results, db_all. by rewrite He. Qed.

(** Submit, then fetch: the new row heads the list, and no other record
    carries its identifier. *)
Lemma sqlite_submit_fetch e data t t' i e' :
  post_api_submit e data t = (submitted i, t') →
  error e' = None →
  ∃ r rest,
    t' = Table (rows t ++ [r])%list i
    ∧ id r = i
    ∧ consentAgreed r
      = SText (if ToBoolean (data !! "consentAgreed")
               then ToString (data !! "consentAgreed") else "false")
    ∧ q1_c r = SText (JSON_stringify (q1_c_or_empty (data !! "q1_c")))
    ∧ readingDuration r = store INTEGER (bind (data !! "finalReadingDuration"))
    ∧ get_api_results e' t'
      = Response 200 (Arr (results_row (select_star r) :: rest))
    ∧ the_record (Some (JNum i)) (results_row (select_star r) :: rest)
        (results_row (select_star r)).
Proof.
  intros Hp He'.
  destruct (sqlite_post_api_submit_201 e data t _ t' Hp eq_refl) as (j & Hj & Hrun).
  assert (j = i) as ->.
  { apply (f_equal (fun r => field r "id")) in Hj.
    rewrite !sqlite_field_submitted_id in Hj. congruence. }
  destruct (run_insert_Ok e data t t' i Hrun)
    as (_ & Hi & r & Ht' & Hid & Hcons & _ & _ & Hq & Hrd & _).
  exists r. eexists. do 5 (split; [done|]).
  rewrite sqlite_get_api_results_200 by done. rewrite Ht'. simpl rows.
  rewrite sort_desc_snoc.
  2:{ intros y Hy. apply next_id_gt in Hy. apply Z.leb_gt. lia. }
  simpl. split; [reflexivity|].
  split_and!.
  - by left.
  - rewrite results_row_other, select_star_id by done. by rewrite Hid.
  - intros r' Hr' Hi'. apply elem_of_cons in Hr' as [->|Hr']; [done|].
    exfalso.
    apply list_elem_of_fmap in Hr' as (o & -> & Ho).
    apply list_elem_of_fmap in Ho as (d & -> & Hd).
    apply sort_desc_elem_of in Hd.
    rewrite results_row_other, select_star_id in Hi' by done.
    apply next_id_gt in Hd. simplify_eq. lia.
Qed.
End SqliteFacts.

Section SqliteCells.
Import Sqlite.

(** What the results handler makes of the [q1_c] and [consentAgreed] cells
    of a row. *)
Lemma results_row_cell_NULL r :
  q1_c r = SNull → results_row (select_star r) !! "q1_c" = Some (Some JNull).
Proof.
  intros Hq. rewrite results_row_q1_c. unfold prop.
  rewrite select_star_q1_c, Hq. vm_compute. reflexivity.
Qed.

Lemma results_row_cell_stringify r v :
  q1_c r = SText (JSON_stringify v) → unique_keys v = true →
  results_row (select_star r) !! "q1_c" = Some (Some v).
Proof.
  intros Hq Hu. rewrite results_row_q1_c. unfold prop.
  rewrite select_star_q1_c, Hq. cbn [from_option Datatypes.id js ToString json_ToString].
  by rewrite JSON_parse_stringify.
Qed.

Lemma results_row_cell_invalid r :
  JSON_valid (ToString (js (q1_c r))) = false →
  results_row (select_star r) !! "q1_c" = Some (Some (JArr [])).
Proof.
  intros Hv%JSON_parse_invalid. rewrite results_row_q1_c. unfold prop.
  rewrite select_star_q1_c. cbn [from_option Datatypes.id]. by rewrite Hv.
Qed.

Lemma results_row_cell_consentAgreed r :
  results_row (select_star r) !! "consentAgreed"
  = Some (Some (JBool (bool_decide (consentAgreed r = SText "true")
                       || bool_decide (consentAgreed r = SText "1")))).
Proof.
  rewrite results_row_consentAgreed. unfold prop.
  rewrite select_star_consentAgreed. cbn [from_option Datatypes.id].
  destruct (consentAgreed r) as [|n|s]; cbn [js]; try done.
  do 3 f_equal. rewrite orb_false_r.
  f_equal; apply bool_decide_ext; split; congruence.
Qed.

End SqliteCells.

(* ===================================================================== *)
(** ** Submit, then fetch: the normalised fields                          *)
(* ===================================================================== *)

Section SubmitFetch.

Lemma mongo_record_field t (data : gmap string json) i (k : string) :
  k ≠ "id" → k ≠ "finalReadingDuration" → k ≠ "_id" → k ≠ "readingDuration" →
  Mongo.finalRow (Mongo.stored i (Mongo.docToInsert t data)) !! k
  = (fun v => match v with Mongo.Undefined => Mongo.J JNull | _ => v end)
      <$> Mongo.docToInsert t data !! k.
Proof.
  intros. rewrite finalRow_other by done. unfold Mongo.stored.
  rewrite lookup_insert_ne by done. apply to_bson_lookup.
Qed.

Lemma mongo_record_finalReadingDuration t (data : gmap string json) i :
  Mongo.finalRow (Mongo.stored i (Mongo.docToInsert t data)) !! "finalReadingDuration"
  = Some (match data !! "finalReadingDuration" with
          | Some j => Mongo.J j
          | None => Mongo.J JNull
          end).
Proof.
  rewrite finalRow_finalReadingDuration. unfold Mongo.prop, Mongo.stored.
  rewrite lookup_insert_ne by done.
  rewrite to_bson_lookup, docToInsert_readingDuration.
  by destruct (data !! "finalReadingDuration").
Qed.

(** The record of a 201 submission, as a later fetch lists it (MongoDB). *)
Lemma mongo_cycle rv prior e data o c' i rv' e' :
  Mongo.post_api_submit rv e data (snd (Mongo.submit_all rv prior Mongo.empty))
    = (o, c') →
  Mongo.sent o = Some (Mongo.submitted i) →
  Mongo.connect_error e' = None → Mongo.operation_error e' = None →
  ∃ rows,
    Mongo.sent (Mongo.get_api_results rv' e' c') = Some (Response 200 (Arr rows))
    ∧ the_record i rows
        (Mongo.finalRow (Mongo.stored i (Mongo.docToInsert (Mongo.now e) data))).
Proof.
  intros. eapply mongo_submit_fetch; try done.
  apply mongo_submit_all_well_formed, well_formed_empty.
Qed.

Lemma sqlite_fetched_consent (r0 : Sqlite.row) (cv : string) :
  Sqlite.consentAgreed r0 = Sqlite.SText cv →
  Sqlite.results_row (Sqlite.select_star r0) !! "consentAgreed"
  = Some (Some (JBool (String.eqb cv "true" || String.eqb cv "1"))).
Proof.
  intros Hc. rewrite results_row_consentAgreed. unfold Sqlite.prop.
  rewrite select_star_consentAgreed, Hc. simpl. do 3 f_equal.
  rewrite orb_false_r. f_equal.
  - destruct (String.eqb_spec cv "true") as [->|Hn]; [done|].
    apply bool_decide_eq_false. congruence.
  - destruct (String.eqb_spec cv "1") as [->|Hn]; [done|].
    apply bool_decide_eq_false. congruence.
Qed.

End SubmitFetch.

(** C1, the claim as stated fails on the SQLite revision: the string ["1"]
    does not compare equal to ["true"] in any letter case, yet the fetched
    [consentAgreed] is [true]. *)
Lemma C1_sqlite_one_counterexample :
  let data : gmap string json :=
    {[ "gradeLevel" := JStr "3"; "consentAgreed" := JStr "1" ]} in
  let ts := "2026-11-02 09:00:00" in
  let sub := Sqlite.post_api_submit (Sqlite.healthy ts) data Sqlite.empty in
  status (fst sub) = 201
  ∧ String.eqb (toLowerCase (ToString (data !! "consentAgreed"))) "true" = false
  ∧ ∃ row, Sqlite.get_api_results (Sqlite.healthy ts) (snd sub)
           = Response 200 (Arr [row])
         ∧ row !! "consentAgreed" = Some (Some (JBool true)).
Proof.
  split; [by vm_compute|]. split; [by vm_compute|].
  eexists. split; [by vm_compute|]. by vm_compute.
Qed.

(** C1 (amended).  After a submission answered 201 with identifier [i], a
    fetch lists exactly one record with that identifier.  On the MongoDB
    revisions its [consentAgreed] is [true] exactly when
    [String(data.consentAgreed).toLowerCase()] is ["true"], and [false]
    otherwise (omission included).  On the SQLite revision it is [true] when
    the submitted value is truthy and [String] of it is exactly ["true"] or
    ["1"], and [false] when the value is falsy or omitted, or when the
    lower-cased [String] of it is neither ["true"] nor ["1"]. *)
Theorem C1_consentAgreed_after_submit_fetch :
  (∀ rv prior e data o c' i rv' e',
     Mongo.post_api_submit rv e data (snd (Mongo.submit_all rv prior Mongo.empty))
       = (o, c') →
     Mongo.sent o = Some (Mongo.submitted i) →
     Mongo.connect_error e' = None → Mongo.operation_error e' = None →
     ∃ rows r,
       Mongo.sent (Mongo.get_api_results rv' e' c') = Some (Response 200 (Arr rows))
       ∧ the_record i rows r
       ∧ r !! "consentAgreed"
         = Some (Mongo.J (JBool
             (String.eqb (toLowerCase (ToString (data !! "consentAgreed"))) "true"))))
  ∧
  (∀ e data t t' i e',
     Sqlite.post_api_submit e data t = (Sqlite.submitted i, t') →
     Sqlite.error e' = None →
     ∃ rows r,
       Sqlite.get_api_results e' t' = Response 200 (Arr rows)
       ∧ the_record (Some (JNum i)) rows r
       ∧ (ToBoolean (data !! "consentAgreed") = true
          ∧ (ToString (data !! "consentAgreed") = "true"
             ∨ ToString (data !! "consentAgreed") = "1") →
          r !! "consentAgreed" = Some (Some (JBool true)))
       ∧ (ToBoolean (data !! "consentAgreed") = false
          ∨ (toLowerCase (ToString (data !! "consentAgreed")) ≠ "true"
             ∧ toLowerCase (ToString (data !! "consentAgreed")) ≠ "1") →
          r !! "consentAgreed" = Some (Some (JBool false)))).
Proof.
  split.
  - intros rv prior e data o c' i rv' e' Hp Hs Hc Ho.
    destruct (mongo_cycle rv prior e data o c' i rv' e' Hp Hs Hc Ho)
      as (rows & Hget & Hrec).
    exists rows. eexists. split; [done|]. split; [done|].
    rewrite mongo_record_field, docToInsert_consentAgreed by done. done.
  - intros e data t t' i e' Hp He'.
    destruct (sqlite_submit_fetch e data t t' i e' Hp He')
      as (r0 & rest & _ & _ & Hcons & _ & _ & Hget & Hrec).
    eexists. eexists. split; [done|]. split; [done|].
    rewrite (sqlite_fetched_consent _ _ Hcons).
    split.
    + intros [-> [-> | ->]]; done.
    + intros [-> | [Ht H1]]; [done|].
      destruct (ToBoolean _); [|done].
      destruct (String.eqb_spec (ToString (data !! "consentAgreed")) "true")
        as [E|_]; [by rewrite E in Ht|].
      destruct (String.eqb_spec (ToString (data !! "consentAgreed")) "1")
        as [E|_]; [by rewrite E in H1|]. done.
Qed.

Lemma C1_consentAgreed_witness :
  let data : gmap string json :=
    {[ "gradeLevel" := JStr "3"; "consentAgreed" := JStr "TRUE" ]} in
  let sub := Mongo.post_api_submit Mongo.Atlas (Mongo.healthy 10) data Mongo.empty in
  let sub' := Sqlite.post_api_submit (Sqlite.healthy "2026-11-02 09:00:00")
                (<["consentAgreed" := JBool true]> data) Sqlite.empty in
  (Mongo.sent (fst sub) = Some (Mongo.submitted (Mongo.ObjectId 0))
   ∧ ∃ rows r,
       Mongo.sent (Mongo.get_api_results Mongo.Guarded (Mongo.healthy 20) (snd sub))
       = Some (Response 200 (Arr rows))
       ∧ the_record (Mongo.ObjectId 0) rows r
       ∧ r !! "consentAgreed" = Some (Mongo.J (JBool true)))
  ∧ (fst sub' = Sqlite.submitted 1
     ∧ ∃ rows r,
         Sqlite.get_api_results (Sqlite.healthy "2026-11-02 09:05:00") (snd sub')
         = Response 200 (Arr rows)
         ∧ the_record (Some (JNum 1)) rows r
         ∧ r !! "consentAgreed" = Some (Some (JBool true))).
Proof.
  intros data sub sub'. split.
  - split; [by vm_compute|].
    apply (proj1 C1_consentAgreed_after_submit_fetch Mongo.Atlas []
             (Mongo.healthy 10) data (fst sub) (snd sub) (Mongo.ObjectId 0)
             Mongo.Guarded (Mongo.healthy 20)); by vm_compute.
  - split; [by vm_compute|].
    destruct (proj2 C1_consentAgreed_after_submit_fetch
                (Sqlite.healthy "2026-11-02 09:00:00")
                (<["consentAgreed" := JBool true]> data) Sqlite.empty (snd sub') 1
                (Sqlite.healthy "2026-11-02 09:05:00"))
      as (rows & r & Hget & Hrec & Htrue & _); [by vm_compute|by vm_compute|].
    exists rows, r. split; [done|]. split; [done|].
    apply Htrue. split; [by vm_compute|left; by vm_compute].
Defined.

(** The multi-select field on the MongoDB revisions: after a submission
    answered 201, the fetched [q1_c] is the submitted list, the one-element
    list of a truthy scalar, or the empty list. *)
Lemma mongo_q1_c_after_submit_fetch rv prior e data o c' i rv' e' :
  Mongo.post_api_submit rv e data (snd (Mongo.submit_all rv prior Mongo.empty))
    = (o, c') →
  Mongo.sent o = Some (Mongo.submitted i) →
  Mongo.connect_error e' = None → Mongo.operation_error e' = None →
  ∃ rows r,
    Mongo.sent (Mongo.get_api_results rv' e' c') = Some (Response 200 (Arr rows))
    ∧ the_record i rows r
    ∧ (∀ l, data !! "q1_c" = Some (JArr l) → r !! "q1_c" = Some (Mongo.J (JArr l)))
    ∧ (∀ s, data !! "q1_c" = Some (JStr s) → s ≠ "" →
            r !! "q1_c" = Some (Mongo.J (JArr [JStr s])))
    ∧ (data !! "q1_c" = None → r !! "q1_c" = Some (Mongo.J (JArr []))).
Proof.
  intros Hp Hs Hc Ho.
  destruct (mongo_cycle rv prior e data o c' i rv' e' Hp Hs Hc Ho)
    as (rows & Hget & Hrec).
  exists rows. eexists. split; [done|]. split; [done|].
  rewrite mongo_record_field, docToInsert_q1_c by done.
  split_and!.
  - by intros l ->.
  - intros s -> Hne. simpl. by destruct s.
  - by intros ->.
Qed.

(** The multi-select field on the SQLite revision: after a submission
    answered 201, the fetched [q1_c] is [data.q1_c || []] itself, parsed
    back from its JSON text: the submitted list, the empty list when the
    field is omitted, and a truthy scalar as it is. *)
Lemma sqlite_q1_c_after_submit_fetch e data t t' i e' :
  Sqlite.post_api_submit e data t = (Sqlite.submitted i, t') →
  Sqlite.error e' = None →
  unique_keys (Sqlite.q1_c_or_empty (data !! "q1_c")) = true →
  ∃ rows r,
    Sqlite.get_api_results e' t' = Response 200 (Arr rows)
    ∧ the_record (Some (JNum i)) rows r
    ∧ r !! "q1_c" = Some (Some (Sqlite.q1_c_or_empty (data !! "q1_c"))).
Proof.
  intros Hp He' Hu.
  destruct (sqlite_submit_fetch e data t t' i e' Hp He')
    as (r0 & rest & _ & _ & _ & Hq & _ & Hget & Hrec).
  eexists. eexists. split; [done|]. split; [done|].
  rewrite results_row_q1_c. unfold Sqlite.prop.
  rewrite select_star_q1_c, Hq. cbn [from_option id Sqlite.js ToString json_ToString].
  by rewrite JSON_parse_stringify.
Qed.

(** C2, the failing input on the SQLite revision: a scalar [q1_c] is
    stored as the JSON text of a string and comes back as that string, not
    as the one-element list the claim (and the handler's own comments)
    call for. *)
Theorem C2_sqlite_scalar_q1_c_not_wrapped :
  let data : gmap string json :=
    {[ "gradeLevel" := JStr "3"; "q1_c" := JStr "A" ]} in
  let ts := "2026-11-02 09:00:00" in
  let sub := Sqlite.post_api_submit (Sqlite.healthy ts) data Sqlite.empty in
  fst sub = Sqlite.submitted 1
  ∧ ∃ row, Sqlite.get_api_results (Sqlite.healthy ts) (snd sub)
           = Response 200 (Arr [row])
         ∧ row !! "id" = Some (Some (JNum 1))
         ∧ row !! "q1_c" = Some (Some (JStr "A"))
         ∧ row !! "q1_c" ≠ Some (Some (JArr [JStr "A"])).
Proof.
  split; [by vm_compute|].
  eexists. split; [by vm_compute|]. by vm_compute.
Qed.

(** C3, the claim as stated fails on the SQLite revision: the column
    [readingDuration] is declared [INTEGER], so the submitted string ["12"]
    comes back as the number 12. *)
Lemma C3_sqlite_numeric_text_counterexample :
  let data : gmap string json :=
    {[ "gradeLevel" := JStr "3"; "finalReadingDuration" := JStr "12" ]} in
  let ts := "2026-11-02 09:00:00" in
  let sub := Sqlite.post_api_submit (Sqlite.healthy ts) data Sqlite.empty in
  fst sub = Sqlite.submitted 1
  ∧ ∃ row, Sqlite.get_api_results (Sqlite.healthy ts) (snd sub)
           = Response 200 (Arr [row])
         ∧ row !! "finalReadingDuration" = Some (Some (JNum 12))
         ∧ row !! "finalReadingDuration" ≠ Some (data !! "finalReadingDuration").
Proof.
  split; [by vm_compute|].
  eexists. split; [by vm_compute|]. by vm_compute.
Qed.

(** C3 (amended).  After a submission answered 201 the fetched record
    carries the submitted duration under [finalReadingDuration] and has no
    [readingDuration]: on the MongoDB revisions for every submitted JSON
    value, on the SQLite revision for every submitted integer or [null]. *)
Theorem C3_finalReadingDuration_round_trip :
  (∀ rv prior e data o c' i rv' e' j,
     Mongo.post_api_submit rv e data (snd (Mongo.submit_all rv prior Mongo.empty))
       = (o, c') →
     Mongo.sent o = Some (Mongo.submitted i) →
     Mongo.connect_error e' = None → Mongo.operation_error e' = None →
     data !! "finalReadingDuration" = Some j →
     ∃ rows r,
       Mongo.sent (Mongo.get_api_results rv' e' c') = Some (Response 200 (Arr rows))
       ∧ the_record i rows r
       ∧ r !! "finalReadingDuration" = Some (Mongo.J j)
       ∧ r !! "readingDuration" = None)
  ∧
  (∀ e data t t' i e' j,
     Sqlite.post_api_submit e data t = (Sqlite.submitted i, t') →
     Sqlite.error e' = None →
     data !! "finalReadingDuration" = Some j →
     (j = JNull ∨ ∃ n, j = JNum n) →
     ∃ rows r,
       Sqlite.get_api_results e' t' = Response 200 (Arr rows)
       ∧ the_record (Some (JNum i)) rows r
       ∧ r !! "finalReadingDuration" = Some (Some j)
       ∧ r !! "readingDuration" = None).
Proof.
  split.
  - intros rv prior e data o c' i rv' e' j Hp Hs Hc Ho Hj.
    destruct (mongo_cycle rv prior e data o c' i rv' e' Hp Hs Hc Ho)
      as (rows & Hget & Hrec).
    exists rows. eexists. split; [done|]. split; [done|].
    rewrite mongo_record_finalReadingDuration, Hj.
    split; [done|]. apply finalRow_readingDuration.
  - intros e data t t' i e' j Hp He' Hj Hint.
    destruct (sqlite_submit_fetch e data t t' i e' Hp He')
      as (r0 & rest & _ & _ & _ & _ & Hrd & Hget & Hrec).
    eexists. eexists. split; [done|]. split; [done|].
    rewrite results_row_finalReadingDuration, results_row_readingDuration.
    split; [|done]. unfold Sqlite.prop.
    rewrite select_star_readingDuration, Hrd, Hj.
    by destruct Hint as [->|[n ->]].
Qed.

Lemma C3_finalReadingDuration_witness :
  let data : gmap string json :=
    {[ "gradeLevel" := JStr "3"; "finalReadingDuration" := JNum 95 ]} in
  let sub := Mongo.post_api_submit Mongo.Guarded (Mongo.healthy 10) data Mongo.empty in
  let sub' := Sqlite.post_api_submit (Sqlite.healthy "2026-11-02 09:00:00")
                data Sqlite.empty in
  (Mongo.sent (fst sub) = Some (Mongo.submitted (Mongo.ObjectId 0))
   ∧ ∃ rows r,
       Mongo.sent (Mongo.get_api_results Mongo.Atlas (Mongo.healthy 20) (snd sub))
       = Some (Response 200 (Arr rows))
       ∧ the_record (Mongo.ObjectId 0) rows r
       ∧ r !! "finalReadingDuration" = Some (Mongo.J (JNum 95))
       ∧ r !! "readingDuration" = None)
  ∧ (fst sub' = Sqlite.submitted 1
     ∧ ∃ rows r,
         Sqlite.get_api_results (Sqlite.healthy "2026-11-02 09:05:00") (snd sub')
         = Response 200 (Arr rows)
         ∧ the_record (Some (JNum 1)) rows r
         ∧ r !! "finalReadingDuration" = Some (Some (JNum 95))
         ∧ r !! "readingDuration" = None).
Proof.
  intros data sub sub'. split.
  - split; [by vm_compute|].
    apply (proj1 C3_finalReadingDuration_round_trip Mongo.Guarded []
             (Mongo.healthy 10) data (fst sub) (snd sub) (Mongo.ObjectId 0)
             Mongo.Atlas (Mongo.healthy 20) (JNum 95)); by vm_compute.
  - split; [by vm_compute|].
    apply (proj2 C3_finalReadingDuration_round_trip
             (Sqlite.healthy "2026-11-02 09:00:00") data Sqlite.empty (snd sub') 1
             (Sqlite.healthy "2026-11-02 09:05:00") (JNum 95));
      [by vm_compute|by vm_compute|by vm_compute|right; by exists 95].
Defined.

(* ===================================================================== *)
(** ** Histories of submissions and the order of the results              *)
(* ===================================================================== *)

Section SortIncreasing.
Context {A : Type} (leb : A -> A -> bool).

(** A scan whose keys strictly increase comes back reversed. *)
Lemma sort_desc_increasing l :
  StronglySorted (fun a b => leb b a = false) l → sort_desc leb l = rev l.
Proof.
  induction l as [|x l IH] using rev_ind; intros Hs; [done|].
  rewrite rev_unit, sort_desc_snoc.
  - f_equal. apply IH. by apply StronglySorted_app_1_l in Hs.
  - intros y Hy. eapply StronglySorted_app_1_elem_of in Hs; [done..|by left].
Qed.
End SortIncreasing.

Section SqliteHistory.
Import Sqlite.

Let idv (r : row) : jsval := Some (JNum (id r)).

Lemma sqlite_field_failure_id m : field (failure m) "id" = None.
Proof. reflexivity. Qed.

Lemma sqlite_announced_cons r rs :
  announced (r :: rs) = (announced [r] ++ announced rs)%list.
Proof. unfold announced. simpl. by destruct (field r "id"). Qed.

(** One submission keeps the table in increasing order of [id] and
    appends the row it announces, if any. *)
Lemma sqlite_post_api_submit_history e data t :
  sort_desc (fun a b => (id a <=? id b)%Z) (rows t) = rev (rows t) →
  sort_desc (fun a b => (id a <=? id b)%Z) (rows (post_api_submit e data t).2)
    = rev (rows (post_api_submit e data t).2)
  ∧ idv <$> rows (post_api_submit e data t).2
    = ((idv <$> rows t) ++ announced [(post_api_submit e data t).1])%list.
Proof.
  intros Hinv.
  destruct (sqlite_post_api_submit_cases e data t)
    as [(m & _ & ->)|(t' & i & Hrun & ->)]; cbn [fst snd].
  - split; [done|]. unfold announced. cbn [omap list_omap].
    rewrite sqlite_field_failure_id. by rewrite app_nil_r.
  - destruct (run_insert_Ok e data t t' i Hrun) as (_ & Hi & r & -> & Hid & _).
    cbn [rows]. split.
    + rewrite sort_desc_snoc.
      * by rewrite Hinv, rev_unit.
      * intros y Hy. apply next_id_gt in Hy. apply Z.leb_gt. lia.
    + rewrite fmap_app. unfold announced. cbn [omap list_omap].
      rewrite sqlite_field_submitted_id. unfold idv. cbn [fmap list_fmap].
      by rewrite Hid.
Qed.

Lemma sqlite_submit_all_history reqs t :
  sort_desc (fun a b => (id a <=? id b)%Z) (rows t) = rev (rows t) →
  sort_desc (fun a b => (id a <=? id b)%Z) (rows (submit_all reqs t).2)
    = rev (rows (submit_all reqs t).2)
  ∧ idv <$> rows (submit_all reqs t).2
    = ((idv <$> rows t) ++ announced (submit_all reqs t).1)%list.
Proof.
  revert t. induction reqs as [|[e data] reqs IH]; intros t Hinv; simpl.
  - split; [done|]. by rewrite app_nil_r.
  - destruct (sqlite_post_api_submit_history e data t Hinv) as [H1 H2].
    destruct (post_api_submit e data t) as [r t1]. cbn [fst snd] in H1, H2.
    specialize (IH t1 H1). destruct (submit_all reqs t1) as [rs t2].
    destruct IH as [IH1 IH2]. cbn [fst snd] in *. split; [done|].
    by rewrite IH2, H2, <- app_assoc, (sqlite_announced_cons r rs).
Qed.

Lemma sqlite_results_ids (l : list row) :
  (fun o : gmap string jsval => o !! "id")
    <$> (List.map results_row (List.map select_star l))
  = Some <$> (idv <$> l).
Proof.
  induction l as [|r l IH]; [done|]. cbn [List.map fmap list_fmap] in *.
  rewrite IH. by rewrite results_row_other, select_star_id.
Qed.

(** After any history from the empty table, a fetch lists the announced
    identifiers, the latest first. *)
Lemma sqlite_results_newest_first reqs e :
  error e = None →
  ∃ rows,
    get_api_results e (submit_all reqs Sqlite.empty).2 = Response 200 (Arr rows)
    ∧ (fun o : gmap string jsval => o !! "id") <$> rows
      = Some <$> rev (announced (submit_all reqs Sqlite.empty).1).
Proof.
  intros He. eexists. split; [by apply sqlite_get_api_results_200|].
  destruct (sqlite_submit_all_history reqs Sqlite.empty eq_refl) as [H1 H2].
  rewrite H1, sqlite_results_ids. f_equal.
  change (idv <$> rev (rows (submit_all reqs Sqlite.empty).2))
    with (List.map idv (rev (rows (submit_all reqs Sqlite.empty).2))).
  rewrite map_rev. f_equal. exact H2.
Qed.
End SqliteHistory.

Section MongoHistory.
Import Mongo.

Let by_timestamp (a b : gmap string value) : bool :=
  key_leb (timestamp_key a) (timestamp_key b).

Lemma key_leb_total a b : key_leb a b = true ∨ key_leb b a = true.
Proof. destruct a, b; simpl; try tauto. lia. Qed.

Lemma key_leb_trans a b c :
  key_leb a b = true → key_leb b c = true → key_leb a c = true.
Proof. destruct a, b, c; simpl; try done. lia. Qed.

Lemma timestamp_key_finalRow d : timestamp_key (finalRow d) = timestamp_key d.
Proof. unfold timestamp_key. by rewrite finalRow_other. Qed.

Lemma timestamp_key_stored i t data :
  timestamp_key (stored i (docToInsert t data)) = Some t.
Proof.
  unfold timestamp_key, stored.
  rewrite lookup_insert_ne, to_bson_lookup, docToInsert_timestamp by done. done.
Qed.

Lemma mongo_field_failure_id p m : field (failure p m) "id" = None.
Proof. reflexivity. Qed.

Lemma mongo_announced_finally rv e r :
  announced [finally rv e r] = match field r "id" with Some i => [i] | None => [] end.
Proof. unfold announced. simpl. by rewrite sent_finally. Qed.

Lemma mongo_announced_cons o os :
  announced (o :: os) = (announced [o] ++ announced os)%list.
Proof.
  unfold announced. simpl.
  by destruct (match sent o with Some r => field r "id" | None => None end).
Qed.

(** One submission appends the document it announces, if any, stamped
    with the clock reading of its request. *)
Lemma mongo_post_api_submit_history rv e data c :
  well_formed c →
  ∃ new, docs (post_api_submit rv e data c).2 = (docs c ++ new)%list
    ∧ (fun d : gmap string value => d !! "_id") <$> new
      = Some <$> announced [(post_api_submit rv e data c).1]
    ∧ (∀ d, d ∈ new → timestamp_key d = Some (now e))
    ∧ (length new ≤ 1)%nat.
Proof.
  intros Hwf.
  destruct (mongo_post_api_submit_cases rv e data c)
    as [(m & _ & ->)|[(m & _ & _ & ->)|(c' & i & _ & Hi & ->)]]; cbn [fst snd].
  - exists []. rewrite app_nil_r. split_and!; [done|done| |simpl; lia].
    intros d Hd. by apply elem_of_nil in Hd.
  - exists []. rewrite app_nil_r, mongo_announced_finally, mongo_field_failure_id.
    split_and!; [done|done| |simpl; lia]. intros d Hd. by apply elem_of_nil in Hd.
  - eapply insertOne_Ok in Hi as (_ & Hdocs & _);
      [|done|apply docToInsert_no_ObjectId].
    exists [stored i (docToInsert (now e) data)].
    rewrite mongo_announced_finally, mongo_field_submitted_id.
    split_and!; [done| | |simpl; lia].
    + cbn [fmap list_fmap]. unfold stored. by rewrite lookup_insert_eq.
    + intros d ->%list_elem_of_singleton. apply timestamp_key_stored.
Qed.

Lemma mongo_submit_all_ids rv reqs c :
  well_formed c →
  ∃ new, docs (submit_all rv reqs c).2 = (docs c ++ new)%list
    ∧ (fun d : gmap string value => d !! "_id") <$> new
      = Some <$> announced (submit_all rv reqs c).1.
Proof.
  revert c. induction reqs as [|[e data] reqs IH]; intros c Hwf; cbn [submit_all].
  - exists []. by rewrite app_nil_r.
  - destruct (mongo_post_api_submit_history rv e data c Hwf)
      as (new1 & Hd1 & Hid1 & _).
    pose proof (mongo_post_api_submit_well_formed rv e data c Hwf) as Hwf1.
    destruct (post_api_submit rv e data c) as [o c1]. simpl in *.
    destruct (IH c1 Hwf1) as (new2 & Hd2 & Hid2).
    destruct (submit_all rv reqs c1) as [os c2]. simpl in *.
    exists (new1 ++ new2)%list. split.
    + by rewrite Hd2, Hd1, <- app_assoc.
    + rewrite fmap_app, Hid1, Hid2.
      by destruct (match sent o with Some r => field r "id" | None => None end).
Qed.

(** Under a strictly increasing clock the collection stays in strictly
    increasing order of [timestamp]. *)
Lemma mongo_submit_all_increasing rv reqs c :
  well_formed c →
  StronglySorted Z.lt ((fun q => now q.1) <$> reqs) →
  (∀ d, d ∈ docs c →
        ∃ t, timestamp_key d = Some t ∧ ∀ q, q ∈ reqs → t < now q.1) →
  StronglySorted (fun a b => by_timestamp b a = false) (docs c) →
  StronglySorted (fun a b => by_timestamp b a = false)
    (docs (submit_all rv reqs c).2).
Proof.
  revert c. induction reqs as [|[e data] reqs IH];
    intros c Hwf Hclock Hold Hsorted; cbn [submit_all]; [done|].
  destruct (mongo_post_api_submit_history rv e data c Hwf)
    as (new1 & Hd1 & _ & Hts1 & Hlen).
  pose proof (mongo_post_api_submit_well_formed rv e data c Hwf) as Hwf1.
  destruct (post_api_submit rv e data c) as [o c1]. cbn [fst snd] in *.
  rewrite fmap_cons in Hclock.
  apply StronglySorted_inv in Hclock as [Hclock Hlt].
  specialize (IH c1 Hwf1 Hclock).
  destruct (submit_all rv reqs c1) as [os c2]. cbn [fst snd] in *.
  apply IH.
  - intros d. rewrite Hd1. intros [Hd|Hd]%elem_of_app.
    + destruct (Hold d Hd) as (t & Ht & Hq). exists t. split; [done|].
      intros q Hq'. apply Hq. by right.
    + exists (now e). split; [by apply Hts1|].
      intros q Hq. rewrite Forall_forall in Hlt. apply Hlt.
      apply list_elem_of_fmap. by exists q.
  - rewrite Hd1. apply StronglySorted_app_2; [| done |].
    + intros x1 x2 Hx1 Hx2. destruct (Hold x1 Hx1) as (t & Ht & Hq).
      unfold by_timestamp. rewrite (Hts1 x2 Hx2), Ht. simpl.
      apply Z.leb_gt. apply (Hq (e, data)). by left.
    + destruct new1 as [|d [|d' new1]]; simpl in Hlen; [| |lia];
        repeat constructor.
Qed.

(** The fetched list holds the processed documents, newest timestamp
    first. *)
Lemma mongo_results_sorted rv e c :
  connect_error e = None → operation_error e = None →
  ∃ rows,
    sent (get_api_results rv e c) = Some (Response 200 (Arr rows))
    ∧ rows ≡ₚ finalRow <$> docs c
    ∧ StronglySorted (fun a b => by_timestamp b a = true) rows.
Proof.
  intros Hc Ho. eexists. split; [by apply mongo_get_api_results_200|].
  split.
  - change (List.map finalRow ?l) with (finalRow <$> l).
    by rewrite sort_desc_Permutation.
  - change (List.map finalRow ?l) with (finalRow <$> l).
    apply (StronglySorted_fmap finalRow (fun a b => by_timestamp b a = true)).
    + intros a b. unfold by_timestamp. by rewrite !timestamp_key_finalRow.
    + apply sort_desc_sorted.
      * intros x y. apply key_leb_total.
      * intros x y z. apply key_leb_trans.
Qed.

Lemma mongo_results_ids (l : list (gmap string value)) (ids : list value) :
  (fun d : gmap string value => d !! "_id") <$> l = Some <$> ids →
  (fun o : gmap string value => o !! "id") <$> (finalRow <$> l) = Some <$> ids.
Proof.
  revert ids. induction l as [|d l IH]; intros [|i ids] H;
    cbn [fmap list_fmap] in *; simplify_eq; [done|].
  rewrite finalRow_id. unfold prop.
  match goal with H : d !! "_id" = Some _ |- _ => rewrite H end.
  cbn [default]. f_equal. by apply IH.
Qed.
End MongoHistory.

(** C4, the claim as stated fails on the MongoDB revisions: the list is
    sorted by the [timestamp] the server stamped, not by the order of
    submission.  When the clock of the server is set back between two
    submissions, the first of them carries the later timestamp and is
    listed first. *)
Lemma C4_mongo_clock_set_back_counterexample :
  let a : gmap string json := {[ "gradeLevel" := JStr "3"; "q1_a" := JStr "first" ]} in
  let b : gmap string json := {[ "gradeLevel" := JStr "4"; "q1_a" := JStr "second" ]} in
  let reqs := [(Mongo.healthy 20, a); (Mongo.healthy 10, b)] in
  let sub := Mongo.submit_all Mongo.Guarded reqs Mongo.empty in
  Mongo.announced sub.1 = [Mongo.ObjectId 0; Mongo.ObjectId 1]
  ∧ ∃ first second,
      Mongo.sent (Mongo.get_api_results Mongo.Guarded (Mongo.healthy 30) sub.2)
      = Some (Response 200 (Arr [first; second]))
      ∧ first !! "id" = Some (Mongo.ObjectId 0)
      ∧ first !! "q1_a" = Some (Mongo.J (JStr "first"))
      ∧ second !! "id" = Some (Mongo.ObjectId 1)
      ∧ second !! "q1_a" = Some (Mongo.J (JStr "second")).
Proof.
  split; [vm_compute; reflexivity|].
  eexists. eexists. split; [vm_compute; reflexivity|].
  split_and!; vm_compute; reflexivity.
Qed.

(** C4 (amended).  After any history of submissions from the empty store a
    fetch lists exactly the records of the submissions answered 201: on the
    SQLite revision in decreasing order of [id], which is the reverse of the
    order of submission; on the MongoDB revisions in decreasing order of the
    server-assigned [timestamp], which is the reverse of the order of
    submission whenever the clock readings of the requests strictly
    increase. *)
Theorem C4_results_newest_first :
  (∀ reqs e,
     Sqlite.error e = None →
     ∃ rows,
       Sqlite.get_api_results e (Sqlite.submit_all reqs Sqlite.empty).2
       = Response 200 (Arr rows)
       ∧ (fun o : gmap string jsval => o !! "id") <$> rows
         = Some <$> rev (Sqlite.announced (Sqlite.submit_all reqs Sqlite.empty).1))
  ∧
  (∀ rv reqs rv' e,
     Mongo.connect_error e = None → Mongo.operation_error e = None →
     ∃ rows,
       Mongo.sent (Mongo.get_api_results rv' e (Mongo.submit_all rv reqs Mongo.empty).2)
       = Some (Response 200 (Arr rows))
       ∧ (fun o : gmap string Mongo.value => o !! "id") <$> rows
         ≡ₚ Some <$> Mongo.announced (Mongo.submit_all rv reqs Mongo.empty).1
       ∧ StronglySorted
           (fun a b => Mongo.key_leb (Mongo.timestamp_key b) (Mongo.timestamp_key a) = true)
           rows
       ∧ (StronglySorted Z.lt ((fun q => Mongo.now q.1) <$> reqs) →
          (fun o : gmap string Mongo.value => o !! "id") <$> rows
          = Some <$> rev (Mongo.announced (Mongo.submit_all rv reqs Mongo.empty).1))).
Proof.
  split; [apply sqlite_results_newest_first|].
  intros rv reqs rv' e Hc Ho.
  destruct (mongo_submit_all_ids rv reqs Mongo.empty well_formed_empty)
    as (new & Hdocs & Hids).
  rewrite app_nil_l in Hdocs. rewrite <- Hdocs in Hids. clear new Hdocs.
  destruct (mongo_results_sorted rv' e (Mongo.submit_all rv reqs Mongo.empty).2 Hc Ho)
    as (rows & Hget & Hperm & Hsorted).
  exists rows. split; [done|]. split_and!.
  - rewrite Hperm. by rewrite (mongo_results_ids _ _ Hids).
  - done.
  - intros Hclock.
    rewrite mongo_get_api_results_200 in Hget by done. simplify_eq.
    rewrite sort_desc_increasing.
    + change (List.map Mongo.finalRow ?l) with (Mongo.finalRow <$> l).
      apply mongo_results_ids.
      change ((fun d : gmap string Mongo.value => d !! "_id") <$> rev ?l)
        with (List.map (fun d : gmap string Mongo.value => d !! "_id") (rev l)).
      rewrite map_rev.
      change (Some <$> rev ?l) with (List.map (@Some Mongo.value) (rev l)).
      rewrite map_rev. f_equal. exact Hids.
    + apply mongo_submit_all_increasing; [apply well_formed_empty|done| |constructor].
      intros d Hd. by apply elem_of_nil in Hd.
Qed.

Lemma C4_results_newest_first_witness :
  let a : gmap string json := {[ "gradeLevel" := JStr "3"; "q1_a" := JStr "first" ]} in
  let b : gmap string json := {[ "gradeLevel" := JStr "4"; "q1_a" := JStr "second" ]} in
  let reqs := [(Mongo.healthy 10, a); (Mongo.healthy 20, b)] in
  let reqs' := [(Sqlite.healthy "2026-11-02 09:00:00", a);
                (Sqlite.healthy "2026-11-02 09:00:01", b)] in
  (∃ rows,
     Sqlite.get_api_results (Sqlite.healthy "2026-11-02 09:05:00")
       (Sqlite.submit_all reqs' Sqlite.empty).2 = Response 200 (Arr rows)
     ∧ (fun o : gmap string jsval => o !! "id") <$> rows
       = [Some (Some (JNum 2)); Some (Some (JNum 1))])
  ∧ (StronglySorted Z.lt ((fun q => Mongo.now q.1) <$> reqs)
     ∧ ∃ rows,
         Mongo.sent (Mongo.get_api_results Mongo.Guarded (Mongo.healthy 30)
                       (Mongo.submit_all Mongo.Atlas reqs Mongo.empty).2)
         = Some (Response 200 (Arr rows))
         ∧ (fun o : gmap string Mongo.value => o !! "id") <$> rows
           = [Some (Mongo.ObjectId 1); Some (Mongo.ObjectId 0)]).
Proof.
  intros a b reqs reqs'.
  assert (Hclock : StronglySorted Z.lt ((fun q => Mongo.now q.1) <$> reqs)).
  { repeat constructor; simpl; lia. }
  split; [|split; [exact Hclock|]].
  - destruct (proj1 C4_results_newest_first reqs'
                (Sqlite.healthy "2026-11-02 09:05:00") eq_refl)
      as (rows & Hget & Hids).
    exists rows. split; [exact Hget|]. rewrite Hids. by vm_compute.
  - destruct (proj2 C4_results_newest_first Mongo.Atlas reqs Mongo.Guarded
                (Mongo.healthy 30) eq_refl eq_refl)
      as (rows & Hget & _ & _ & Hids).
    exists rows. split; [exact Hget|]. rewrite (Hids Hclock). by vm_compute.
Defined.

(* ===================================================================== *)
(** ** Failures of the storage collaborator                               *)
(* ===================================================================== *)

(** C5, the claim as stated fails on the SQLite revision: the body of the
    500 response is a fixed text that does not contain the failure message
    of the database. *)
Lemma C5_sqlite_message_counterexample :
  let e := Sqlite.Env "2026-11-02 09:00:00" (Some "SQLITE_IOERR: disk I/O error") in
  let data : gmap string json := {[ "gradeLevel" := JStr "3" ]} in
  let r := (Sqlite.post_api_submit e data Sqlite.empty).1 in
  status r = 500
  ∧ field r "message" = Some (Some (JStr "Server error during submission."))
  ∧ includes "Server error during submission." "SQLITE_IOERR: disk I/O error" = false.
Proof. split_and!; by vm_compute. Qed.

(** C5 (amended).  When the collaborator reports a failure of the
    connection or of the insert or find operation, the endpoint answers
    with status 500 and the store is left as it was.  On the MongoDB
    revisions the [message] of the body is a fixed prefix followed by the
    failure message; no error escapes the handler of the [Guarded]
    revision, nor that of the [Atlas] revision when the connection failed
    or closes without error.  On the SQLite revision the [message] is a
    fixed text. *)
Theorem C5_storage_failure_answers_500 :
  (∀ rv e data c m,
     Mongo.connect_error e = Some m
     ∨ (Mongo.connect_error e = None ∧ Mongo.operation_error e = Some m) →
     ∃ r msg,
       Mongo.sent (Mongo.post_api_submit rv e data c).1 = Some r
       ∧ status r = 500
       ∧ field r "message" = Some (Mongo.J (JStr msg))
       ∧ msg = "Server error during submission: " ++ m
       ∧ includes msg m = true
       ∧ (Mongo.post_api_submit rv e data c).2 = c
       ∧ (rv = Mongo.Guarded ∨ Mongo.close_error e = None
          ∨ Mongo.connect_error e = Some m →
          Mongo.rejected (Mongo.post_api_submit rv e data c).1 = None))
  ∧
  (∀ rv e c m,
     Mongo.connect_error e = Some m
     ∨ (Mongo.connect_error e = None ∧ Mongo.operation_error e = Some m) →
     ∃ r msg,
       Mongo.sent (Mongo.get_api_results rv e c) = Some r
       ∧ status r = 500
       ∧ field r "message" = Some (Mongo.J (JStr msg))
       ∧ msg = "Server error fetching results: " ++ m
       ∧ includes msg m = true
       ∧ (rv = Mongo.Guarded ∨ Mongo.close_error e = None
          ∨ Mongo.connect_error e = Some m →
          Mongo.rejected (Mongo.get_api_results rv e c) = None))
  ∧
  (∀ e data t m,
     Sqlite.error e = Some m →
     Sqlite.post_api_submit e data t
     = (Response 500 (Obj {[ "message" := Some (JStr "Server error during submission.") ]}), t))
  ∧
  (∀ e t m,
     Sqlite.error e = Some m →
     Sqlite.get_api_results e t
     = Response 500 (Obj {[ "message" := Some (JStr "Server error fetching results.") ]})).
Proof.
  split_and!.
  - intros rv e data c m [Hc|[Hc Ho]].
    + exists (Mongo.failure "Server error during submission: " m).
      eexists. unfold Mongo.post_api_submit. rewrite Hc. cbn [Mongo.step fst snd].
      split_and!; try reflexivity.
      apply includes_suffix.
    + exists (Mongo.failure "Server error during submission: " m).
      eexists. unfold Mongo.post_api_submit, Mongo.insertOne.
      rewrite Hc, Ho. cbn [Mongo.step fst snd]. rewrite sent_finally.
      split_and!; try reflexivity.
      * apply includes_suffix.
      * intros [-> | [Hcl | Hx]]; [apply rejected_finally_Guarded
                                    |by apply rejected_finally_closed|congruence].
  - intros rv e c m [Hc|[Hc Ho]].
    + exists (Mongo.failure "Server error fetching results: " m).
      eexists. unfold Mongo.get_api_results. rewrite Hc. cbn [Mongo.step].
      split_and!; try reflexivity.
      apply includes_suffix.
    + exists (Mongo.failure "Server error fetching results: " m).
      eexists. unfold Mongo.get_api_results, Mongo.find_sorted.
      rewrite Hc, Ho. cbn [Mongo.step]. rewrite sent_finally.
      split_and!; try reflexivity.
      * apply includes_suffix.
      * intros [-> | [Hcl | Hx]]; [apply rejected_finally_Guarded
                                    |by apply rejected_finally_closed|congruence].
  - intros e data t m He.
    unfold Sqlite.post_api_submit, Sqlite.run_insert, Sqlite.db_run_insert.
    by rewrite He.
  - intros e t m He. unfold Sqlite.get_api_results, Sqlite.db_all. by rewrite He.
Qed.

Lemma C5_storage_failure_witness :
  let e := Mongo.Env 10 None (Some "connection pool closed") None in
  let e' := Mongo.Env 20 (Some "getaddrinfo ENOTFOUND cluster0") None None in
  let e'' := Sqlite.Env "2026-11-02 09:00:00" (Some "SQLITE_BUSY: database is locked") in
  let data : gmap string json := {[ "gradeLevel" := JStr "3" ]} in
  ((Mongo.connect_error e = None ∧ Mongo.operation_error e = Some "connection pool closed")
   ∧ ∃ r msg,
       Mongo.sent (Mongo.post_api_submit Mongo.Atlas e data Mongo.empty).1 = Some r
       ∧ status r = 500
       ∧ field r "message" = Some (Mongo.J (JStr msg))
       ∧ includes msg "connection pool closed" = true)
  ∧ (Mongo.connect_error e' = Some "getaddrinfo ENOTFOUND cluster0"
     ∧ ∃ r msg,
         Mongo.sent (Mongo.get_api_results Mongo.Guarded e' Mongo.empty) = Some r
         ∧ status r = 500
         ∧ field r "message" = Some (Mongo.J (JStr msg))
         ∧ includes msg "getaddrinfo ENOTFOUND cluster0" = true)
  ∧ (Sqlite.error e'' = Some "SQLITE_BUSY: database is locked"
     ∧ status (Sqlite.post_api_submit e'' data Sqlite.empty).1 = 500
     ∧ status (Sqlite.get_api_results e'' Sqlite.empty) = 500).
Proof.
  intros e e' e'' data. split; [|split].
  - split; [by split|].
    destruct (proj1 C5_storage_failure_answers_500 Mongo.Atlas e data Mongo.empty
                "connection pool closed" (or_intror (conj eq_refl eq_refl)))
      as (r & msg & Hs & Hst & Hf & _ & Hin & _).
    by exists r, msg.
  - split; [reflexivity|].
    destruct (proj1 (proj2 C5_storage_failure_answers_500) Mongo.Guarded e'
                Mongo.empty "getaddrinfo ENOTFOUND cluster0" (or_introl eq_refl))
      as (r & msg & Hs & Hst & Hf & _ & Hin & _).
    by exists r, msg.
  - split; [reflexivity|]. split.
    + by rewrite (proj1 (proj2 (proj2 C5_storage_failure_answers_500)) e'' data
                    Sqlite.empty "SQLITE_BUSY: database is locked" eq_refl).
    + by rewrite (proj2 (proj2 (proj2 C5_storage_failure_answers_500)) e''
                    Sqlite.empty "SQLITE_BUSY: database is locked" eq_refl).
Defined.

(* ===================================================================== *)
(** ** The timestamp is the server's                                      *)
(* ===================================================================== *)

Lemma sqlite_post_api_submit_ignores_timestamp e (d1 d2 : gmap string json) t :
  delete "timestamp" d1 = delete "timestamp" d2 →
  Sqlite.post_api_submit e d1 t = Sqlite.post_api_submit e d2 t.
Proof.
  intros Heq.
  assert (Hk : ∀ k, k ≠ "timestamp" → d1 !! k = d2 !! k).
  { intros k Hk. rewrite <- (lookup_delete_ne d1 "timestamp" k) by done.
    rewrite Heq. by rewrite lookup_delete_ne. }
  unfold Sqlite.post_api_submit, Sqlite.run_insert.
  by rewrite !(Hk _) by done.
Qed.

(** C6.  The stored timestamp is the server's: two payloads that differ at
    most in a [timestamp] field of their own get the same response and
    leave the same store, and the record of a submission answered 201
    carries the clock reading of the server ([new Date()], respectively
    [CURRENT_TIMESTAMP]). *)
Theorem C6_timestamp_server_assigned :
  (∀ rv e (d1 d2 : gmap string json) c,
     delete "timestamp" d1 = delete "timestamp" d2 →
     Mongo.post_api_submit rv e d1 c = Mongo.post_api_submit rv e d2 c)
  ∧
  (∀ rv prior e data o c' i,
     Mongo.post_api_submit rv e data (Mongo.submit_all rv prior Mongo.empty).2
       = (o, c') →
     Mongo.sent o = Some (Mongo.submitted i) →
     ∃ d, Mongo.docs c'
          = (Mongo.docs (Mongo.submit_all rv prior Mongo.empty).2 ++ [d])%list
        ∧ d !! "_id" = Some i
        ∧ d !! "timestamp" = Some (Mongo.Date (Mongo.now e)))
  ∧
  (∀ e (d1 d2 : gmap string json) t,
     delete "timestamp" d1 = delete "timestamp" d2 →
     Sqlite.post_api_submit e d1 t = Sqlite.post_api_submit e d2 t)
  ∧
  (∀ e data t t' i,
     Sqlite.post_api_submit e data t = (Sqlite.submitted i, t') →
     ∃ r, Sqlite.rows t' = (Sqlite.rows t ++ [r])%list
        ∧ Sqlite.id r = i
        ∧ Sqlite.timestamp r = Sqlite.SText (Sqlite.CURRENT_TIMESTAMP e)).
Proof.
  split_and!.
  - intros rv e d1 d2 c Heq. unfold Mongo.post_api_submit.
    by rewrite (docToInsert_ignores_timestamp _ d1 d2 Heq).
  - intros rv prior e data o c' i Hp Hs.
    destruct (mongo_post_api_submit_201 rv e data _ o c' _
                (mongo_submit_all_well_formed rv prior _ well_formed_empty)
                Hp Hs eq_refl) as (j & Hj & _ & _ & Hdocs & _).
    assert (j = i) as ->.
    { apply (f_equal (fun r => field r "id")) in Hj.
      rewrite !mongo_field_submitted_id in Hj. congruence. }
    eexists. split; [exact Hdocs|]. split.
    + apply lookup_insert_eq.
    + unfold Mongo.stored.
      by rewrite lookup_insert_ne, to_bson_lookup, docToInsert_timestamp.
  - apply sqlite_post_api_submit_ignores_timestamp.
  - intros e data t t' i Hp.
    destruct (sqlite_post_api_submit_201 e data t _ t' Hp eq_refl) as (j & Hj & Hrun).
    assert (j = i) as ->.
    { apply (f_equal (fun r => field r "id")) in Hj.
      rewrite !sqlite_field_submitted_id in Hj. congruence. }
    destruct (run_insert_Ok e data t t' i Hrun)
      as (_ & _ & r & -> & Hid & _ & _ & _ & _ & _ & Hts).
    by exists r.
Qed.

Lemma C6_timestamp_witness :
  let d1 : gmap string json :=
    {[ "gradeLevel" := JStr "3"; "timestamp" := JStr "1999-01-01T00:00:00Z" ]} in
  let d2 : gmap string json := {[ "gradeLevel" := JStr "3"; "timestamp" := JNum 0 ]} in
  let ts := "2026-11-02 09:00:00" in
  let sub := Mongo.post_api_submit Mongo.Atlas (Mongo.healthy 10) d1 Mongo.empty in
  let sub' := Sqlite.post_api_submit (Sqlite.healthy ts) d1 Sqlite.empty in
  delete "timestamp" d1 = delete "timestamp" d2
  ∧ sub = Mongo.post_api_submit Mongo.Atlas (Mongo.healthy 10) d2 Mongo.empty
  ∧ sub' = Sqlite.post_api_submit (Sqlite.healthy ts) d2 Sqlite.empty
  ∧ (Mongo.sent sub.1 = Some (Mongo.submitted (Mongo.ObjectId 0))
     ∧ ∃ d, Mongo.docs sub.2 = [d] ∧ d !! "timestamp" = Some (Mongo.Date 10))
  ∧ (sub'.1 = Sqlite.submitted 1
     ∧ ∃ r, Sqlite.rows sub'.2 = [r] ∧ Sqlite.timestamp r = Sqlite.SText ts).
Proof.
  intros d1 d2 ts sub sub'.
  assert (Heq : delete "timestamp" d1 = delete "timestamp" d2) by (by vm_compute).
  split; [exact Heq|]. split; [|split; [|split]].
  - exact (proj1 C6_timestamp_server_assigned Mongo.Atlas (Mongo.healthy 10)
             d1 d2 Mongo.empty Heq).
  - exact (proj1 (proj2 (proj2 C6_timestamp_server_assigned))
             (Sqlite.healthy ts) d1 d2 Sqlite.empty Heq).
  - split; [by vm_compute|].
    destruct (proj1 (proj2 C6_timestamp_server_assigned) Mongo.Atlas []
                (Mongo.healthy 10) d1 sub.1 sub.2 (Mongo.ObjectId 0))
      as (d & Hd & _ & Hts); [by vm_compute|by vm_compute|].
    by exists d.
  - split; [by vm_compute|].
    destruct (proj2 (proj2 (proj2 C6_timestamp_server_assigned))
                (Sqlite.healthy ts) d1 Sqlite.empty sub'.2 1)
      as (r & Hr & _ & Hts); [by vm_compute|].
    by exists r.
Defined.

(* ===================================================================== *)
(** ** The shape of the records of the results endpoint                   *)
(* ===================================================================== *)

Lemma mongo_get_api_results_inv rv e c rows :
  Mongo.sent (Mongo.get_api_results rv e c) = Some (Response 200 (Arr rows)) →
  rows = Mongo.finalRow
           <$> sort_desc (fun a b => Mongo.key_leb (Mongo.timestamp_key a)
                                       (Mongo.timestamp_key b)) (Mongo.docs c).
Proof.
  unfold Mongo.get_api_results, Mongo.find_sorted.
  destruct (Mongo.connect_error e); cbn [Mongo.step]; [by intros [=]|].
  destruct (Mongo.operation_error e); rewrite sent_finally; by intros [=].
Qed.

Lemma sqlite_get_api_results_inv e t rows :
  Sqlite.get_api_results e t = Response 200 (Arr rows) →
  rows = Sqlite.results_row
           <$> (Sqlite.select_star
                  <$> sort_desc (fun a b => (Sqlite.id a <=? Sqlite.id b)%Z) (Sqlite.rows t)).
Proof.
  unfold Sqlite.get_api_results, Sqlite.db_all.
  destruct (Sqlite.error e); by intros [=].
Qed.

(** Every document of a history carries an identifier and a duration that
    are not [undefined]. *)
Lemma mongo_history_docs rv reqs c d :
  Mongo.well_formed c →
  d ∈ Mongo.docs (Mongo.submit_all rv reqs c).2 →
  d ∈ Mongo.docs c
  ∨ (∃ i, d !! "_id" = Some i ∧ i ≠ Mongo.Undefined)
    ∧ (∃ v, d !! "readingDuration" = Some v ∧ v ≠ Mongo.Undefined).
Proof.
  revert c. induction reqs as [|[e data] reqs IH]; intros c Hwf; cbn [Mongo.submit_all];
    [by left|].
  pose proof (mongo_post_api_submit_well_formed rv e data c Hwf) as Hwf1.
  pose proof (mongo_post_api_submit_cases rv e data c) as Hcases.
  destruct (Mongo.post_api_submit rv e data c) as [o c1]. cbn [fst snd] in *.
  specialize (IH c1 Hwf1).
  destruct (Mongo.submit_all rv reqs c1) as [os c2]. cbn [fst snd] in *.
  intros Hd. destruct (IH Hd) as [Hd1|Hnew]; [|by right].
  destruct Hcases as [(m & _ & [= -> ->])|[(m & _ & _ & [= -> ->])
                                          |(c' & i & _ & Hi & [= -> ->])]];
    [by left|by left|].
  eapply insertOne_Ok in Hi as (_ & Hdocs & Hu & _);
    [|done|apply docToInsert_no_ObjectId].
  rewrite Hdocs in Hd1. apply elem_of_app in Hd1 as [Hd1|Hd1]; [by left|].
  apply list_elem_of_singleton in Hd1 as ->. right. split.
  - exists i. split; [apply lookup_insert_eq|done].
  - unfold Mongo.stored. rewrite lookup_insert_ne by done.
    rewrite to_bson_lookup, docToInsert_readingDuration. cbn [fmap option_fmap option_map].
    eexists. split; [done|]. by destruct (Mongo.of_jsval _).
Qed.

(** C7, the claim as stated fails on the SQLite revision: the stored
    [consentAgreed] and [q1_c] cells are texts, and the records carry a
    boolean and the parsed value in their place. *)
Lemma C7_sqlite_converted_fields_counterexample :
  let data : gmap string json :=
    {[ "gradeLevel" := JStr "3"; "consentAgreed" := JBool true;
       "q1_c" := JArr [JStr "A"; JStr "B"] ]} in
  let ts := "2026-11-02 09:00:00" in
  let t := (Sqlite.post_api_submit (Sqlite.healthy ts) data Sqlite.empty).2 in
  ∃ r rec,
    Sqlite.rows t = [r]
    ∧ Sqlite.get_api_results (Sqlite.healthy ts) t = Response 200 (Arr [rec])
    ∧ Sqlite.select_star r !! "consentAgreed" = Some (Some (JStr "true"))
    ∧ rec !! "consentAgreed" = Some (Some (JBool true))
    ∧ Sqlite.select_star r !! "q1_c"
      = Some (Some (JStr (JSON_stringify (JArr [JStr "A"; JStr "B"]))))
    ∧ rec !! "q1_c" = Some (Some (JArr [JStr "A"; JStr "B"])).
Proof.
  eexists. eexists. split; [by vm_compute|]. split; [by vm_compute|].
  split_and!; by vm_compute.
Qed.

(** C7 (amended).  Every record of a 200 response of the results endpoint
    comes from one stored record: it carries [id] (the stored identifier)
    and [finalReadingDuration] (the stored [readingDuration]), has neither
    [_id] nor [readingDuration], and agrees with the stored record on every
    other field, except that the SQLite revision rewrites two of them:
    [consentAgreed] is the boolean that tells whether the cell holds the
    text ["true"] or ["1"], and [q1_c] is [null] for a [NULL] cell, the
    value itself for a cell that holds the JSON text of a value, and the
    empty list for a cell that does not hold JSON text.  For the documents
    of a history of submissions neither [id] nor [finalReadingDuration] is
    [undefined]. *)
Theorem C7_results_record_shape :
  (∀ rv e c rows rec,
     Mongo.sent (Mongo.get_api_results rv e c) = Some (Response 200 (Arr rows)) →
     rec ∈ rows →
     ∃ doc, doc ∈ Mongo.docs c
       ∧ rec !! "id" = Some (Mongo.prop doc "_id")
       ∧ rec !! "finalReadingDuration" = Some (Mongo.prop doc "readingDuration")
       ∧ rec !! "_id" = None
       ∧ rec !! "readingDuration" = None
       ∧ ∀ k, k ≠ "id" → k ≠ "finalReadingDuration" → k ≠ "_id" →
              k ≠ "readingDuration" → rec !! k = doc !! k)
  ∧
  (∀ rv reqs rv' e rows rec,
     Mongo.sent (Mongo.get_api_results rv' e (Mongo.submit_all rv reqs Mongo.empty).2)
       = Some (Response 200 (Arr rows)) →
     rec ∈ rows →
     (∃ i, rec !! "id" = Some i ∧ i ≠ Mongo.Undefined)
     ∧ (∃ v, rec !! "finalReadingDuration" = Some v ∧ v ≠ Mongo.Undefined))
  ∧
  (∀ e t rows rec,
     Sqlite.get_api_results e t = Response 200 (Arr rows) →
     rec ∈ rows →
     ∃ r, r ∈ Sqlite.rows t
       ∧ rec !! "id" = Some (Some (JNum (Sqlite.id r)))
       ∧ rec !! "finalReadingDuration" = Some (Sqlite.js (Sqlite.readingDuration r))
       ∧ rec !! "_id" = None
       ∧ rec !! "readingDuration" = None
       ∧ (∀ k, k ≠ "finalReadingDuration" → k ≠ "readingDuration" →
               k ≠ "q1_c" → k ≠ "consentAgreed" →
               rec !! k = Sqlite.select_star r !! k)
       ∧ rec !! "consentAgreed"
         = Some (Some (JBool
             (bool_decide (Sqlite.consentAgreed r = Sqlite.SText "true")
              || bool_decide (Sqlite.consentAgreed r = Sqlite.SText "1"))))
       ∧ (Sqlite.q1_c r = Sqlite.SNull → rec !! "q1_c" = Some (Some JNull))
       ∧ (∀ v, Sqlite.q1_c r = Sqlite.SText (JSON_stringify v) →
               unique_keys v = true → safe_integers v = true →
               rec !! "q1_c" = Some (Some v))
       ∧ (JSON_valid (ToString (Sqlite.js (Sqlite.q1_c r))) = false →
          rec !! "q1_c" = Some (Some (JArr [])))).
Proof.
  split_and!.
  - intros rv e c rows rec ->%mongo_get_api_results_inv Hrec.
    apply list_elem_of_fmap in Hrec as (doc & -> & Hdoc).
    apply sort_desc_elem_of in Hdoc. exists doc.
    split_and!; [done|apply finalRow_id|apply finalRow_finalReadingDuration
                |apply finalRow__id|apply finalRow_readingDuration|].
    intros k ? ? ? ?. by apply finalRow_other.
  - intros rv reqs rv' e rows rec ->%mongo_get_api_results_inv Hrec.
    apply list_elem_of_fmap in Hrec as (doc & -> & Hdoc).
    apply sort_desc_elem_of in Hdoc.
    apply mongo_history_docs in Hdoc as [Hdoc|[(i & Hi & Hu) (v & Hv & Hvu)]];
      [by apply elem_of_nil in Hdoc| |apply well_formed_empty].
    rewrite finalRow_id, finalRow_finalReadingDuration. unfold Mongo.prop.
    rewrite Hi, Hv. cbn [default from_option]. split; eexists; by split.
  - intros e t rows rec ->%sqlite_get_api_results_inv Hrec.
    apply list_elem_of_fmap in Hrec as (o & -> & Ho).
    apply list_elem_of_fmap in Ho as (r & -> & Hr).
    apply sort_desc_elem_of in Hr. exists r.
    split_and!; [done| | | | | | | | |].
    + by rewrite results_row_other, select_star_id.
    + rewrite results_row_finalReadingDuration. unfold Sqlite.prop.
      by rewrite select_star_readingDuration.
    + by rewrite results_row_other, select_star__id.
    + apply results_row_readingDuration.
    + intros k ? ? ? ?. by apply results_row_other.
    + apply results_row_cell_consentAgreed.
    + apply results_row_cell_NULL.
    + intros v Hq Hu _. by apply results_row_cell_stringify.
    + apply results_row_cell_invalid.
Qed.

Lemma C7_results_record_witness :
  let data : gmap string json := {[ "gradeLevel" := JStr "3"; "q2_a" := JStr "yes" ]} in
  let c := (Mongo.submit_all Mongo.Atlas [(Mongo.healthy 10, data)] Mongo.empty).2 in
  let doc := Mongo.stored (Mongo.ObjectId 0) (Mongo.docToInsert 10 data) in
  let ts := "2026-11-02 09:00:00" in
  let t := (Sqlite.post_api_submit (Sqlite.healthy ts) data Sqlite.empty).2 in
  (Mongo.sent (Mongo.get_api_results Mongo.Atlas (Mongo.healthy 20) c)
     = Some (Response 200 (Arr [Mongo.finalRow doc]))
   ∧ Mongo.finalRow doc !! "_id" = None
   ∧ Mongo.finalRow doc !! "readingDuration" = None
   ∧ Mongo.finalRow doc !! "id" = Some (Mongo.ObjectId 0)
   ∧ Mongo.finalRow doc !! "finalReadingDuration" = Some (Mongo.J JNull)
   ∧ Mongo.finalRow doc !! "q2_a" = Some (Mongo.J (JStr "yes")))
  ∧ (∃ rec,
      Sqlite.get_api_results (Sqlite.healthy ts) t = Response 200 (Arr [rec])
      ∧ rec !! "_id" = None
      ∧ rec !! "readingDuration" = None
      ∧ rec !! "id" = Some (Some (JNum 1))
      ∧ rec !! "q2_a" = Some (Some (JStr "yes"))
      ∧ rec !! "consentAgreed" = Some (Some (JBool false))
      ∧ rec !! "q1_c" = Some (Some (JArr [])))
  ∧ (let legacy :=
       {| Sqlite.id := 1; Sqlite.consentAgreed := Sqlite.SText "1";
          Sqlite.gradeLevel := Sqlite.SText "3";
          Sqlite.q1_a := Sqlite.SNull; Sqlite.q1_b := Sqlite.SNull;
          Sqlite.q1_c := Sqlite.SNull;
          Sqlite.q1_d := Sqlite.SNull; Sqlite.q1_e := Sqlite.SNull;
          Sqlite.q1_f := Sqlite.SNull; Sqlite.q2_a := Sqlite.SNull;
          Sqlite.q2_b := Sqlite.SNull; Sqlite.q2_c := Sqlite.SNull;
          Sqlite.readingDuration := Sqlite.SNull;
          Sqlite.quiz_q1 := Sqlite.SNull; Sqlite.quiz_q2 := Sqlite.SNull;
          Sqlite.quiz_q3 := Sqlite.SNull; Sqlite.quiz_q4 := Sqlite.SNull;
          Sqlite.quiz_q5 := Sqlite.SNull; Sqlite.quiz_q6 := Sqlite.SNull;
          Sqlite.quiz_q7 := Sqlite.SNull;
          Sqlite.timestamp := Sqlite.SText "2025-03-01 10:00:00" |} in
     (∃ rec,
        Sqlite.get_api_results (Sqlite.healthy ts) (Sqlite.Table [legacy] 1)
        = Response 200 (Arr [rec])
        ∧ rec !! "q1_c" = Some (Some JNull)
        ∧ rec !! "consentAgreed" = Some (Some (JBool true)))
     ∧ (∃ rec,
          Sqlite.get_api_results (Sqlite.healthy ts)
            (Sqlite.Table [Sqlite.set_q1_c (Sqlite.SText "A,B") legacy] 1)
          = Response 200 (Arr [rec])
          ∧ rec !! "q1_c" = Some (Some (JArr [])))).
Proof.
  intros data c doc ts t. split; [|split].
  - assert (Hget : Mongo.sent (Mongo.get_api_results Mongo.Atlas (Mongo.healthy 20) c)
                   = Some (Response 200 (Arr [Mongo.finalRow doc]))) by (by vm_compute).
    assert (Hin : Mongo.finalRow doc ∈ [Mongo.finalRow doc]) by (by left).
    destruct (proj1 C7_results_record_shape Mongo.Atlas (Mongo.healthy 20) c
                _ _ Hget Hin) as (d & _ & _ & _ & H_id & Hrd & _).
    destruct (proj1 (proj2 C7_results_record_shape) Mongo.Atlas
                [(Mongo.healthy 10, data)] Mongo.Atlas (Mongo.healthy 20)
                _ _ Hget Hin) as ((i & Hi & Hu) & (v & Hv & Hvu)).
    split_and!; [exact Hget|exact H_id|exact Hrd|by vm_compute|by vm_compute
                |by vm_compute].
  - set (rec := match content (Sqlite.get_api_results (Sqlite.healthy ts) t) with
                | Arr (r :: _) => r
                | _ => ∅
                end).
    assert (Hget : Sqlite.get_api_results (Sqlite.healthy ts) t
                   = Response 200 (Arr [rec])) by (by vm_compute).
    assert (Hin : rec ∈ [rec]) by (by left).
    destruct (proj2 (proj2 C7_results_record_shape) (Sqlite.healthy ts) t
                _ _ Hget Hin)
      as (r & Hr & _ & _ & H_id & Hrd & _ & Hcons & _ & Hstr & _).
    vm_compute in Hr. apply list_elem_of_singleton in Hr. subst r.
    exists rec.
    split_and!; [exact Hget|exact H_id|exact Hrd|by vm_compute|by vm_compute| |].
    + rewrite Hcons. vm_compute. reflexivity.
    + apply (Hstr (JArr [])); vm_compute; reflexivity.
  - intros legacy. split.
    + set (t0 := Sqlite.Table [legacy] 1).
      set (rec := match content (Sqlite.get_api_results (Sqlite.healthy ts) t0) with
                  | Arr (r :: _) => r
                  | _ => ∅
                  end).
      assert (Hget : Sqlite.get_api_results (Sqlite.healthy ts) t0
                     = Response 200 (Arr [rec])) by (vm_compute; reflexivity).
      destruct (proj2 (proj2 C7_results_record_shape) (Sqlite.healthy ts) t0
                  _ _ Hget (list_elem_of_here rec []))
        as (r & Hr & _ & _ & _ & _ & _ & Hcons & Hnull & _).
      apply list_elem_of_singleton in Hr. subst r.
      exists rec. split; [exact Hget|]. split; [by apply Hnull|exact Hcons].
    + set (t0 := Sqlite.Table [Sqlite.set_q1_c (Sqlite.SText "A,B") legacy] 1).
      set (rec := match content (Sqlite.get_api_results (Sqlite.healthy ts) t0) with
                  | Arr (r :: _) => r
                  | _ => ∅
                  end).
      assert (Hget : Sqlite.get_api_results (Sqlite.healthy ts) t0
                     = Response 200 (Arr [rec])) by (vm_compute; reflexivity).
      destruct (proj2 (proj2 C7_results_record_shape) (Sqlite.healthy ts) t0
                  _ _ Hget (list_elem_of_here rec []))
        as (r & Hr & _ & _ & _ & _ & _ & _ & _ & _ & Hinv).
      apply list_elem_of_singleton in Hr. subst r.
      exists rec. split; [exact Hget|]. apply Hinv. vm_compute; reflexivity.
Defined.

(* ===================================================================== *)
(** ** The answers of the submission endpoint                             *)
(* ===================================================================== *)

Lemma docToInsert_supplied_id_None t (data : gmap string json) :
  data !! "_id" = None → Mongo.supplied_id (Mongo.docToInsert t data) = None.
Proof.
  intros H. unfold Mongo.supplied_id.
  rewrite docToInsert_other, H by done. done.
Qed.

(** C8.  When the insert succeeds the endpoint answers 201 with a body
    holding [message] and the [id] the store generated for the new record:
    on the MongoDB revisions, for a payload that brings no [_id] of its
    own, the fresh [ObjectId] the stored document carries; on the SQLite
    revision the positive [lastID] of the new row.  No earlier record has
    that identifier. *)
Theorem C8_submit_success_201_with_id :
  (∀ rv prior e data c' i,
     data !! "_id" = None →
     Mongo.connect_error e = None →
     Mongo.insertOne e (Mongo.submit_all rv prior Mongo.empty).2
       (Mongo.docToInsert (Mongo.now e) data) = Ok (c', i) →
     ∃ r d,
       Mongo.post_api_submit rv e data (Mongo.submit_all rv prior Mongo.empty).2
         = (Mongo.finally rv e r, c')
       ∧ Mongo.sent (Mongo.finally rv e r) = Some r
       ∧ status r = 201
       ∧ field r "message" = Some (Mongo.J (JStr "Survey submitted successfully!"))
       ∧ field r "id" = Some i
       ∧ i = Mongo.ObjectId (Mongo.next_oid (Mongo.submit_all rv prior Mongo.empty).2)
       ∧ Mongo.docs c'
         = (Mongo.docs (Mongo.submit_all rv prior Mongo.empty).2 ++ [d])%list
       ∧ d !! "_id" = Some i
       ∧ ∀ d', d' ∈ Mongo.docs (Mongo.submit_all rv prior Mongo.empty).2 →
               d' !! "_id" ≠ Some i)
  ∧
  (∀ e data t t' i,
     Sqlite.run_insert e data t = Ok (t', i) →
     ∃ r row,
       Sqlite.post_api_submit e data t = (r, t')
       ∧ status r = 201
       ∧ field r "message" = Some (Some (JStr "Survey submitted successfully!"))
       ∧ field r "id" = Some (Some (JNum i))
       ∧ 0 < i
       ∧ Sqlite.rows t' = (Sqlite.rows t ++ [row])%list
       ∧ Sqlite.id row = i
       ∧ ∀ row', row' ∈ Sqlite.rows t → Sqlite.id row' < i).
Proof.
  split.
  - intros rv prior e data c' i Hid Hc Hins.
    exists (Mongo.submitted i). eexists.
    split.
    { unfold Mongo.post_api_submit. rewrite Hc. cbn [Mongo.step]. by rewrite Hins. }
    eapply insertOne_Ok in Hins as (_ & Hdocs & _ & Hfresh & Hgen & _);
      [|apply mongo_submit_all_well_formed, well_formed_empty
       |apply docToInsert_no_ObjectId].
    split_and!; [apply sent_finally|done|done|apply mongo_field_submitted_id
                |by apply Hgen, docToInsert_supplied_id_None
                |exact Hdocs|apply lookup_insert_eq|exact Hfresh].
  - intros e data t t' i Hrun.
    exists (Sqlite.submitted i).
    destruct (run_insert_Ok e data t t' i Hrun) as (_ & Hi & row & -> & Hid & _).
    exists row.
    split_and!; [by unfold Sqlite.post_api_submit; rewrite Hrun
                |done|done|apply sqlite_field_submitted_id
                |rewrite Hi; apply next_id_pos|done|done|].
    intros row' Hrow'. rewrite Hi. by apply next_id_gt.
Qed.

Lemma C8_submit_success_witness :
  let data : gmap string json := {[ "gradeLevel" := JStr "3" ]} in
  let e := Sqlite.healthy "2026-11-02 09:00:00" in
  let sub := Sqlite.post_api_submit e data Sqlite.empty in
  let sub' := Mongo.post_api_submit Mongo.Guarded (Mongo.healthy 10) data Mongo.empty in
  (Sqlite.run_insert e data Sqlite.empty = Ok (sub.2, 1)
   ∧ ∃ r, sub = (r, sub.2) ∧ status r = 201 ∧ field r "id" = Some (Some (JNum 1)))
  ∧ (data !! "_id" = None
     ∧ Mongo.insertOne (Mongo.healthy 10) Mongo.empty (Mongo.docToInsert 10 data)
       = Ok (sub'.2, Mongo.ObjectId 0)
     ∧ ∃ r, Mongo.sent sub'.1 = Some r ∧ status r = 201
          ∧ field r "id" = Some (Mongo.ObjectId 0)).
Proof.
  intros data e sub sub'. split.
  - assert (Hrun : Sqlite.run_insert e data Sqlite.empty = Ok (sub.2, 1))
      by (by vm_compute).
    split; [exact Hrun|].
    destruct (proj2 C8_submit_success_201_with_id e data Sqlite.empty _ 1 Hrun)
      as (r & row & Hp & Hs & _ & Hid & _).
    by exists r.
  - assert (Hid : data !! "_id" = None) by (by vm_compute).
    assert (Hins : Mongo.insertOne (Mongo.healthy 10) Mongo.empty
                     (Mongo.docToInsert 10 data) = Ok (sub'.2, Mongo.ObjectId 0))
      by (by vm_compute).
    split; [exact Hid|]. split; [exact Hins|].
    destruct (proj1 C8_submit_success_201_with_id Mongo.Guarded []
                (Mongo.healthy 10) data sub'.2 (Mongo.ObjectId 0) Hid eq_refl Hins)
      as (r & d & Hp & Hs & Hst & _ & Hi & _).
    exists r. split; [|by split].
    change sub' with (Mongo.post_api_submit Mongo.Guarded (Mongo.healthy 10) data
                        (Mongo.submit_all Mongo.Guarded [] Mongo.empty).2).
    by rewrite Hp.
Defined.





(* ===================================================================== *)
(** ** Rows whose [q1_c] text does not parse                              *)
(* ===================================================================== *)



(* ===================================================================== *)
(** ** Rows and documents written through the submission endpoint       *)
(* ===================================================================== *)

Section SqliteRecords.
Import Sqlite.

Lemma run_insert_answer_columns e data t t' i :
  run_insert e data t = Ok (t', i) →
  ∃ r, t' = Table (rows t ++ [r])%list i
     ∧ ∀ k, k ∈ answer_columns →
         select_star r !! k = Some (js (store TEXT (bind (data !! k)))).
Proof.
  unfold run_insert, db_run_insert.
  destruct (error e); [done|].
  destruct (store TEXT (bind (data !! "gradeLevel"))) eqn:Hg; [done| |];
    intros [= <- <-]; eexists; (split; [reflexivity|]);
    intros k Hk; unfold answer_columns in Hk;
    repeat (apply elem_of_cons in Hk as [->|Hk]; [by rewrite ?Hg|]);
    by apply elem_of_nil in Hk.
Qed.

Lemma sqlite_answer_after_submit_fetch e data t t' i e' k :
  post_api_submit e data t = (submitted i, t') →
  error e' = None →
  k ∈ answer_columns →
  ∃ rows r,
    get_api_results e' t' = Response 200 (Arr rows)
    ∧ the_record (Some (JNum i)) rows r
    ∧ r !! k = Some (js (store TEXT (bind (data !! k)))).
Proof.
  intros Hp He' Hk.
  destruct (sqlite_submit_fetch e data t t' i e' Hp He')
    as (r0 & rest & Ht' & _ & _ & _ & _ & Hget & Hrec).
  destruct (sqlite_post_api_submit_201 e data t _ t' Hp eq_refl) as (j & Hj & Hrun).
  destruct (run_insert_answer_columns e data t t' j Hrun) as (r1 & Ht1 & Hcols).
  assert (r1 = r0) as ->.
  { rewrite Ht' in Ht1. injection Ht1 as Hrows _.
    by apply app_inj_tail in Hrows as [_ ->]. }
  eexists. eexists. split; [done|]. split; [done|].
  rewrite <- (Hcols k Hk). apply results_row_other;
    intros ->; unfold answer_columns in Hk;
    repeat (apply elem_of_cons in Hk as [Hk|Hk]; [done|]);
    by apply elem_of_nil in Hk.
Qed.

Lemma select_star_None r k :
  k ∉ "readingDuration" :: record_keys → select_star r !! k = None.
Proof.
  intros Hk. unfold select_star, list_to_map.
  cbn [foldr uncurry fst snd].
  rewrite !lookup_insert.
  repeat (case_decide;
          [exfalso; apply Hk; subst k; unfold record_keys; repeat constructor|]).
  done.
Qed.

Lemma results_row_keys r k :
  is_Some (results_row (select_star r) !! k) ↔ k ∈ record_keys.
Proof.
  split.
  - intros Hs. destruct (decide (k ∈ record_keys)) as [|Hn]; [done|].
    exfalso. destruct Hs as [v Hv].
    destruct (decide (k = "readingDuration")) as [->|Hrd].
    { by rewrite results_row_readingDuration in Hv. }
    rewrite results_row_other in Hv.
    + rewrite select_star_None in Hv; [done|].
      intros [->|H]%elem_of_cons; done.
    + intros ->. apply Hn. unfold record_keys. repeat constructor.
    + intros ->. apply Hn. unfold record_keys. repeat constructor.
    + intros ->. apply Hn. unfold record_keys. repeat constructor.
    + done.
  - intros Hk. unfold record_keys in Hk.
    repeat (apply elem_of_cons in Hk as [->|Hk];
            [first [ by rewrite results_row_q1_c
                   | by rewrite results_row_consentAgreed
                   | by rewrite results_row_finalReadingDuration
                   | by rewrite results_row_other by done ]|]).
    by apply elem_of_nil in Hk.
Qed.

Lemma sqlite_post_api_submit_payload_fields e (d1 d2 : gmap string json) t :
  (∀ k, k ∈ payload_fields → d1 !! k = d2 !! k) →
  post_api_submit e d1 t = post_api_submit e d2 t.
Proof.
  intros H. unfold post_api_submit, run_insert.
  by rewrite !(H _) by (unfold payload_fields; repeat constructor).
Qed.

End SqliteRecords.

Section SqliteStore.
Import Sqlite.

Lemma sqlite_submit_all_app reqs1 reqs2 t :
  submit_all (reqs1 ++ reqs2) t
  = (((submit_all reqs1 t).1 ++ (submit_all reqs2 (submit_all reqs1 t).2).1)%list,
     (submit_all reqs2 (submit_all reqs1 t).2).2).
Proof.
  revert t. induction reqs1 as [|[e data] reqs1 IH]; intros t;
    cbn [submit_all app fst snd].
  - by destruct (submit_all reqs2 t).
  - destruct (post_api_submit e data t) as [r t1]. rewrite IH.
    destruct (submit_all reqs1 t1) as [rs1 t2]. cbn [fst snd].
    by destruct (submit_all reqs2 t2).
Qed.

(** A history only appends rows, each written by one of its requests. *)
Lemma sqlite_submit_all_rows reqs t :
  ∃ new, rows (submit_all reqs t).2 = (rows t ++ new)%list
    ∧ ∀ r, r ∈ new → ∃ e data, (e, data) ∈ reqs
         ∧ q1_c r = SText (JSON_stringify (q1_c_or_empty (data !! "q1_c"))).
Proof.
  revert t. induction reqs as [|[e data] reqs IH]; intros t; cbn [submit_all].
  - exists []. rewrite app_nil_r. split; [done|]. intros r Hr. by apply elem_of_nil in Hr.
  - pose proof (sqlite_post_api_submit_cases e data t) as Hcases.
    destruct (post_api_submit e data t) as [r0 t1].
    destruct (IH t1) as (new & Hrows & Hnew).
    destruct (submit_all reqs t1) as [rs t2]. cbn [fst snd] in *.
    destruct Hcases as [(m & _ & [= -> ->])|(t' & i & Hrun & [= -> ->])].
    + exists new. split; [done|]. intros r Hr.
      destruct (Hnew r Hr) as (e1 & d1 & Hin & Hq). exists e1, d1. split; [by right|done].
    + destruct (run_insert_Ok e data t t' i Hrun)
        as (_ & _ & r1 & -> & _ & _ & _ & _ & Hq & _).
      cbn [rows] in Hrows. exists (r1 :: new). split.
      * by rewrite Hrows, <- app_assoc.
      * intros r [->|Hr]%elem_of_cons.
        -- exists e, data. split; [by left|done].
        -- destruct (Hnew r Hr) as (e1 & d1 & Hin & Hq1). exists e1, d1.
           split; [by right|done].
Qed.

Lemma max_id_bound (l : list row) n :
  0 ≤ n → (∀ r, r ∈ l → id r ≤ n) → max_id l ≤ n.
Proof.
  intros Hn. induction l as [|r l IH]; intros H; simpl; [done|].
  apply Z.max_lub; [apply H; by left|]. apply IH. intros r' Hr'. apply H. by right.
Qed.

(** In a table filled through the handler from the empty table the
    identifiers count the rows. *)
Lemma sqlite_post_api_submit_count e data t :
  seq t = Z.of_nat (length (rows t)) →
  id <$> rows t = Z.of_nat <$> List.seq 1 (length (rows t)) →
  seq (post_api_submit e data t).2 = Z.of_nat (length (rows (post_api_submit e data t).2))
  ∧ id <$> rows (post_api_submit e data t).2
    = Z.of_nat <$> List.seq 1 (length (rows (post_api_submit e data t).2)).
Proof.
  intros Hseq Hids.
  destruct (sqlite_post_api_submit_cases e data t)
    as [(m & _ & ->)|(t' & i & Hrun & ->)]; cbn [fst snd]; [done|].
  destruct (run_insert_Ok e data t t' i Hrun) as (_ & Hi & r & -> & Hid & _).
  cbn [rows seq].
  assert (Hmax : max_id (rows t) ≤ Z.of_nat (length (rows t))).
  { apply max_id_bound; [lia|]. intros r' Hr'.
    assert (Hin : id r' ∈ id <$> rows t) by (apply list_elem_of_fmap; eauto).
    rewrite Hids in Hin. apply list_elem_of_fmap in Hin as (k & -> & Hk).
    apply elem_of_seq in Hk. lia. }
  assert (Hnext : i = Z.of_nat (S (length (rows t)))).
  { rewrite Hi. unfold next_id. lia. }
  rewrite length_app. cbn [length]. rewrite Nat.add_1_r. split; [done|].
  rewrite fmap_app, Hids, seq_S, fmap_app. cbn [fmap list_fmap].
  rewrite Hid, Hnext. do 2 f_equal.
Qed.

Lemma sqlite_submit_all_count reqs t :
  seq t = Z.of_nat (length (rows t)) →
  id <$> rows t = Z.of_nat <$> List.seq 1 (length (rows t)) →
  seq (submit_all reqs t).2 = Z.of_nat (length (rows (submit_all reqs t).2))
  ∧ id <$> rows (submit_all reqs t).2
    = Z.of_nat <$> List.seq 1 (length (rows (submit_all reqs t).2)).
Proof.
  revert t. induction reqs as [|[e data] reqs IH]; intros t Hs Hi; cbn [submit_all]; [done|].
  destruct (sqlite_post_api_submit_count e data t Hs Hi) as [H1 H2].
  destruct (post_api_submit e data t) as [r t1]. cbn [fst snd] in *.
  specialize (IH t1 H1 H2). by destruct (submit_all reqs t1).
Qed.

Lemma sqlite_announced_count reqs :
  announced (submit_all reqs Sqlite.empty).1
  = (fun k => Some (JNum (Z.of_nat k)))
      <$> List.seq 1 (length (rows (submit_all reqs Sqlite.empty).2)).
Proof.
  destruct (sqlite_submit_all_history reqs Sqlite.empty eq_refl) as [_ H].
  destruct (sqlite_submit_all_count reqs Sqlite.empty eq_refl eq_refl) as [_ Hids].
  cbn [rows Sqlite.empty fmap list_fmap app] in H. rewrite <- H.
  rewrite (list_fmap_compose id (fun n => Some (JNum n))).
  rewrite Hids. by rewrite <- list_fmap_compose.
Qed.

End SqliteStore.

Section SortMap.
Context {A B : Type} (f : A → B) (leb : A → A → bool) (leb' : B → B → bool).
Hypothesis Hleb : ∀ a b, leb' (f a) (f b) = leb a b.

Lemma insert_desc_fmap x l :
  f <$> insert_desc leb x l = insert_desc leb' (f x) (f <$> l).
Proof.
  induction l as [|y l IH]; [done|]. cbn [insert_desc fmap list_fmap].
  rewrite Hleb. destruct (leb y x); [done|]. cbn [fmap list_fmap]. by rewrite <- IH.
Qed.

(** A sorted scan commutes with a map that keeps the order of the keys. *)
Lemma sort_desc_fmap l : f <$> sort_desc leb l = sort_desc leb' (f <$> l).
Proof.
  induction l as [|x l IH]; [done|]. cbn [sort_desc fmap list_fmap].
  by rewrite insert_desc_fmap, <- IH.
Qed.
End SortMap.

Section MongoStore.
Import Mongo.

Lemma mongo_submit_all_app rv reqs1 reqs2 c :
  submit_all rv (reqs1 ++ reqs2) c
  = (((submit_all rv reqs1 c).1 ++ (submit_all rv reqs2 (submit_all rv reqs1 c).2).1)%list,
     (submit_all rv reqs2 (submit_all rv reqs1 c).2).2).
Proof.
  revert c. induction reqs1 as [|[e data] reqs1 IH]; intros c;
    cbn [submit_all app fst snd].
  - by destruct (submit_all rv reqs2 c).
  - destruct (post_api_submit rv e data c) as [o c1]. rewrite IH.
    destruct (submit_all rv reqs1 c1) as [os1 c2]. cbn [fst snd].
    by destruct (submit_all rv reqs2 c2).
Qed.

(** A submission never removes or rewrites a stored document. *)
Lemma mongo_post_api_submit_extends rv e data c :
  ∃ new, docs (post_api_submit rv e data c).2 = (docs c ++ new)%list.
Proof.
  unfold post_api_submit, insertOne.
  destruct (step (connect_error e)); [|exists []; by rewrite app_nil_r].
  destruct (operation_error e); [exists []; by rewrite app_nil_r|].
  destruct (supplied_id _); [destruct (existsb _ _)|]; cbn [fst snd docs]; eauto.
  exists []. by rewrite app_nil_r.
Qed.

Lemma mongo_submit_all_extends rv reqs c :
  ∃ new, docs (submit_all rv reqs c).2 = (docs c ++ new)%list.
Proof.
  revert c. induction reqs as [|[e data] reqs IH]; intros c; cbn [submit_all].
  - exists []. by rewrite app_nil_r.
  - destruct (mongo_post_api_submit_extends rv e data c) as (new1 & H1).
    destruct (post_api_submit rv e data c) as [o c1]. cbn [fst snd] in H1.
    destruct (IH c1) as (new2 & H2).
    destruct (submit_all rv reqs c1) as [os c2]. cbn [fst snd] in *.
    exists (new1 ++ new2)%list. by rewrite H2, H1, <- app_assoc.
Qed.

(** Every document a history adds was written by one of its requests. *)
Lemma mongo_submit_all_origin rv reqs c :
  well_formed c →
  ∃ new, docs (submit_all rv reqs c).2 = (docs c ++ new)%list
    ∧ ∀ d, d ∈ new → ∃ e data i, (e, data) ∈ reqs ∧ i ≠ Undefined
         ∧ d = stored i (docToInsert (now e) data).
Proof.
  revert c. induction reqs as [|[e data] reqs IH]; intros c Hwf; cbn [submit_all].
  - exists []. rewrite app_nil_r. split; [done|]. intros d Hd. by apply elem_of_nil in Hd.
  - pose proof (mongo_post_api_submit_well_formed rv e data c Hwf) as Hwf1.
    pose proof (mongo_post_api_submit_cases rv e data c) as Hcases.
    destruct (post_api_submit rv e data c) as [o c1]. cbn [fst snd] in *.
    destruct (IH c1 Hwf1) as (new & Hdocs & Hnew).
    destruct (submit_all rv reqs c1) as [os c2]. cbn [fst snd] in *.
    assert (Hlater : ∀ d, d ∈ new → ∃ e0 data0 i, (e0, data0) ∈ (e, data) :: reqs
              ∧ i ≠ Undefined ∧ d = stored i (docToInsert (now e0) data0)).
    { intros d Hd. destruct (Hnew d Hd) as (e0 & d0 & i & Hin & Hi & ->).
      exists e0, d0, i. split; [by right|done]. }
    destruct Hcases as [(m & _ & [= -> ->])|[(m & _ & _ & [= -> ->])
                                            |(c' & i & _ & Hi & [= -> ->])]];
      [by exists new|by exists new|].
    eapply insertOne_Ok in Hi as (_ & Hd1 & Hu & _);
      [|done|apply docToInsert_no_ObjectId].
    exists (stored i (docToInsert (now e) data) :: new). split.
    + by rewrite Hdocs, Hd1, <- app_assoc.
    + intros d [->|Hd]%elem_of_cons; [|by apply Hlater].
      exists e, data, i. split; [by left|done].
Qed.

(** No two stored documents share an [_id]. *)
Lemma mongo_post_api_submit_NoDup rv e data c :
  well_formed c →
  NoDup ((fun d : gmap string value => d !! "_id") <$> docs c) →
  NoDup ((fun d : gmap string value => d !! "_id") <$> docs (post_api_submit rv e data c).2).
Proof.
  intros Hwf Hnd.
  destruct (mongo_post_api_submit_cases rv e data c)
    as [(m & _ & ->)|[(m & _ & _ & ->)|(c' & i & _ & Hi & ->)]]; cbn [fst snd]; try done.
  eapply insertOne_Ok in Hi as (_ & Hd1 & _ & Hfresh & _);
    [|done|apply docToInsert_no_ObjectId].
  rewrite Hd1, fmap_app. apply NoDup_app. split; [done|]. split.
  - intros x Hx Hx'. apply list_elem_of_fmap in Hx as (d & -> & Hd).
    cbn [fmap list_fmap] in Hx'. apply list_elem_of_singleton in Hx'.
    apply (Hfresh d Hd). rewrite Hx'. apply lookup_insert_eq.
  - apply NoDup_singleton.
Qed.

Lemma mongo_submit_all_NoDup rv reqs c :
  well_formed c →
  NoDup ((fun d : gmap string value => d !! "_id") <$> docs c) →
  NoDup ((fun d : gmap string value => d !! "_id") <$> docs (submit_all rv reqs c).2).
Proof.
  revert c. induction reqs as [|[e data] reqs IH]; intros c Hwf Hnd; cbn [submit_all];
    [done|].
  pose proof (mongo_post_api_submit_well_formed rv e data c Hwf) as Hwf1.
  pose proof (mongo_post_api_submit_NoDup rv e data c Hwf Hnd) as Hnd1.
  destruct (post_api_submit rv e data c) as [o c1]. cbn [fst snd] in *.
  specialize (IH c1 Hwf1 Hnd1). by destruct (submit_all rv reqs c1).
Qed.

(** The fields of the payload that never reach a fetched record. *)
Lemma docToInsert_agree t (d1 d2 : gmap string json) :
  (∀ k, k ∉ ["readingDuration"; "timestamp"; "id"] → d1 !! k = d2 !! k) →
  ∀ k, k ≠ "id" → docToInsert t d1 !! k = docToInsert t d2 !! k.
Proof.
  intros H k Hid.
  assert (Hk : ∀ k, k ≠ "readingDuration" → k ≠ "timestamp" → k ≠ "id" →
                 d1 !! k = d2 !! k).
  { intros k' ? ? ?. apply H. intros Hin.
    repeat (apply elem_of_cons in Hin as [Hin|Hin]; [done|]).
    by apply elem_of_nil in Hin. }
  destruct (decide (k = "finalReadingDuration")) as [->|];
    [by rewrite !docToInsert_finalReadingDuration|].
  destruct (decide (k = "consentAgreed")) as [->|];
    [rewrite !docToInsert_consentAgreed, Hk by done; done|].
  destruct (decide (k = "timestamp")) as [->|];
    [by rewrite !docToInsert_timestamp|].
  destruct (decide (k = "readingDuration")) as [->|];
    [rewrite !docToInsert_readingDuration, Hk by done; done|].
  destruct (decide (k = "q1_c")) as [->|];
    [rewrite !docToInsert_q1_c, Hk by done; done|].
  rewrite !docToInsert_other, Hk by done. done.
Qed.

Lemma finalRow_agree (a b : gmap string value) :
  (∀ k, k ≠ "id" → a !! k = b !! k) → finalRow a = finalRow b.
Proof.
  intros H. apply map_eq. intros k.
  destruct (decide (k = "id")) as [->|];
    [rewrite !finalRow_id; unfold prop; by rewrite H|].
  destruct (decide (k = "finalReadingDuration")) as [->|];
    [rewrite !finalRow_finalReadingDuration; unfold prop; by rewrite H|].
  destruct (decide (k = "_id")) as [->|]; [by rewrite !finalRow__id|].
  destruct (decide (k = "readingDuration")) as [->|];
    [by rewrite !finalRow_readingDuration|].
  rewrite !finalRow_other by done. by apply H.
Qed.

Lemma mongo_post_api_submit_agree rv e (d1 d2 : gmap string json) c :
  (∀ k, k ∉ ["readingDuration"; "timestamp"; "id"] → d1 !! k = d2 !! k) →
  (post_api_submit rv e d1 c).1 = (post_api_submit rv e d2 c).1
  ∧ finalRow <$> docs (post_api_submit rv e d1 c).2
    = finalRow <$> docs (post_api_submit rv e d2 c).2.
Proof.
  intros H. pose proof (docToInsert_agree (now e) d1 d2 H) as Hk.
  unfold post_api_submit, insertOne.
  destruct (step (connect_error e)); [|done].
  destruct (operation_error e); [done|].
  unfold supplied_id. rewrite <- (Hk "_id") by done.
  assert (Hb : ∀ k, k ≠ "id" →
            to_bson (docToInsert (now e) d1) !! k = to_bson (docToInsert (now e) d2) !! k).
  { intros k Hne. by rewrite !to_bson_lookup, Hk. }
  destruct (docToInsert (now e) d1 !! "_id") as [[| [] | |]|];
    try destruct (existsb _ _); cbn [fst snd docs]; (split; [done|]);
    rewrite ?fmap_app; cbn [fmap list_fmap]; try done;
    do 2 f_equal; apply finalRow_agree; intros k Hne;
    try (destruct (decide (k = "_id")) as [->|];
         [by rewrite !lookup_insert_eq|rewrite !lookup_insert_ne by done]);
    by apply Hb.
Qed.

Lemma mongo_get_api_results_fmap rv e c1 c2 :
  finalRow <$> docs c1 = finalRow <$> docs c2 →
  get_api_results rv e c1 = get_api_results rv e c2.
Proof.
  intros H. unfold get_api_results, find_sorted.
  destruct (step (connect_error e)); [|done].
  destruct (operation_error e); [done|]. do 3 f_equal.
  change (List.map finalRow ?l) with (finalRow <$> l).
  rewrite !(sort_desc_fmap finalRow _
              (fun a b => key_leb (timestamp_key a) (timestamp_key b)))
    by (intros x y; by rewrite !timestamp_key_finalRow).
  by rewrite H.
Qed.

Lemma q1_c_array_is_list v : ∃ l, q1_c_array v = JArr l.
Proof.
  destruct v as [[]|]; cbn [q1_c_array]; try destruct (ToBoolean _); eauto.
Qed.

End MongoStore.

Section MongoOwnId.
Import Mongo.

Lemma docToInsert_supplied_id_Some t (data : gmap string json) j :
  data !! "_id" = Some j → j ≠ JNull →
  supplied_id (docToInsert t data) = Some (J j).
Proof.
  intros H Hj. unfold supplied_id. rewrite docToInsert_other, H by done.
  by destruct j.
Qed.

Lemma insertOne_supplied e c doc c' i v :
  supplied_id doc = Some v → insertOne e c doc = Ok (c', i) → i = v.
Proof.
  intros Hs. unfold insertOne. rewrite Hs.
  destruct (operation_error e); [done|].
  destruct (existsb _ _); [done|]. by intros [= _ ->].
Qed.

Lemma existsb_id_true (l : list (gmap string value)) d i :
  d ∈ l → d !! "_id" = Some i →
  existsb (fun d => bool_decide (d !! "_id" = Some i)) l = true.
Proof.
  intros Hd Hi. apply existsb_exists. exists d.
  split; [by apply list_elem_of_In|]. by apply bool_decide_eq_true.
Qed.

Lemma mongo_post_api_submit_201_insertOne rv e data c o c' i :
  post_api_submit rv e data c = (o, c') →
  sent o = Some (submitted i) →
  insertOne e c (docToInsert (now e) data) = Ok (c', i).
Proof.
  intros Hp Hs.
  destruct (mongo_post_api_submit_cases rv e data c)
    as [(m & _ & Heq)|[(m & _ & _ & Heq)|(c1 & i1 & _ & Hi & Heq)]];
    rewrite Heq in Hp; injection Hp as <- <-.
  - injection Hs; intros; discriminate.
  - rewrite sent_finally in Hs. injection Hs; intros; discriminate.
  - rewrite sent_finally in Hs. apply (inj Some) in Hs.
    apply (f_equal (fun r => field r "id")) in Hs.
    rewrite !mongo_field_submitted_id in Hs. by injection Hs as ->.
Qed.

Lemma rejected_finally_iff rv e r m :
  rejected (finally rv e r) = Some m ↔ rv = Atlas ∧ close_error e = Some m.
Proof.
  unfold finally. destruct (close_error e) as [mc|], rv; cbn [step rejected];
    split; try done; try (by intros [? ?]); try (by intros [= ->]);
    by intros [_ [= ->]].
Qed.

Lemma insertOne_close e c doc :
  insertOne e c doc
  = insertOne (Env (now e) (connect_error e) (operation_error e) None) c doc.
Proof. reflexivity. Qed.

Lemma find_sorted_close e c :
  find_sorted e c
  = find_sorted (Env (now e) (connect_error e) (operation_error e) None) c.
Proof. reflexivity. Qed.

End MongoOwnId.

(* ===================================================================== *)
(** ** The SQLite revision, end to end                                  *)
(* ===================================================================== *)

(** X1.  SQLite revision, [q1_c] through its JSON text: after a submission
    answered 201 the record of that submission in a later fetch carries
    [data.q1_c || []] itself under [q1_c], that is the submitted value when
    it is truthy (a list as it is, the empty list included) and the empty
    list when it is falsy or omitted. *)
Theorem X1_sqlite_q1_c_round_trip :
  ∀ e data t t' i e',
    Sqlite.post_api_submit e data t = (Sqlite.submitted i, t') →
    Sqlite.error e' = None →
    unique_keys (Sqlite.q1_c_or_empty (data !! "q1_c")) = true →
    ∃ rows r,
      Sqlite.get_api_results e' t' = Response 200 (Arr rows)
      ∧ the_record (Some (JNum i)) rows r
      ∧ (ToBoolean (data !! "q1_c") = true → r !! "q1_c" = Some (data !! "q1_c"))
      ∧ (ToBoolean (data !! "q1_c") = false → r !! "q1_c" = Some (Some (JArr []))).
Proof.
  intros e data t t' i e' Hp He' Hu.
  destruct (sqlite_q1_c_after_submit_fetch e data t t' i e' Hp He' Hu)
    as (rows & r & Hget & Hrec & Hq).
  exists rows, r. split; [done|]. split; [done|]. rewrite Hq.
  unfold Sqlite.q1_c_or_empty.
  destruct (data !! "q1_c") as [j|]; [|done].
  destruct (ToBoolean (Some j)); done.
Qed.

Lemma X1_sqlite_q1_c_round_trip_witness :
  let data : gmap string json :=
    {[ "gradeLevel" := JStr "3"; "q1_c" := JArr [JStr "A"; JStr "B"] ]} in
  let sub := Sqlite.post_api_submit (Sqlite.healthy "2026-11-02 09:00:00")
               data Sqlite.empty in
  sub.1 = Sqlite.submitted 1
  ∧ ∃ rows r,
      Sqlite.get_api_results (Sqlite.healthy "2026-11-02 09:05:00") sub.2
      = Response 200 (Arr rows)
      ∧ the_record (Some (JNum 1)) rows r
      ∧ r !! "q1_c" = Some (Some (JArr [JStr "A"; JStr "B"])).
Proof.
  intros data sub. split; [vm_compute; reflexivity|].
  destruct (X1_sqlite_q1_c_round_trip (Sqlite.healthy "2026-11-02 09:00:00") data
              Sqlite.empty sub.2 1 (Sqlite.healthy "2026-11-02 09:05:00"))
    as (rows & r & Hget & Hrec & Htrue & _);
    [vm_compute; reflexivity|reflexivity|vm_compute; reflexivity|].
  exists rows, r. split; [done|]. split; [done|].
  rewrite Htrue; [vm_compute; reflexivity|vm_compute; reflexivity].
Defined.

(** X2.  SQLite revision: every [q1_c] cell written through the submission
    handler holds JSON text that parses.  In a table filled from the empty
    table by any history of submissions no row reaches the [catch] of the
    results handler, and every fetched record carries under [q1_c] the
    [data.q1_c || []] of one of the submitted payloads. *)
Theorem X2_sqlite_stored_q1_c_parses :
  ∀ reqs,
    Forall (fun q : Sqlite.env * gmap string json =>
              unique_keys (Sqlite.q1_c_or_empty (q.2 !! "q1_c")) = true) reqs →
    (∀ r, r ∈ Sqlite.rows (Sqlite.submit_all reqs Sqlite.empty).2 →
          JSON_parse (ToString (Sqlite.js (Sqlite.q1_c r))) ≠ None)
    ∧ (∀ e rows rec,
         Sqlite.get_api_results e (Sqlite.submit_all reqs Sqlite.empty).2
         = Response 200 (Arr rows) →
         rec ∈ rows →
         ∃ q, q ∈ reqs
            ∧ rec !! "q1_c" = Some (Some (Sqlite.q1_c_or_empty (q.2 !! "q1_c")))).
Proof.
  intros reqs Hu.
  destruct (sqlite_submit_all_rows reqs Sqlite.empty) as (new & Hrows & Hnew).
  cbn [Sqlite.rows Sqlite.empty app] in Hrows.
  assert (Hparse : ∀ r, r ∈ Sqlite.rows (Sqlite.submit_all reqs Sqlite.empty).2 →
            ∃ q, q ∈ reqs
               ∧ JSON_parse (ToString (Sqlite.js (Sqlite.q1_c r)))
                 = Some (Sqlite.q1_c_or_empty (q.2 !! "q1_c"))).
  { intros r Hr. rewrite Hrows in Hr.
    destruct (Hnew r Hr) as (e & data & Hin & Hq).
    exists (e, data). split; [done|]. rewrite Hq.
    cbn [Sqlite.js ToString json_ToString]. apply JSON_parse_stringify.
    rewrite Forall_forall in Hu. by apply (Hu (e, data)). }
  split.
  - intros r Hr. destruct (Hparse r Hr) as (q & _ & ->). done.
  - intros e rows rec ->%sqlite_get_api_results_inv Hrec.
    apply list_elem_of_fmap in Hrec as (o & -> & Ho).
    apply list_elem_of_fmap in Ho as (r & -> & Hr).
    apply sort_desc_elem_of in Hr.
    destruct (Hparse r Hr) as (q & Hq & Hp). exists q. split; [done|].
    rewrite results_row_q1_c. unfold Sqlite.prop.
    rewrite select_star_q1_c. cbn [from_option id]. by rewrite Hp.
Qed.

Lemma X2_sqlite_stored_q1_c_parses_witness :
  let reqs : list (Sqlite.env * gmap string json) :=
    [ (Sqlite.healthy "2026-11-02 09:00:00",
       {[ "gradeLevel" := JStr "3"; "q1_c" := JStr "A" ]});
      (Sqlite.healthy "2026-11-02 09:00:01", {[ "gradeLevel" := JStr "4" ]}) ] in
  length (Sqlite.rows (Sqlite.submit_all reqs Sqlite.empty).2) = 2%nat
  ∧ ∀ r, r ∈ Sqlite.rows (Sqlite.submit_all reqs Sqlite.empty).2 →
         JSON_parse (ToString (Sqlite.js (Sqlite.q1_c r))) ≠ None.
Proof.
  intros reqs. split; [vm_compute; reflexivity|].
  apply (X2_sqlite_stored_q1_c_parses reqs).
  repeat constructor.
Defined.

(** X3.  SQLite revision, the consent flag exactly: after a submission
    answered 201 the fetched [consentAgreed] is [true] exactly when the
    submitted value is truthy and [String] of it is ["true"] or ["1"],
    letter for letter; every other submission reads [false]. *)
Theorem X3_sqlite_consentAgreed_exact :
  ∀ e data t t' i e',
    Sqlite.post_api_submit e data t = (Sqlite.submitted i, t') →
    Sqlite.error e' = None →
    ∃ rows r,
      Sqlite.get_api_results e' t' = Response 200 (Arr rows)
      ∧ the_record (Some (JNum i)) rows r
      ∧ r !! "consentAgreed"
        = Some (Some (JBool
            (ToBoolean (data !! "consentAgreed")
             && (String.eqb (ToString (data !! "consentAgreed")) "true"
                 || String.eqb (ToString (data !! "consentAgreed")) "1")))).
Proof.
  intros e data t t' i e' Hp He'.
  destruct (sqlite_submit_fetch e data t t' i e' Hp He')
    as (r0 & rest & _ & _ & Hcons & _ & _ & Hget & Hrec).
  eexists. eexists. split; [done|]. split; [done|].
  rewrite (sqlite_fetched_consent _ _ Hcons).
  by destruct (ToBoolean (data !! "consentAgreed")).
Qed.

Lemma X3_sqlite_consentAgreed_exact_witness :
  let data : gmap string json :=
    {[ "gradeLevel" := JStr "3"; "consentAgreed" := JStr "TRUE" ]} in
  let sub := Sqlite.post_api_submit (Sqlite.healthy "2026-11-02 09:00:00")
               data Sqlite.empty in
  sub.1 = Sqlite.submitted 1
  ∧ ∃ rows r,
      Sqlite.get_api_results (Sqlite.healthy "2026-11-02 09:05:00") sub.2
      = Response 200 (Arr rows)
      ∧ the_record (Some (JNum 1)) rows r
      ∧ r !! "consentAgreed" = Some (Some (JBool false)).
Proof.
  intros data sub. split; [vm_compute; reflexivity|].
  destruct (X3_sqlite_consentAgreed_exact (Sqlite.healthy "2026-11-02 09:00:00") data
              Sqlite.empty sub.2 1 (Sqlite.healthy "2026-11-02 09:05:00"))
    as (rows & r & Hget & Hrec & Hc); [vm_compute; reflexivity|reflexivity|].
  exists rows, r. split; [done|]. split; [done|]. rewrite Hc. vm_compute; reflexivity.
Defined.

(** X4.  SQLite revision, the answer fields ([gradeLevel], [q1_a], [q1_b],
    [q1_d] to [q1_f], [q2_a] to [q2_c], [quiz_q1] to [quiz_q7]): after a
    submission answered 201 the fetched record carries a submitted string
    unchanged; a submitted 32-bit integer comes back as its decimal text and
    a boolean as ["1"] or ["0"], the columns being [TEXT]; an omitted or
    [null] field comes back as [null]. *)
Theorem X4_sqlite_answers_after_submit_fetch :
  ∀ e data t t' i e' k,
    Sqlite.post_api_submit e data t = (Sqlite.submitted i, t') →
    Sqlite.error e' = None →
    k ∈ answer_columns →
    ∃ rows r,
      Sqlite.get_api_results e' t' = Response 200 (Arr rows)
      ∧ the_record (Some (JNum i)) rows r
      ∧ (∀ s, data !! k = Some (JStr s) → r !! k = Some (Some (JStr s)))
      ∧ (∀ n, data !! k = Some (JNum n) → -2147483648 ≤ n ≤ 2147483647 →
              r !! k = Some (Some (JStr (pretty n))))
      ∧ (∀ b, data !! k = Some (JBool b) →
              r !! k = Some (Some (JStr (if b then "1" else "0"))))
      ∧ (data !! k = None ∨ data !! k = Some JNull → r !! k = Some (Some JNull)).
Proof.
  intros e data t t' i e' k Hp He' Hk.
  destruct (sqlite_answer_after_submit_fetch e data t t' i e' k Hp He' Hk)
    as (rows & r & Hget & Hrec & Hr).
  exists rows, r. split; [done|]. split; [done|]. rewrite Hr. split_and!.
  - by intros s ->.
  - by intros n -> _.
  - by intros [] ->.
  - by intros [-> | ->].
Qed.

Lemma X4_sqlite_answers_witness :
  let data : gmap string json :=
    {[ "gradeLevel" := JNum 3; "q1_a" := JStr "every day" ]} in
  let sub := Sqlite.post_api_submit (Sqlite.healthy "2026-11-02 09:00:00")
               data Sqlite.empty in
  sub.1 = Sqlite.submitted 1
  ∧ (∃ rows r,
       Sqlite.get_api_results (Sqlite.healthy "2026-11-02 09:05:00") sub.2
       = Response 200 (Arr rows)
       ∧ the_record (Some (JNum 1)) rows r
       ∧ r !! "gradeLevel" = Some (Some (JStr "3")))
  ∧ (∃ rows r,
       Sqlite.get_api_results (Sqlite.healthy "2026-11-02 09:05:00") sub.2
       = Response 200 (Arr rows)
       ∧ the_record (Some (JNum 1)) rows r
       ∧ r !! "q1_a" = Some (Some (JStr "every day"))
       ∧ r !! "q1_b" = Some (Some JNull)).
Proof.
  intros data sub.
  assert (Hsub : Sqlite.post_api_submit (Sqlite.healthy "2026-11-02 09:00:00")
                   data Sqlite.empty = (Sqlite.submitted 1, sub.2))
    by (vm_compute; reflexivity).
  split; [vm_compute; reflexivity|]. split.
  - destruct (X4_sqlite_answers_after_submit_fetch _ data Sqlite.empty sub.2 1
                (Sqlite.healthy "2026-11-02 09:05:00") "gradeLevel" Hsub eq_refl)
      as (rows & r & Hget & Hrec & _ & Hn & _);
      [unfold answer_columns; repeat constructor|].
    exists rows, r. split; [done|]. split; [done|].
    rewrite (Hn 3); [vm_compute; reflexivity|vm_compute; reflexivity|lia].
  - destruct (X4_sqlite_answers_after_submit_fetch _ data Sqlite.empty sub.2 1
                (Sqlite.healthy "2026-11-02 09:05:00") "q1_a" Hsub eq_refl)
      as (rows & r & Hget & Hrec & Hs & _);
      [unfold answer_columns; repeat constructor|].
    exists rows, r. split; [done|]. split; [done|]. split.
    + apply Hs. vm_compute; reflexivity.
    + destruct (X4_sqlite_answers_after_submit_fetch _ data Sqlite.empty sub.2 1
                  (Sqlite.healthy "2026-11-02 09:05:00") "q1_b" Hsub eq_refl)
        as (rows' & r' & Hget' & Hrec' & _ & _ & _ & Hnull);
        [unfold answer_columns; repeat constructor|].
      assert (r' = r) as ->.
      { rewrite Hget in Hget'. injection Hget' as <-.
        destruct Hrec as (Hin & Hid & _). destruct Hrec' as (_ & _ & Huniq).
        symmetry. by apply Huniq. }
      apply Hnull. left. vm_compute; reflexivity.
Defined.

(** X5.  SQLite revision: only the columns of the table travel.  The
    submission handler reads nineteen fields of the payload and nothing
    else of it (an [id], [timestamp], [readingDuration] or unknown field of
    the payload changes neither the response nor the table), and every
    record of the results endpoint has exactly the twenty-one keys of
    [record_keys], whatever the table holds. *)
Theorem X5_sqlite_only_schema_fields :
  (∀ e (d1 d2 : gmap string json) t,
     (∀ k, k ∈ payload_fields → d1 !! k = d2 !! k) →
     Sqlite.post_api_submit e d1 t = Sqlite.post_api_submit e d2 t)
  ∧
  (∀ e t rows rec,
     Sqlite.get_api_results e t = Response 200 (Arr rows) →
     rec ∈ rows →
     ∀ k, is_Some (rec !! k) ↔ k ∈ record_keys).
Proof.
  split.
  - apply sqlite_post_api_submit_payload_fields.
  - intros e t rows rec ->%sqlite_get_api_results_inv Hrec k.
    apply list_elem_of_fmap in Hrec as (o & -> & Ho).
    apply list_elem_of_fmap in Ho as (r & -> & Hr).
    apply results_row_keys.
Qed.

Lemma X5_sqlite_only_schema_fields_witness :
  let d1 : gmap string json :=
    {[ "gradeLevel" := JStr "3"; "q1_a" := JStr "yes" ]} in
  let d2 : gmap string json :=
    {[ "gradeLevel" := JStr "3"; "q1_a" := JStr "yes"; "id" := JNum 99;
       "readingDuration" := JNum 7; "nickname" := JStr "kim" ]} in
  let e := Sqlite.healthy "2026-11-02 09:00:00" in
  let t := (Sqlite.post_api_submit e d2 Sqlite.empty).2 in
  Sqlite.post_api_submit e d1 Sqlite.empty = Sqlite.post_api_submit e d2 Sqlite.empty
  ∧ ∃ rec, Sqlite.get_api_results e t = Response 200 (Arr [rec])
         ∧ rec !! "id" = Some (Some (JNum 1))
         ∧ rec !! "nickname" = None
         ∧ rec !! "readingDuration" = None
         ∧ is_Some (rec !! "finalReadingDuration").
Proof.
  intros d1 d2 e t. split.
  - apply (proj1 X5_sqlite_only_schema_fields e d1 d2 Sqlite.empty).
    intros k Hk. unfold payload_fields in Hk.
    repeat (apply elem_of_cons in Hk as [->|Hk]; [vm_compute; reflexivity|]).
    by apply elem_of_nil in Hk.
  - set (rec := match content (Sqlite.get_api_results e t) with
                | Arr (r :: _) => r
                | _ => ∅
                end).
    assert (Hget : Sqlite.get_api_results e t = Response 200 (Arr [rec]))
      by (vm_compute; reflexivity).
    pose proof (proj2 X5_sqlite_only_schema_fields e t [rec] rec Hget
                  (list_elem_of_here rec [])) as Hkeys.
    exists rec. split; [exact Hget|]. split; [vm_compute; reflexivity|].
    split; [|split].
    + destruct (rec !! "nickname") eqn:Hn; [|done]. exfalso.
      assert (Hin : "nickname" ∈ record_keys) by (apply Hkeys; by rewrite Hn).
      unfold record_keys in Hin.
      repeat (apply elem_of_cons in Hin as [Hin|Hin]; [done|]).
      by apply elem_of_nil in Hin.
    + destruct (rec !! "readingDuration") eqn:Hn; [|done]. exfalso.
      assert (Hin : "readingDuration" ∈ record_keys) by (apply Hkeys; by rewrite Hn).
      unfold record_keys in Hin.
      repeat (apply elem_of_cons in Hin as [Hin|Hin]; [done|]).
      by apply elem_of_nil in Hin.
    + apply Hkeys. unfold record_keys. repeat constructor.
Defined.

(** X6.  SQLite revision: the identifiers count the accepted submissions.
    In any history of submissions from the empty table the submission
    answered 201 in the k-th place is announced the identifier k; a
    refused submission uses up no identifier. *)
Theorem X6_sqlite_ids_count_from_one :
  ∀ reqs,
    Sqlite.announced (Sqlite.submit_all reqs Sqlite.empty).1
    = (fun k => Some (JNum (Z.of_nat k)))
        <$> List.seq 1 (length (Sqlite.rows (Sqlite.submit_all reqs Sqlite.empty).2)).
Proof. apply sqlite_announced_count. Qed.

(** X7.  SQLite revision, the results handler on rows it did not write:
    for every row of any table the fetched list holds a record with the
    [id] of the row whose [q1_c] is [null] when the cell is [NULL] (the
    text ["null"] parses; the [catch] is not reached), the value itself when
    the cell holds the JSON text of a value with exactly represented
    integers, and the empty list when the cell holds text that is not JSON
    text, and whose [consentAgreed] is [true] exactly when the cell holds
    the text ["true"] or ["1"]. *)
Theorem X7_sqlite_results_of_any_row :
  ∀ e t r,
    Sqlite.error e = None →
    r ∈ Sqlite.rows t →
    ∃ rows rec,
      Sqlite.get_api_results e t = Response 200 (Arr rows)
      ∧ rec ∈ rows
      ∧ rec !! "id" = Some (Some (JNum (Sqlite.id r)))
      ∧ (Sqlite.q1_c r = Sqlite.SNull → rec !! "q1_c" = Some (Some JNull))
      ∧ (∀ v, Sqlite.q1_c r = Sqlite.SText (JSON_stringify v) →
              unique_keys v = true → safe_integers v = true →
              rec !! "q1_c" = Some (Some v))
      ∧ (∀ s, Sqlite.q1_c r = Sqlite.SText s → JSON_valid s = false →
              rec !! "q1_c" = Some (Some (JArr [])))
      ∧ rec !! "consentAgreed"
        = Some (Some (JBool
            (bool_decide (Sqlite.consentAgreed r = Sqlite.SText "true")
             || bool_decide (Sqlite.consentAgreed r = Sqlite.SText "1")))).
Proof.
  intros e t r He Hr.
  eexists. exists (Sqlite.results_row (Sqlite.select_star r)).
  split; [by apply sqlite_get_api_results_200|]. split_and!.
  - apply list_elem_of_In, in_map, in_map, list_elem_of_In. by apply sort_desc_elem_of.
  - by rewrite results_row_other, select_star_id.
  - apply results_row_cell_NULL.
  - intros v Hq Hu _. by apply results_row_cell_stringify.
  - intros s Hq Hv. apply results_row_cell_invalid. by rewrite Hq.
  - apply results_row_cell_consentAgreed.
Qed.

Lemma X7_sqlite_results_of_any_row_witness
 :
  let r := {| Sqlite.id := 7; Sqlite.consentAgreed := Sqlite.SNull;
              Sqlite.gradeLevel := Sqlite.SText "3";
              Sqlite.q1_a := Sqlite.SNull; Sqlite.q1_b := Sqlite.SNull;
              Sqlite.q1_c := Sqlite.SNull;
              Sqlite.q1_d := Sqlite.SNull; Sqlite.q1_e := Sqlite.SNull;
              Sqlite.q1_f := Sqlite.SNull; Sqlite.q2_a := Sqlite.SNull;
              Sqlite.q2_b := Sqlite.SNull; Sqlite.q2_c := Sqlite.SNull;
              Sqlite.readingDuration := Sqlite.SNull;
              Sqlite.quiz_q1 := Sqlite.SNull; Sqlite.quiz_q2 := Sqlite.SNull;
              Sqlite.quiz_q3 := Sqlite.SNull; Sqlite.quiz_q4 := Sqlite.SNull;
              Sqlite.quiz_q5 := Sqlite.SNull; Sqlite.quiz_q6 := Sqlite.SNull;
              Sqlite.quiz_q7 := Sqlite.SNull;
              Sqlite.timestamp := Sqlite.SText "2025-03-01 10:00:00" |} in
  let t := Sqlite.Table [r] 7 in
  ∃ rows rec,
    Sqlite.get_api_results (Sqlite.healthy "2026-11-02 09:05:00") t
    = Response 200 (Arr rows)
    ∧ rec ∈ rows
    ∧ rec !! "id" = Some (Some (JNum 7))
    ∧ rec !! "q1_c" = Some (Some JNull)
    ∧ rec !! "consentAgreed" = Some (Some (JBool false)).
Proof.
  intros r t.
  destruct (X7_sqlite_results_of_any_row (Sqlite.healthy "2026-11-02 09:05:00") t r
              eq_refl (list_elem_of_here r []))
    as (rows & rec & Hget & Hin & Hid & Hnull & _ & _ & Hc).
  exists rows, rec. split; [exact Hget|]. split; [exact Hin|]. split; [exact Hid|].
  split; [by apply Hnull|exact Hc].
Defined.

(* ===================================================================== *)
(** ** The store over a history of requests                             *)
(* ===================================================================== *)

(** X8.  Records are never lost or rewritten by later submissions.  A
    record listed by one fetch is listed, unchanged, by every fetch after
    any further submissions, on all three revisions; on the SQLite
    revision the later list is the earlier list with the new records put
    in front. *)
Theorem X8_records_persist :
  (∀ reqs e t rows rec e',
     Sqlite.get_api_results e t = Response 200 (Arr rows) →
     rec ∈ rows →
     Sqlite.error e' = None →
     ∃ rows',
       Sqlite.get_api_results e' (Sqlite.submit_all reqs t).2 = Response 200 (Arr rows')
       ∧ rec ∈ rows')
  ∧
  (∀ reqs1 reqs2 e e',
     Sqlite.error e = None → Sqlite.error e' = None →
     ∃ older newer,
       Sqlite.get_api_results e (Sqlite.submit_all reqs1 Sqlite.empty).2
       = Response 200 (Arr older)
       ∧ Sqlite.get_api_results e' (Sqlite.submit_all (reqs1 ++ reqs2) Sqlite.empty).2
         = Response 200 (Arr (newer ++ older)))
  ∧
  (∀ rv reqs rv0 e c rows rec rv' e',
     Mongo.sent (Mongo.get_api_results rv0 e c) = Some (Response 200 (Arr rows)) →
     rec ∈ rows →
     Mongo.connect_error e' = None → Mongo.operation_error e' = None →
     ∃ rows',
       Mongo.sent (Mongo.get_api_results rv' e' (Mongo.submit_all rv reqs c).2)
       = Some (Response 200 (Arr rows'))
       ∧ rec ∈ rows').
Proof.
  split_and!.
  - intros reqs e t rows rec e' ->%sqlite_get_api_results_inv Hrec He'.
    eexists. split; [by apply sqlite_get_api_results_200|].
    apply list_elem_of_fmap in Hrec as (o & -> & Ho).
    apply list_elem_of_fmap in Ho as (r & -> & Hr).
    apply sort_desc_elem_of in Hr.
    destruct (sqlite_submit_all_rows reqs t) as (new & Hrows & _).
    apply list_elem_of_In, in_map, in_map, list_elem_of_In.
    apply sort_desc_elem_of. rewrite Hrows. apply elem_of_app. by left.
  - intros reqs1 reqs2 e e' He He'.
    rewrite sqlite_submit_all_app. cbn [snd].
    destruct (sqlite_submit_all_history reqs1 Sqlite.empty eq_refl) as [H1 _].
    destruct (sqlite_submit_all_history reqs2 _ H1) as [H2 _].
    destruct (sqlite_submit_all_rows reqs2 (Sqlite.submit_all reqs1 Sqlite.empty).2)
      as (new & Hrows & _).
    rewrite !sqlite_get_api_results_200 by done.
    rewrite H1, H2, Hrows, rev_app_distr, !map_app.
    eexists. eexists. split; reflexivity.
  - intros rv reqs rv0 e c rows rec rv' e' ->%mongo_get_api_results_inv Hrec Hc Ho.
    eexists. split; [by apply mongo_get_api_results_200|].
    apply list_elem_of_fmap in Hrec as (d & -> & Hd).
    apply sort_desc_elem_of in Hd.
    destruct (mongo_submit_all_extends rv reqs c) as (new & Hdocs).
    apply list_elem_of_In, in_map, list_elem_of_In.
    apply sort_desc_elem_of. rewrite Hdocs. apply elem_of_app. by left.
Qed.

Lemma X8_records_persist_witness :
  let a : gmap string json := {[ "gradeLevel" := JStr "3"; "q1_a" := JStr "first" ]} in
  let b : gmap string json := {[ "gradeLevel" := JStr "4"; "q1_a" := JStr "second" ]} in
  let e := Sqlite.healthy "2026-11-02 09:00:00" in
  let t := (Sqlite.post_api_submit e a Sqlite.empty).2 in
  let c := (Mongo.post_api_submit Mongo.Atlas (Mongo.healthy 10) a Mongo.empty).2 in
  (∃ rec rows',
     Sqlite.get_api_results e t = Response 200 (Arr [rec])
     ∧ Sqlite.get_api_results e (Sqlite.submit_all [(e, b)] t).2
       = Response 200 (Arr rows')
     ∧ rec ∈ rows')
  ∧ (∃ older newer,
       Sqlite.get_api_results e (Sqlite.submit_all [(e, a)] Sqlite.empty).2
       = Response 200 (Arr older)
       ∧ Sqlite.get_api_results e (Sqlite.submit_all ([(e, a)] ++ [(e, b)]) Sqlite.empty).2
         = Response 200 (Arr (newer ++ older)))
  ∧ (∃ rec rows',
       Mongo.sent (Mongo.get_api_results Mongo.Atlas (Mongo.healthy 20) c)
       = Some (Response 200 (Arr [rec]))
       ∧ Mongo.sent (Mongo.get_api_results Mongo.Guarded (Mongo.healthy 40)
                       (Mongo.submit_all Mongo.Guarded [(Mongo.healthy 30, b)] c).2)
         = Some (Response 200 (Arr rows'))
       ∧ rec ∈ rows').
Proof.
  intros a b e t c. split; [|split].
  - set (rec := match content (Sqlite.get_api_results e t) with
                | Arr (r :: _) => r
                | _ => ∅
                end).
    assert (Hget : Sqlite.get_api_results e t = Response 200 (Arr [rec]))
      by (vm_compute; reflexivity).
    destruct (proj1 X8_records_persist [(e, b)] e t [rec] rec e Hget
                (list_elem_of_here rec []) eq_refl) as (rows' & Hget' & Hin).
    exists rec, rows'. split; [exact Hget|]. split; [exact Hget'|exact Hin].
  - apply (proj1 (proj2 X8_records_persist) [(e, a)] [(e, b)] e e); reflexivity.
  - set (rec := match Mongo.sent (Mongo.get_api_results Mongo.Atlas (Mongo.healthy 20) c) with
                | Some (Response _ (Arr (r :: _))) => r
                | _ => ∅
                end).
    assert (Hget : Mongo.sent (Mongo.get_api_results Mongo.Atlas (Mongo.healthy 20) c)
                   = Some (Response 200 (Arr [rec]))) by (vm_compute; reflexivity).
    destruct (proj2 (proj2 X8_records_persist) Mongo.Guarded
                [(Mongo.healthy 30, b)] Mongo.Atlas (Mongo.healthy 20) c [rec] rec
                Mongo.Guarded (Mongo.healthy 40) Hget (list_elem_of_here rec [])
                eq_refl eq_refl) as (rows' & Hget' & Hin).
    exists rec, rows'. split; [exact Hget|]. split; [exact Hget'|exact Hin].
Defined.

(** X9.  Identifiers are unique.  In any history of submissions from the
    empty store no two responses announce the same identifier and no two
    records of a fetched list carry the same [id]: on the SQLite revision
    for every history, on the MongoDB revisions for the histories whose
    payloads bring no [_id] of their own, where every identifier is an
    [ObjectId] of the store. *)
Theorem X9_identifiers_unique :
  (∀ reqs,
     NoDup (Sqlite.announced (Sqlite.submit_all reqs Sqlite.empty).1)
     ∧ ∀ e rows,
         Sqlite.get_api_results e (Sqlite.submit_all reqs Sqlite.empty).2
         = Response 200 (Arr rows) →
         NoDup ((fun o : gmap string jsval => o !! "id") <$> rows))
  ∧
  (∀ rv reqs,
     Forall (fun q : Mongo.env * gmap string json => q.2 !! "_id" = None) reqs →
     NoDup (Mongo.announced (Mongo.submit_all rv reqs Mongo.empty).1)
     ∧ ∀ rv' e rows,
         Mongo.sent (Mongo.get_api_results rv' e (Mongo.submit_all rv reqs Mongo.empty).2)
         = Some (Response 200 (Arr rows)) →
         NoDup ((fun o : gmap string Mongo.value => o !! "id") <$> rows)).
Proof.
  split.
  - intros reqs.
    assert (Hnd : NoDup (Sqlite.announced (Sqlite.submit_all reqs Sqlite.empty).1)).
    { rewrite sqlite_announced_count.
      apply NoDup_fmap_2; [|apply NoDup_seq].
      intros x y [= H]. lia. }
    split; [done|].
    intros e rows ->%sqlite_get_api_results_inv.
    destruct (sqlite_submit_all_history reqs Sqlite.empty eq_refl) as [_ H].
    cbn [Sqlite.rows Sqlite.empty fmap list_fmap app] in H.
    change (Sqlite.results_row <$> (Sqlite.select_star <$> ?l))
      with (List.map Sqlite.results_row (List.map Sqlite.select_star l)).
    rewrite sqlite_results_ids.
    apply NoDup_fmap_2; [by intros x y [=]|].
    rewrite (sort_desc_Permutation _ (Sqlite.rows _)), H. done.
  - intros rv reqs _.
    destruct (mongo_submit_all_ids rv reqs Mongo.empty well_formed_empty)
      as (new & Hdocs & Hids).
    rewrite app_nil_l in Hdocs. rewrite <- Hdocs in Hids. clear new Hdocs.
    pose proof (mongo_submit_all_NoDup rv reqs Mongo.empty well_formed_empty
                  (NoDup_nil_2)) as Hnd.
    rewrite Hids in Hnd.
    split; [by apply NoDup_fmap_1 in Hnd|].
    intros rv' e rows ->%mongo_get_api_results_inv.
    rewrite (sort_desc_Permutation _ (Mongo.docs _)).
    rewrite (mongo_results_ids _ _ Hids). done.
Qed.

Lemma X9_identifiers_unique_witness :
  let a : gmap string json := {[ "gradeLevel" := JStr "3"; "q1_a" := JStr "yes" ]} in
  let b : gmap string json := {[ "gradeLevel" := JStr "4" ]} in
  let reqs := [(Mongo.healthy 10, a); (Mongo.healthy 20, a); (Mongo.healthy 30, b)] in
  let reqs' := [(Sqlite.healthy "2026-11-02 09:00:00", a);
                (Sqlite.healthy "2026-11-02 09:00:01", b)] in
  (∃ rows,
     Sqlite.get_api_results (Sqlite.healthy "2026-11-02 09:05:00")
       (Sqlite.submit_all reqs' Sqlite.empty).2 = Response 200 (Arr rows)
     ∧ length rows = 2%nat
     ∧ NoDup ((fun o : gmap string jsval => o !! "id") <$> rows))
  ∧ (Forall (fun q : Mongo.env * gmap string json => q.2 !! "_id" = None) reqs
     ∧ ∃ rows,
         Mongo.sent (Mongo.get_api_results Mongo.Guarded (Mongo.healthy 40)
                       (Mongo.submit_all Mongo.Atlas reqs Mongo.empty).2)
         = Some (Response 200 (Arr rows))
         ∧ length rows = 3%nat
         ∧ NoDup ((fun o : gmap string Mongo.value => o !! "id") <$> rows)).
Proof.
  intros a b reqs reqs'. split.
  - eexists. split; [vm_compute; reflexivity|]. split; [reflexivity|].
    apply (proj2 (proj1 X9_identifiers_unique reqs')
             (Sqlite.healthy "2026-11-02 09:05:00")).
    vm_compute; reflexivity.
  - assert (Hown : Forall (fun q : Mongo.env * gmap string json =>
                             q.2 !! "_id" = None) reqs)
      by (repeat constructor).
    split; [exact Hown|].
    eexists. split; [vm_compute; reflexivity|]. split; [reflexivity|].
    apply (proj2 (proj2 X9_identifiers_unique Mongo.Atlas reqs Hown)
             Mongo.Guarded (Mongo.healthy 40)).
    vm_compute; reflexivity.
Defined.

(** X10.  What a handler answers tells what it did to the store.  On all
    three revisions the submission handler, run on a parsed body, either
    answers 201 with the identifier of the one record it appended, which
    that record carries, or answers 500 with no [id] and has stored
    nothing; the results handler either answers 200 with one record per
    stored record, or answers 500 with a message.  (Requests that
    [express.json()] refuses never reach a handler.) *)
Theorem X10_one_record_per_accepted_submission :
  (∀ e data t,
     (status (Sqlite.post_api_submit e data t).1 = 201
      ∧ ∃ row, Sqlite.rows (Sqlite.post_api_submit e data t).2
               = (Sqlite.rows t ++ [row])%list
             ∧ field (Sqlite.post_api_submit e data t).1 "id"
               = Some (Some (JNum (Sqlite.id row))))
     ∨ (status (Sqlite.post_api_submit e data t).1 = 500
        ∧ (Sqlite.post_api_submit e data t).2 = t
        ∧ field (Sqlite.post_api_submit e data t).1 "id" = None))
  ∧
  (∀ e t,
     (∃ rows, Sqlite.get_api_results e t = Response 200 (Arr rows)
            ∧ length rows = length (Sqlite.rows t))
     ∨ (status (Sqlite.get_api_results e t) = 500
        ∧ ∃ m, field (Sqlite.get_api_results e t) "message" = Some (Some (JStr m))))
  ∧
  (∀ rv e data c,
     ∃ r, Mongo.sent (Mongo.post_api_submit rv e data c).1 = Some r
        ∧ ((status r = 201
            ∧ ∃ doc i, Mongo.docs (Mongo.post_api_submit rv e data c).2
                       = (Mongo.docs c ++ [doc])%list
                     ∧ field r "id" = Some i
                     ∧ doc !! "_id" = Some i)
           ∨ (status r = 500
              ∧ (Mongo.post_api_submit rv e data c).2 = c
              ∧ field r "id" = None)))
  ∧
  (∀ rv e c,
     ∃ r, Mongo.sent (Mongo.get_api_results rv e c) = Some r
        ∧ ((∃ rows, r = Response 200 (Arr rows)
                  ∧ length rows = length (Mongo.docs c))
           ∨ (status r = 500
              ∧ ∃ m, field r "message" = Some (Mongo.J (JStr m))))).
Proof.
  split_and!.
  - intros e data t.
    destruct (sqlite_post_api_submit_cases e data t)
      as [(m & _ & ->)|(t' & i & Hrun & ->)]; cbn [fst snd]; [right; done|left].
    split; [done|].
    destruct (run_insert_Ok e data t t' i Hrun) as (_ & _ & row & -> & <- & _).
    exists row. split; [done|]. apply sqlite_field_submitted_id.
  - intros e t. unfold Sqlite.get_api_results, Sqlite.db_all.
    destruct (Sqlite.error e); [right; split; [done|by eexists]|left].
    eexists. split; [done|].
    rewrite !length_map. apply Permutation_length, sort_desc_Permutation.
  - intros rv e data c.
    destruct (mongo_post_api_submit_cases rv e data c)
      as [(m & _ & ->)|[(m & _ & _ & ->)|(c' & i & _ & Hi & ->)]]; cbn [fst snd];
      rewrite ?sent_finally; eexists; (split; [done|]); [right; done|right; done|left].
    split; [done|].
    unfold Mongo.insertOne in Hi.
    destruct (Mongo.operation_error e); [done|].
    destruct (Mongo.supplied_id _) as [j|] eqn:Hs.
    + destruct (existsb _ _); [done|]. injection Hi as <- <-.
      eexists. exists j. split; [done|]. split; [apply mongo_field_submitted_id|].
      apply supplied_id_Some in Hs as (Hj & Hu & Hn).
      rewrite to_bson_lookup, Hj. by destruct j as [|[]| |].
    + injection Hi as <- <-.
      eexists. eexists. split; [done|]. split; [apply mongo_field_submitted_id|].
      apply lookup_insert_eq.
  - intros rv e c. unfold Mongo.get_api_results, Mongo.find_sorted.
    destruct (Mongo.connect_error e); cbn [Mongo.step];
      [eexists; split; [done|]; right; split; [done|by eexists]|].
    destruct (Mongo.operation_error e); rewrite sent_finally;
      (eexists; split; [done|]); [right; split; [done|by eexists]|left].
    eexists. split; [done|].
    rewrite length_map. apply Permutation_length, sort_desc_Permutation.
Qed.

(** X11.  An omitted duration reads as [null].  After a submission
    answered 201 whose payload has no [finalReadingDuration], the fetched
    record carries [finalReadingDuration: null] and no [readingDuration],
    on all three revisions, whatever [readingDuration] the payload itself
    may carry. *)
Theorem X11_omitted_duration_is_null :
  (∀ rv prior e data o c' i rv' e',
     Mongo.post_api_submit rv e data (Mongo.submit_all rv prior Mongo.empty).2
       = (o, c') →
     Mongo.sent o = Some (Mongo.submitted i) →
     Mongo.connect_error e' = None → Mongo.operation_error e' = None →
     data !! "finalReadingDuration" = None →
     ∃ rows r,
       Mongo.sent (Mongo.get_api_results rv' e' c') = Some (Response 200 (Arr rows))
       ∧ the_record i rows r
       ∧ r !! "finalReadingDuration" = Some (Mongo.J JNull)
       ∧ r !! "readingDuration" = None)
  ∧
  (∀ e data t t' i e',
     Sqlite.post_api_submit e data t = (Sqlite.submitted i, t') →
     Sqlite.error e' = None →
     data !! "finalReadingDuration" = None →
     ∃ rows r,
       Sqlite.get_api_results e' t' = Response 200 (Arr rows)
       ∧ the_record (Some (JNum i)) rows r
       ∧ r !! "finalReadingDuration" = Some (Some JNull)
       ∧ r !! "readingDuration" = None).
Proof.
  split.
  - intros rv prior e data o c' i rv' e' Hp Hs Hc Ho Hd.
    destruct (mongo_cycle rv prior e data o c' i rv' e' Hp Hs Hc Ho)
      as (rows & Hget & Hrec).
    exists rows. eexists. split; [done|]. split; [done|].
    rewrite mongo_record_finalReadingDuration, Hd.
    split; [done|]. apply finalRow_readingDuration.
  - intros e data t t' i e' Hp He' Hd.
    destruct (sqlite_submit_fetch e data t t' i e' Hp He')
      as (r0 & rest & _ & _ & _ & _ & Hrd & Hget & Hrec).
    eexists. eexists. split; [done|]. split; [done|].
    rewrite results_row_finalReadingDuration, results_row_readingDuration.
    split; [|done]. unfold Sqlite.prop.
    by rewrite select_star_readingDuration, Hrd, Hd.
Qed.

Lemma X11_omitted_duration_is_null_witness :
  let data : gmap string json :=
    {[ "gradeLevel" := JStr "3"; "readingDuration" := JNum 7 ]} in
  let sub := Mongo.post_api_submit Mongo.Atlas (Mongo.healthy 10) data Mongo.empty in
  let sub' := Sqlite.post_api_submit (Sqlite.healthy "2026-11-02 09:00:00")
                data Sqlite.empty in
  (Mongo.sent sub.1 = Some (Mongo.submitted (Mongo.ObjectId 0))
   ∧ ∃ rows r,
       Mongo.sent (Mongo.get_api_results Mongo.Atlas (Mongo.healthy 20) sub.2)
       = Some (Response 200 (Arr rows))
       ∧ the_record (Mongo.ObjectId 0) rows r
       ∧ r !! "finalReadingDuration" = Some (Mongo.J JNull)
       ∧ r !! "readingDuration" = None)
  ∧ (sub'.1 = Sqlite.submitted 1
     ∧ ∃ rows r,
         Sqlite.get_api_results (Sqlite.healthy "2026-11-02 09:05:00") sub'.2
         = Response 200 (Arr rows)
         ∧ the_record (Some (JNum 1)) rows r
         ∧ r !! "finalReadingDuration" = Some (Some JNull)
         ∧ r !! "readingDuration" = None).
Proof.
  intros data sub sub'. split.
  - split; [vm_compute; reflexivity|].
    apply (proj1 X11_omitted_duration_is_null Mongo.Atlas [] (Mongo.healthy 10) data
             sub.1 sub.2 (Mongo.ObjectId 0) Mongo.Atlas (Mongo.healthy 20));
      vm_compute; reflexivity.
  - split; [vm_compute; reflexivity|].
    apply (proj2 X11_omitted_duration_is_null (Sqlite.healthy "2026-11-02 09:00:00")
             data Sqlite.empty sub'.2 1 (Sqlite.healthy "2026-11-02 09:05:00"));
      vm_compute; reflexivity.
Defined.

(* ===================================================================== *)
(** ** The MongoDB revisions, end to end                                *)
(* ===================================================================== *)

(** X12.  MongoDB revisions, [q1_c] is always stored as a list: after a
    submission answered 201 the fetched [q1_c] is the submitted list as it
    is, the one-element list of a submitted value that is not a list and is
    truthy (a non-empty string, a non-zero number, [true], an object), and
    the empty list for a falsy value ([null], [false], 0, the empty string)
    or an omitted field. *)
Theorem X12_mongo_q1_c_always_list :
  ∀ rv prior e data o c' i rv' e',
    Mongo.post_api_submit rv e data (Mongo.submit_all rv prior Mongo.empty).2
      = (o, c') →
    Mongo.sent o = Some (Mongo.submitted i) →
    Mongo.connect_error e' = None → Mongo.operation_error e' = None →
    ∃ rows r,
      Mongo.sent (Mongo.get_api_results rv' e' c') = Some (Response 200 (Arr rows))
      ∧ the_record i rows r
      ∧ (∀ l, data !! "q1_c" = Some (JArr l) → r !! "q1_c" = Some (Mongo.J (JArr l)))
      ∧ (∀ j, data !! "q1_c" = Some j → Array_isArray (Some j) = false →
              ToBoolean (Some j) = true → r !! "q1_c" = Some (Mongo.J (JArr [j])))
      ∧ (∀ j, data !! "q1_c" = Some j → Array_isArray (Some j) = false →
              ToBoolean (Some j) = false → r !! "q1_c" = Some (Mongo.J (JArr [])))
      ∧ (data !! "q1_c" = None → r !! "q1_c" = Some (Mongo.J (JArr []))).
Proof.
  intros rv prior e data o c' i rv' e' Hp Hs Hc Ho.
  destruct (mongo_cycle rv prior e data o c' i rv' e' Hp Hs Hc Ho)
    as (rows & Hget & Hrec).
  exists rows. eexists. split; [done|]. split; [done|].
  rewrite mongo_record_field, docToInsert_q1_c by done.
  split_and!.
  - by intros l ->.
  - intros j -> Ha Ht. destruct j; try done; cbn [Mongo.q1_c_array]; by rewrite Ht.
  - intros j -> Ha Ht. destruct j; try done; cbn [Mongo.q1_c_array]; by rewrite Ht.
  - by intros ->.
Qed.

Lemma X12_mongo_q1_c_always_list_witness :
  let data : gmap string json := {[ "gradeLevel" := JStr "3"; "q1_c" := JNum 0 ]} in
  let sub := Mongo.post_api_submit Mongo.Atlas (Mongo.healthy 10) data Mongo.empty in
  Mongo.sent sub.1 = Some (Mongo.submitted (Mongo.ObjectId 0))
  ∧ ∃ rows r,
      Mongo.sent (Mongo.get_api_results Mongo.Atlas (Mongo.healthy 20) sub.2)
      = Some (Response 200 (Arr rows))
      ∧ the_record (Mongo.ObjectId 0) rows r
      ∧ r !! "q1_c" = Some (Mongo.J (JArr [])).
Proof.
  intros data sub. split; [vm_compute; reflexivity|].
  destruct (X12_mongo_q1_c_always_list Mongo.Atlas [] (Mongo.healthy 10) data
              sub.1 sub.2 (Mongo.ObjectId 0) Mongo.Atlas (Mongo.healthy 20))
    as (rows & r & Hget & Hrec & _ & _ & Hfalsy & _);
    [vm_compute; reflexivity|vm_compute; reflexivity|reflexivity|reflexivity|].
  exists rows, r. split; [exact Hget|]. split; [exact Hrec|].
  apply (Hfalsy (JNum 0)); vm_compute; reflexivity.
Defined.

(** X13.  MongoDB revisions, what every fetched record looks like: after
    any history of submissions from the empty collection each record of a
    fetched list has a list under [q1_c], a boolean under [consentAgreed]
    and a date under [timestamp], and none of its fields is [undefined]. *)
Theorem X13_mongo_records_normalised :
  ∀ rv reqs rv' e rows rec,
    Mongo.sent (Mongo.get_api_results rv' e (Mongo.submit_all rv reqs Mongo.empty).2)
      = Some (Response 200 (Arr rows)) →
    rec ∈ rows →
    (∃ l, rec !! "q1_c" = Some (Mongo.J (JArr l)))
    ∧ (∃ b, rec !! "consentAgreed" = Some (Mongo.J (JBool b)))
    ∧ (∃ q, q ∈ reqs ∧ rec !! "timestamp" = Some (Mongo.Date (Mongo.now q.1)))
    ∧ (∀ k, rec !! k ≠ Some Mongo.Undefined).
Proof.
  intros rv reqs rv' e rows rec ->%mongo_get_api_results_inv Hrec.
  apply list_elem_of_fmap in Hrec as (doc & -> & Hdoc).
  apply sort_desc_elem_of in Hdoc.
  destruct (mongo_submit_all_origin rv reqs Mongo.empty well_formed_empty)
    as (new & Hdocs & Hnew).
  rewrite app_nil_l in Hdocs. rewrite Hdocs in Hdoc.
  destruct (Hnew doc Hdoc) as (e0 & data & i & Hin & Hi & ->).
  split_and!.
  - rewrite mongo_record_field, docToInsert_q1_c by done.
    destruct (q1_c_array_is_list (data !! "q1_c")) as [l ->]. by exists l.
  - rewrite mongo_record_field, docToInsert_consentAgreed by done. by eexists.
  - exists (e0, data). split; [done|].
    by rewrite mongo_record_field, docToInsert_timestamp.
  - intros k.
    destruct (decide (k = "id")) as [->|].
    { rewrite finalRow_id. unfold Mongo.prop, Mongo.stored.
      rewrite lookup_insert_eq. intros [= H]. by apply Hi. }
    destruct (decide (k = "finalReadingDuration")) as [->|].
    { rewrite mongo_record_finalReadingDuration.
      by destruct (data !! "finalReadingDuration"). }
    destruct (decide (k = "_id")) as [->|]; [by rewrite finalRow__id|].
    destruct (decide (k = "readingDuration")) as [->|];
      [by rewrite finalRow_readingDuration|].
    rewrite mongo_record_field by done.
    by destruct (Mongo.docToInsert (Mongo.now e0) data !! k) as [[]|].
Qed.

Lemma X13_mongo_records_normalised_witness :
  let a : gmap string json :=
    {[ "gradeLevel" := JStr "3"; "q1_c" := JStr "A"; "consentAgreed" := JStr "yes" ]} in
  let reqs := [(Mongo.healthy 10, a)] in
  ∃ rec,
    Mongo.sent (Mongo.get_api_results Mongo.Guarded (Mongo.healthy 20)
                  (Mongo.submit_all Mongo.Guarded reqs Mongo.empty).2)
    = Some (Response 200 (Arr [rec]))
    ∧ (∃ l, rec !! "q1_c" = Some (Mongo.J (JArr l)))
    ∧ (∃ b, rec !! "consentAgreed" = Some (Mongo.J (JBool b)))
    ∧ rec !! "finalReadingDuration" ≠ Some Mongo.Undefined.
Proof.
  intros a reqs.
  set (rec := match Mongo.sent (Mongo.get_api_results Mongo.Guarded (Mongo.healthy 20)
                                  (Mongo.submit_all Mongo.Guarded reqs Mongo.empty).2) with
              | Some (Response _ (Arr (r :: _))) => r
              | _ => ∅
              end).
  assert (Hget : Mongo.sent (Mongo.get_api_results Mongo.Guarded (Mongo.healthy 20)
                               (Mongo.submit_all Mongo.Guarded reqs Mongo.empty).2)
                 = Some (Response 200 (Arr [rec]))) by (vm_compute; reflexivity).
  destruct (X13_mongo_records_normalised Mongo.Guarded reqs Mongo.Guarded
              (Mongo.healthy 20) [rec] rec Hget (list_elem_of_here rec []))
    as (Hq & Hc & _ & Hu).
  exists rec. split; [exact Hget|]. split; [exact Hq|]. split; [exact Hc|]. apply Hu.
Defined.

(** X14.  MongoDB revisions, every other field is kept as submitted: after
    a submission answered 201 the fetched record carries each field of the
    payload that the handlers do not rewrite, fields the survey does not
    know included, with the submitted value, and lacks the fields the
    payload lacks. *)
Theorem X14_mongo_fields_pass_through :
  ∀ rv prior e data o c' i rv' e' k,
    Mongo.post_api_submit rv e data (Mongo.submit_all rv prior Mongo.empty).2
      = (o, c') →
    Mongo.sent o = Some (Mongo.submitted i) →
    Mongo.connect_error e' = None → Mongo.operation_error e' = None →
    k ∉ ["id"; "_id"; "q1_c"; "consentAgreed"; "timestamp"; "readingDuration";
         "finalReadingDuration"] →
    ∃ rows r,
      Mongo.sent (Mongo.get_api_results rv' e' c') = Some (Response 200 (Arr rows))
      ∧ the_record i rows r
      ∧ r !! k = Mongo.J <$> data !! k.
Proof.
  intros rv prior e data o c' i rv' e' k Hp Hs Hc Ho Hk.
  destruct (mongo_cycle rv prior e data o c' i rv' e' Hp Hs Hc Ho)
    as (rows & Hget & Hrec).
  exists rows. eexists. split; [done|]. split; [done|].
  assert (Hne : ∀ x, x ∈ ["id"; "_id"; "q1_c"; "consentAgreed"; "timestamp";
                          "readingDuration"; "finalReadingDuration"] → k ≠ x)
    by (intros x Hx ->; done).
  rewrite mongo_record_field, docToInsert_other
    by (apply Hne; repeat constructor).
  by destruct (data !! k).
Qed.

Lemma X14_mongo_fields_pass_through_witness :
  let data : gmap string json :=
    {[ "gradeLevel" := JNum 3; "nickname" := JObj [("first", JStr "kim")] ]} in
  let sub := Mongo.post_api_submit Mongo.Guarded (Mongo.healthy 10) data Mongo.empty in
  Mongo.sent sub.1 = Some (Mongo.submitted (Mongo.ObjectId 0))
  ∧ ∃ rows r,
      Mongo.sent (Mongo.get_api_results Mongo.Guarded (Mongo.healthy 20) sub.2)
      = Some (Response 200 (Arr rows))
      ∧ the_record (Mongo.ObjectId 0) rows r
      ∧ r !! "nickname" = Some (Mongo.J (JObj [("first", JStr "kim")])).
Proof.
  intros data sub. split; [vm_compute; reflexivity|].
  destruct (X14_mongo_fields_pass_through Mongo.Guarded [] (Mongo.healthy 10) data
              sub.1 sub.2 (Mongo.ObjectId 0) Mongo.Guarded (Mongo.healthy 20) "nickname")
    as (rows & r & Hget & Hrec & Hk);
    [vm_compute; reflexivity|vm_compute; reflexivity|reflexivity|reflexivity| |].
  { intros Hin. repeat (apply elem_of_cons in Hin as [Hin|Hin]; [done|]).
    by apply elem_of_nil in Hin. }
  exists rows, r. split; [exact Hget|]. split; [exact Hrec|].
  rewrite Hk. vm_compute; reflexivity.
Defined.

(** X15.  MongoDB revisions: a client cannot set [readingDuration],
    [timestamp] or [id].  Two payloads that differ at most in those three
    fields get the same response, and every later fetch answers the same
    for both: the first two are overwritten when the document is built, the
    third when the record is. *)
Theorem X15_mongo_client_cannot_set_server_fields :
  ∀ rv e (d1 d2 : gmap string json) c,
    (∀ k, k ∉ ["readingDuration"; "timestamp"; "id"] → d1 !! k = d2 !! k) →
    (Mongo.post_api_submit rv e d1 c).1 = (Mongo.post_api_submit rv e d2 c).1
    ∧ ∀ rv' e',
        Mongo.get_api_results rv' e' (Mongo.post_api_submit rv e d1 c).2
        = Mongo.get_api_results rv' e' (Mongo.post_api_submit rv e d2 c).2.
Proof.
  intros rv e d1 d2 c H.
  destruct (mongo_post_api_submit_agree rv e d1 d2 c H) as [H1 H2].
  split; [done|]. intros rv' e'. by apply mongo_get_api_results_fmap.
Qed.

Lemma X15_mongo_client_cannot_set_server_fields_witness :
  let d1 : gmap string json := {[ "gradeLevel" := JStr "3" ]} in
  let d2 : gmap string json :=
    {[ "gradeLevel" := JStr "3"; "id" := JNum 99; "readingDuration" := JNum 7;
       "timestamp" := JStr "1999-01-01T00:00:00Z" ]} in
  let e := Mongo.healthy 10 in
  (∀ k, k ∉ ["readingDuration"; "timestamp"; "id"] → d1 !! k = d2 !! k)
  ∧ (Mongo.post_api_submit Mongo.Atlas e d1 Mongo.empty).1
    = (Mongo.post_api_submit Mongo.Atlas e d2 Mongo.empty).1
  ∧ Mongo.get_api_results Mongo.Atlas (Mongo.healthy 20)
      (Mongo.post_api_submit Mongo.Atlas e d1 Mongo.empty).2
    = Mongo.get_api_results Mongo.Atlas (Mongo.healthy 20)
        (Mongo.post_api_submit Mongo.Atlas e d2 Mongo.empty).2.
Proof.
  intros d1 d2 e.
  assert (H : ∀ k, k ∉ ["readingDuration"; "timestamp"; "id"] → d1 !! k = d2 !! k).
  { intros k Hk.
    destruct (decide (k = "gradeLevel")) as [->|Hg]; [vm_compute; reflexivity|].
    assert (k ≠ "id" ∧ k ≠ "readingDuration" ∧ k ≠ "timestamp") as (? & ? & ?)
      by (split_and!; intros ->; apply Hk; repeat constructor).
    unfold d1, d2. by rewrite !lookup_insert_ne, !lookup_singleton_ne by done. }
  split; [exact H|].
  destruct (X15_mongo_client_cannot_set_server_fields Mongo.Atlas e d1 d2 Mongo.empty H)
    as [H1 H2].
  split; [exact H1|apply H2].
Defined.

(** X16.  MongoDB revisions, a payload that brings its own [_id]: when the
    submission is answered 201 the announced [id] is that [_id] and a later
    fetch lists the record under it; when a stored document already has
    that [_id] the submission is answered 500 and the collection is left as
    it was, so the same payload is never stored twice. *)
Theorem X16_mongo_own_id :
  (∀ rv prior e data o c' i j rv' e',
     data !! "_id" = Some j → j ≠ JNull →
     Mongo.post_api_submit rv e data (Mongo.submit_all rv prior Mongo.empty).2
       = (o, c') →
     Mongo.sent o = Some (Mongo.submitted i) →
     Mongo.connect_error e' = None → Mongo.operation_error e' = None →
     i = Mongo.J j
     ∧ (∃ d, d ∈ Mongo.docs c' ∧ d !! "_id" = Some (Mongo.J j))
     ∧ ∃ rows r,
         Mongo.sent (Mongo.get_api_results rv' e' c') = Some (Response 200 (Arr rows))
         ∧ the_record (Mongo.J j) rows r)
  ∧
  (∀ rv e data c j d,
     data !! "_id" = Some j → j ≠ JNull →
     d ∈ Mongo.docs c → d !! "_id" = Some (Mongo.J j) →
     ∃ r, Mongo.sent (Mongo.post_api_submit rv e data c).1 = Some r
        ∧ status r = 500
        ∧ (Mongo.post_api_submit rv e data c).2 = c).
Proof.
  split.
  - intros rv prior e data o c' i j rv' e' Hid Hj Hp Hs Hc Ho.
    destruct (mongo_cycle rv prior e data o c' i rv' e' Hp Hs Hc Ho)
      as (rows & Hget & Hrec).
    assert (Hwf : Mongo.well_formed (Mongo.submit_all rv prior Mongo.empty).2)
      by apply mongo_submit_all_well_formed, well_formed_empty.
    pose proof (mongo_post_api_submit_201_insertOne _ _ _ _ _ _ _ Hp Hs) as Hi.
    pose proof (insertOne_supplied _ _ _ _ _ _
                  (docToInsert_supplied_id_Some (Mongo.now e) data j Hid Hj) Hi) as ->.
    split; [done|]. split; [|by exists rows; eexists].
    eapply insertOne_Ok in Hi as (_ & Hdocs & _);
      [|done|apply docToInsert_no_ObjectId].
    eexists. split.
    + rewrite Hdocs. apply elem_of_app. right. by left.
    + apply lookup_insert_eq.
  - intros rv e data c j d Hid Hj Hd Hdj.
    unfold Mongo.post_api_submit, Mongo.insertOne.
    destruct (Mongo.step (Mongo.connect_error e)); [|by eexists].
    destruct (Mongo.operation_error e);
      [cbn [fst snd]; rewrite sent_finally; by eexists|].
    rewrite (docToInsert_supplied_id_Some _ _ _ Hid Hj).
    rewrite (existsb_id_true _ d _ Hd Hdj).
    cbn [fst snd]. rewrite sent_finally. by eexists.
Qed.

Lemma X16_mongo_own_id_witness :
  let data : gmap string json := {[ "gradeLevel" := JStr "3"; "_id" := JStr "kim" ]} in
  let sub := Mongo.post_api_submit Mongo.Guarded (Mongo.healthy 10) data Mongo.empty in
  let again := Mongo.post_api_submit Mongo.Guarded (Mongo.healthy 20) data sub.2 in
  (Mongo.sent sub.1 = Some (Mongo.submitted (Mongo.J (JStr "kim")))
   ∧ ∃ rows r,
       Mongo.sent (Mongo.get_api_results Mongo.Guarded (Mongo.healthy 30) sub.2)
       = Some (Response 200 (Arr rows))
       ∧ the_record (Mongo.J (JStr "kim")) rows r)
  ∧ ∃ r, Mongo.sent again.1 = Some r ∧ status r = 500 ∧ again.2 = sub.2.
Proof.
  intros data sub again.
  assert (Hsub : Mongo.sent sub.1 = Some (Mongo.submitted (Mongo.J (JStr "kim"))))
    by (vm_compute; reflexivity).
  destruct (proj1 X16_mongo_own_id Mongo.Guarded [] (Mongo.healthy 10) data
              sub.1 sub.2 (Mongo.J (JStr "kim")) (JStr "kim") Mongo.Guarded
              (Mongo.healthy 30))
    as (_ & (d & Hd & Hdj) & Hrows);
    [vm_compute; reflexivity|done|vm_compute; reflexivity|exact Hsub
    |reflexivity|reflexivity|].
  split; [split; [exact Hsub|exact Hrows]|].
  apply (proj2 X16_mongo_own_id Mongo.Guarded (Mongo.healthy 20) data sub.2
           (JStr "kim") d); [vm_compute; reflexivity|done|exact Hd|exact Hdj].
Defined.

(** X17.  MongoDB revisions, what a failing [close] does.  Every request
    is answered, and the response and the collection afterwards do not
    depend on whether closing the connection fails, nor on the revision.
    An error escapes a handler exactly on the [part_000] revision when the
    connection was opened and closing it fails: the error of [close], after
    the response has been sent.  The handlers of [server.js] let no error
    escape. *)
Theorem X17_mongo_failing_close :
  (∀ rv e data c m,
     Mongo.rejected (Mongo.post_api_submit rv e data c).1 = Some m
     ↔ rv = Mongo.Atlas ∧ Mongo.connect_error e = None ∧ Mongo.close_error e = Some m)
  ∧
  (∀ rv e c m,
     Mongo.rejected (Mongo.get_api_results rv e c) = Some m
     ↔ rv = Mongo.Atlas ∧ Mongo.connect_error e = None ∧ Mongo.close_error e = Some m)
  ∧
  (∀ rv e data c,
     let e0 := Mongo.Env (Mongo.now e) (Mongo.connect_error e)
                 (Mongo.operation_error e) None in
     (∃ r, Mongo.sent (Mongo.post_api_submit rv e data c).1 = Some r)
     ∧ Mongo.sent (Mongo.post_api_submit rv e data c).1
       = Mongo.sent (Mongo.post_api_submit Mongo.Guarded e0 data c).1
     ∧ (Mongo.post_api_submit rv e data c).2
       = (Mongo.post_api_submit Mongo.Guarded e0 data c).2)
  ∧
  (∀ rv e c,
     let e0 := Mongo.Env (Mongo.now e) (Mongo.connect_error e)
                 (Mongo.operation_error e) None in
     (∃ r, Mongo.sent (Mongo.get_api_results rv e c) = Some r)
     ∧ Mongo.sent (Mongo.get_api_results rv e c)
       = Mongo.sent (Mongo.get_api_results Mongo.Guarded e0 c)).
Proof.
  split_and!.
  - intros rv e data c m. unfold Mongo.post_api_submit.
    destruct (Mongo.connect_error e) as [mc|]; cbn [Mongo.step].
    + cbn [fst Mongo.rejected]. split; [done|]. by intros (_ & ? & _).
    + destruct (Mongo.insertOne e c _) as [[c1 i1]|m1]; cbn [fst];
        rewrite rejected_finally_iff; split;
        try (by intros [-> ->]); by intros (-> & _ & ->).
  - intros rv e c m. unfold Mongo.get_api_results.
    destruct (Mongo.connect_error e) as [mc|]; cbn [Mongo.step].
    + cbn [Mongo.rejected]. split; [done|]. by intros (_ & ? & _).
    + destruct (Mongo.find_sorted e c) as [l|m1];
        rewrite rejected_finally_iff; split;
        try (by intros [-> ->]); by intros (-> & _ & ->).
  - intros rv e data c. cbv zeta. unfold Mongo.post_api_submit.
    cbn [Mongo.connect_error Mongo.now]. rewrite <- insertOne_close.
    destruct (Mongo.step (Mongo.connect_error e));
      [|split_and!; [by eexists|done|done]].
    destruct (Mongo.insertOne e c _) as [[c1 i1]|m1]; cbn [fst snd];
      rewrite !sent_finally; split_and!; by eauto.
  - intros rv e c. cbv zeta. unfold Mongo.get_api_results.
    cbn [Mongo.connect_error]. rewrite <- find_sorted_close.
    destruct (Mongo.step (Mongo.connect_error e)); [|split; [by eexists|done]].
    destruct (Mongo.find_sorted e c) as [l|m1];
      rewrite !sent_finally; split; by eauto.
Qed.

(* ===================================================================== *)
(** ** The JSON text of a value                                           *)
(* ===================================================================== *)

(** X18.  [JSON.parse] undoes [JSON.stringify]: the text the SQLite
    submission handler stores for a JSON value (null, booleans, integers,
    strings with any bytes, arrays and objects nested to any depth) parses
    back, in the results handler, to that very value. *)
Theorem X18_JSON_parse_after_JSON_stringify :
  ∀ v, unique_keys v = true → JSON_parse (JSON_stringify v) = Some v.
Proof.
  intros v Hu. by apply JSON_parse_stringify.
Qed.

Lemma X18_JSON_parse_after_JSON_stringify_witness :
  let v := JObj [ ("grades", JArr [JNum 3; JNum (-12); JNull; JBool true]);
                  ("name", JStr "Kim, J.\n[3]") ] in
  unique_keys v = true ∧ JSON_parse (JSON_stringify v) = Some v.
Proof.
  intros v.
  assert (Hu : unique_keys v = true) by (vm_compute; reflexivity).
  split; [exact Hu|]. exact (X18_JSON_parse_after_JSON_stringify v Hu).
Defined.
